(** * expense-flow: the four-agent expense pipeline, embedded in Rocq

    A shallow embedding of the backend of [hanifekaptan/expense-flow]
    ([src/backend]): the classifier, searcher, analyst and strategist
    agents, the code executor, the domain enums and models and the
    orchestrator, followed by the properties that the specification states
    about them.

    Conventions.
    - A Python [str] is the list of its Unicode code points ([pystr]).
    - A Python [float] is an IEEE 754 binary64 value, taken from the
      Standard Library's [SpecFloat] at precision 53 and [emax] 1024, so
      that rounding, signed zeros, infinities and NaN are the ones the
      interpreter computes with.
    - A Python [dict] is an association list in insertion order.
    - An exception is a value of [exn]; code that can raise returns a
      [Result].  Log output is not part of the model.
    - The collaborators the code reaches through duck-typed objects (the
      generation backend, the search tool, the restricted interpreter) and
      the interpreter's own Unicode tables are fields of type classes. *)

From Stdlib Require Import ZArith NArith QArith List Bool String Ascii.
From Stdlib Require Import SpecFloat Lia Permutation Sorted.
Import ListNotations.

Local Open Scope string_scope.
Local Open Scope Z_scope.
Local Open Scope list_scope.

Set Implicit Arguments.
Set Warnings "-register-all".

(* ================================================================== *)
(** * Python strings *)

Module Str.

(** A Python string, as the sequence of its code points. *)
Definition pystr := list N.

(** Decoding of a UTF-8 byte sequence; only used to write literals. *)
Fixpoint utf8 (bs : list N) : pystr :=
  match bs with
  | [] => []
  | b1 :: t1 =>
    if (b1 <? 128)%N then b1 :: utf8 t1
    else match t1 with
    | [] => [b1]
    | b2 :: t2 =>
      if (b1 <? 224)%N then ((b1 - 192) * 64 + (b2 - 128))%N :: utf8 t2
      else match t2 with
      | [] => [b1; b2]
      | b3 :: t3 =>
        if (b1 <? 240)%N
        then ((b1 - 224) * 4096 + (b2 - 128) * 64 + (b3 - 128))%N :: utf8 t3
        else match t3 with
        | [] => [b1; b2; b3]
        | b4 :: t4 =>
          ((b1 - 240) * 262144 + (b2 - 128) * 4096
           + (b3 - 128) * 64 + (b4 - 128))%N :: utf8 t4
        end
      end
    end
  end.

(** The literal ["..."] of the source, read as UTF-8. *)
Definition py (s : string) : pystr :=
  utf8 (map N_of_ascii (list_ascii_of_string s)).

Definition eqb (s t : pystr) : bool :=
  if list_eq_dec N.eq_dec s t then true else false.

(** [Py_UNICODE_ISSPACE]: the code points that [str.strip], [str.isspace]
    and the regular-expression class [\s] treat as whitespace. *)
Definition isspace (c : N) : bool :=
  ((9 <=? c) && (c <=? 13) || (28 <=? c) && (c <=? 32)
   || (c =? 133) || (c =? 160) || (c =? 5760)
   || (8192 <=? c) && (c <=? 8202)
   || (c =? 8232) || (c =? 8233) || (c =? 8239) || (c =? 8287)
   || (c =? 12288))%N.

(** [span p s]: the longest prefix of [s] whose characters satisfy [p], and
    what follows it. *)
Fixpoint span (p : N -> bool) (s : pystr) : pystr * pystr :=
  match s with
  | [] => ([], [])
  | c :: s' =>
    if p c then let (a, b) := span p s' in (c :: a, b) else ([], s)
  end.

Definition lstrip (s : pystr) : pystr := snd (span isspace s).
Definition rstrip (s : pystr) : pystr := rev (lstrip (rev s)).

(** [s.strip()] *)
Definition strip (s : pystr) : pystr := rstrip (lstrip s).

Fixpoint starts_with (pre s : pystr) : bool :=
  match pre, s with
  | [], _ => true
  | _ :: _, [] => false
  | a :: pre', b :: s' => (a =? b)%N && starts_with pre' s'
  end.

(** [needle in hay] on strings: [needle] occurs as a substring. *)
Fixpoint contains (needle hay : pystr) : bool :=
  starts_with needle hay ||
  match hay with
  | [] => false
  | _ :: hay' => contains needle hay'
  end.

(** [s.replace(a, b)] for single characters [a] and [b]. *)
Definition replace_char (a b : N) (s : pystr) : pystr :=
  map (fun c => if (c =? a)%N then b else c) s.

End Str.
Import Str.

(* ================================================================== *)
(** * Exceptions and results *)

Inductive exn : Type :=
| ValueError (msg : string)
| KeyError (key : pystr)
| TypeError
| AttributeError
| NameError
| ZeroDivisionError
| OverflowError
| JSONDecodeError
| RuntimeError (msg : string)
| OSError
| TimeoutError.

Inductive Result (A : Type) : Type :=
| Ok (a : A)
| Raise (e : exn).
Arguments Ok {A} a.
Arguments Raise {A} e.

Definition bind {A B : Type} (c : Result A) (k : A -> Result B) : Result B :=
  match c with
  | Ok a => k a
  | Raise e => Raise e
  end.

Notation "x <- c ;; k" := (bind c (fun x => k))
  (at level 61, c at next level, right associativity).
Notation "' pat <- c ;; k" := (bind c (fun x => match x with pat => k end))
  (at level 61, pat pattern, c at next level, right associativity).

Definition is_ok {A : Type} (r : Result A) : bool :=
  match r with Ok _ => true | Raise _ => false end.

(* ================================================================== *)
(** * Python floats: IEEE 754 binary64 *)

Module Float.

Definition prec : Z := 53.
Definition emax : Z := 1024.

Definition float := spec_float.

(** The float nearest to an integer ([inf] beyond the range). *)
Definition of_Z (z : Z) : float := binary_normalize prec emax z 0 false.

Definition add : float -> float -> float := SFadd prec emax.
Definition sub : float -> float -> float := SFsub prec emax.
Definition mul : float -> float -> float := SFmul prec emax.
Definition ieee_div : float -> float -> float := SFdiv prec emax.

Definition ltb : float -> float -> bool := SFltb.
Definition leb : float -> float -> bool := SFleb.
Definition eqb : float -> float -> bool := SFeqb.
Definition gtb (x y : float) : bool := SFltb y x.
Definition geb (x y : float) : bool := SFleb y x.

Definition is_zero (x : float) : bool :=
  match x with S754_zero _ => true | _ => false end.

Definition is_finite (x : float) : bool :=
  match x with S754_zero _ | S754_finite _ _ _ => true | _ => false end.

(** [bool(x)] for a float: false exactly for the two zeros. *)
Definition truthy (x : float) : bool := negb (is_zero x).

(** [float(z)] for an int, and the implicit conversion in [float op int]:
    raises where the rounded value would not be finite. *)
Definition of_int (z : Z) : Result float :=
  match of_Z z with
  | S754_infinity _ => Raise OverflowError
  | f => Ok f
  end.

(** [x / y] on floats. *)
Definition div (x y : float) : Result float :=
  if is_zero y then Raise ZeroDivisionError else Ok (ieee_div x y).

(** The decimal [n / 10^k], rounded to nearest-even: the value of a float
    literal or of [float("ddd.ddd")] with [k] digits after the point. *)
Definition of_decimal (n : N) (k : nat) : float :=
  match n with
  | N0 => S754_zero false
  | Npos p =>
    let '(m, e, l) :=
      SFdiv_core_binary prec emax (Zpos p) 0 (10 ^ Z.of_nat k) 0 in
    binary_round_aux prec emax false m e l
  end.

Definition zero : float := S754_zero false.

(** The exact value of a finite float, scaled by [2^1074] so that it is an
    integer: every binary64 exponent is at least [-1074]. *)
Definition scaled (x : float) : Z :=
  match x with
  | S754_finite s m e => cond_Zopp s (Zpos m) * 2 ^ (e + 1074)
  | _ => 0
  end.

(** The exact value of a finite float, as a rational. *)
Definition to_Q (x : float) : Q := Qmake (scaled x) (2 ^ 1074).

(** The invariant of every float of the interpreter: the mantissa is
    canonical for binary64. *)
Definition valid (x : float) : bool := valid_binary prec emax x.

(** Equality of numbers up to the sign of zero; on values other than NaN
    this is Python's [==]. *)
Definition same_number (x y : float) : Prop :=
  x = y \/ (is_zero x = true /\ is_zero y = true).

End Float.
Import Float.

(* ================================================================== *)
(** * Python dicts and JSON values *)

Module Dict.

(** A dict with string keys, in insertion order. *)
Definition dict (V : Type) : Type := list (pystr * V).

Fixpoint get {V : Type} (k : pystr) (d : dict V) : option V :=
  match d with
  | [] => None
  | (k', v) :: d' => if Str.eqb k k' then Some v else get k d'
  end.

(** [k in d] *)
Definition mem {V : Type} (k : pystr) (d : dict V) : bool :=
  match get k d with Some _ => true | None => false end.

(** [d.get(k, default)] *)
Definition get_default {V : Type} (k : pystr) (default : V) (d : dict V) : V :=
  match get k d with Some v => v | None => default end.

(** [d[k] = v]: an existing key keeps its place, a new one goes last. *)
Fixpoint set {V : Type} (k : pystr) (v : V) (d : dict V) : dict V :=
  match d with
  | [] => [(k, v)]
  | (k', v') :: d' =>
    if Str.eqb k k' then (k', v) :: d' else (k', v') :: set k v d'
  end.

Definition keys {V : Type} (d : dict V) : list pystr := map fst d.

End Dict.
Import Dict.

(** What [json.loads] returns. *)
Inductive json : Type :=
| JNull
| JBool (b : bool)
| JInt (z : Z)
| JFloat (f : float)
| JStr (s : pystr)
| JArr (l : list json)
| JObj (d : list (pystr * json)).

(* ================================================================== *)
(** * The interpreter's tables and the collaborators *)

(** What the code takes from the interpreter and its standard library and
    that is given by tables or parsers outside the repository. *)
Class Builtins : Type := {
  (** [str.lower] and [str.upper] *)
  str_lower : pystr -> pystr;
  str_upper : pystr -> pystr;
  (** [Py_UNICODE_TODECIMAL]: the digit value of a decimal digit; the class
      [\d] of a pattern and the digits [float] reads. *)
  unicode_decimal : N -> option N;
  (** [float(s)] on the strings that are not of the plain shape [ddd] or
      [ddd.ddd] (signs, exponents, padding, [inf], [nan]); [None] stands
      for [ValueError]. *)
  float_of_other_str : pystr -> option float;
  (** [json.loads]; [None] stands for [json.JSONDecodeError]. *)
  json_loads : pystr -> option json;
  (** The format specifications [:.0f] and [:.1f]. *)
  format_0f : float -> pystr;
  format_1f : float -> pystr;
  (** [str(x)] for a float and for an int, as a replacement field without
      a format specification renders them. *)
  float_str : float -> pystr;
  int_str : Z -> pystr
}.

(** services/llm_service.py.  A request to the generation backend: the
    prompt, the system prompt, the task type that selects the model, and
    the sampling temperature. *)
Record llm_request : Type := {
  prompt : pystr;
  system : option pystr;
  task_type : string;
  temperature : float
}.

(** What comes of the HTTP exchange with the backend: the text of the
    response, stripped, or a failure of any kind. *)
Inductive llm_answer : Type :=
| Answer (text : pystr)
| Failure (reason : string).

Class LLMService : Type := {
  post : llm_request -> llm_answer
}.

(** [LLMService.generate]: every failure is raised again as a
    [RuntimeError]. *)
Definition generate {llm : LLMService} (request : llm_request)
    : Result pystr :=
  match post request with
  | Answer text => Ok text
  | Failure reason => Raise (RuntimeError reason)
  end.

(** One search result: [{title, link, snippet}]. *)
Record search_hit : Type := {
  title : pystr;
  link : pystr;
  snippet : pystr
}.

(** The search tool handed to the searcher agent. *)
Class SearchTool : Type := {
  search_product_price : pystr -> Result (list search_hit)
}.

(** The restricted interpreter behind [CodeExecutor]: whether a run is cut
    short (rejected by the restriction policy, or timed out) before the
    program's own result is available, and with what error text. *)
Class Sandbox : Type := {
  interrupted : option string
}.

(* ================================================================== *)
(** * domain/enums.py *)

Module Enums.

Inductive ExpenseCategory : Type :=
| FOOD | TRANSPORT | UTILITIES | ENTERTAINMENT | HEALTH
| EDUCATION | SHOPPING | HOUSING | PERSONAL | OTHER.

Definition all_categories : list ExpenseCategory :=
  [FOOD; TRANSPORT; UTILITIES; ENTERTAINMENT; HEALTH;
   EDUCATION; SHOPPING; HOUSING; PERSONAL; OTHER].

Definition category_eqb (a b : ExpenseCategory) : bool :=
  match a, b with
  | FOOD, FOOD | TRANSPORT, TRANSPORT | UTILITIES, UTILITIES
  | ENTERTAINMENT, ENTERTAINMENT | HEALTH, HEALTH | EDUCATION, EDUCATION
  | SHOPPING, SHOPPING | HOUSING, HOUSING | PERSONAL, PERSONAL
  | OTHER, OTHER => true
  | _, _ => false
  end.

(** [category.value] *)
Definition value (c : ExpenseCategory) : pystr :=
  match c with
  | FOOD => py "FOOD"
  | TRANSPORT => py "TRANSPORT"
  | UTILITIES => py "UTILITIES"
  | ENTERTAINMENT => py "ENTERTAINMENT"
  | HEALTH => py "HEALTH"
  | EDUCATION => py "EDUCATION"
  | SHOPPING => py "SHOPPING"
  | HOUSING => py "HOUSING"
  | PERSONAL => py "PERSONAL"
  | OTHER => py "OTHER"
  end.

(** [ExpenseCategory(s)]: the member whose value is [s], else [ValueError]. *)
Definition of_value (s : pystr) : Result ExpenseCategory :=
  match find (fun c => Str.eqb s (value c)) all_categories with
  | Some c => Ok c
  | None => Raise (ValueError "not a valid ExpenseCategory")
  end.

(** The keyword table of [from_keywords], in the order it is written. *)
Definition keywords_map : list (ExpenseCategory * list pystr) :=
  [ (FOOD,
     map py
      [ "market"; "yemek"; "ekmek"; "gÄ±da"; "restaurant"; "kafe"; "kahve";
        "starbucks"; "migros"; "carrefour"; "a101"; "pizza"; "dominos" ]);
    (TRANSPORT,
     map py
      [ "benzin"; "yakÄ±t"; "otobÃ¼s"; "metro"; "taksi"; "uber"; "araÃ§";
        "uÃ§ak"; "bilet"; "pegasus"; "thy"; "transfer" ]);
    (UTILITIES,
     map py
      [ "elektrik"; "su"; "gaz"; "internet"; "telefon"; "fatura"; "doÄŸalgaz" ]);
    (ENTERTAINMENT,
     map py
      [ "sinema"; "film"; "konser"; "tiyatro"; "oyun"; "netflix"; "spotify";
        "abonel"; "disney" ]);
    (HEALTH,
     map py
      [ "doktor"; "hastane"; "eczane"; "ilaÃ§"; "saÄŸlÄ±k" ]);
    (EDUCATION,
     map py
      [ "kitap"; "kurs"; "eÄŸitim"; "okul"; "ders"; "udemy"; "coursera" ]);
    (SHOPPING,
     map py
      [ "giyim"; "kÄ±yafet"; "ayakkabÄ±"; "alÄ±ÅŸveriÅŸ"; "laptop";
        "bilgisayar"; "telefon"; "mouse"; "klavye"; "monitÃ¶r"; "kamera";
        "kulaklÄ±k"; "macbook"; "iphone"; "samsung"; "apple"; "logitech";
        "asus"; "msi"; "lenovo"; "dell"; "hp"; "razer"; "keychron"; "anker";
        "teknosa"; "vatan"; "mediamarkt"; "hepsiburada"; "trendyol";
        "amazon"; "n11"; "gittigidiyor"; "usb"; "disk"; "hard"; "ssd"; "ram";
        "ekran"; "tablet"; "ipad"; "airpods"; "Ã§anta"; "kÄ±lÄ±f";
        "aksesuar"; "hub"; "adapter"; "kablo"; "ÅŸarj"; "powerbank";
        "trackpad"; "webcam"; "mikrofon" ]);
    (HOUSING,
     map py
      [ "kira"; "rent"; "ev"; "mobilya"; "otel"; "konaklama"; "hilton";
        "hertz"; "kiralama" ]);
    (PERSONAL,
     map py
      [ "kuafÃ¶r"; "berber"; "gÃ¼zellik"; "spa"; "masaj" ]) ].

(** [any(kw in text_lower for kw in keywords)] *)
Definition keyword_hit (text_lower : pystr) (keywords : list pystr) : bool :=
  existsb (fun kw => contains kw text_lower) keywords.

(** The loop of [from_keywords] over a keyword table. *)
Fixpoint first_hit (text_lower : pystr)
    (table : list (ExpenseCategory * list pystr)) : ExpenseCategory :=
  match table with
  | [] => OTHER
  | (category, keywords) :: table' =>
    if keyword_hit text_lower keywords then category
    else first_hit text_lower table'
  end.

(** [ExpenseCategory.from_keywords] *)
Definition from_keywords {B : Builtins} (text : pystr) : ExpenseCategory :=
  let text_lower := str_lower text in
  first_hit text_lower keywords_map.

(** [ExpenseCategory.get_emoji]; the literals are the code points of the
    source file. *)
Definition get_emoji (c : ExpenseCategory) : pystr :=
  match c with
  | FOOD => [287; 376; 8221]
  | TRANSPORT => [287; 376; 353; 8212]
  | UTILITIES => [287; 376; 8217; 161]
  | ENTERTAINMENT => [287; 376; 172]
  | HEALTH => [287; 376; 165]
  | EDUCATION => [287; 376; 8220; 353]
  | SHOPPING => [287; 376; 8250; 239; 184]
  | HOUSING => [287; 376; 160]
  | PERSONAL => [287; 376; 8217; 8225]
  | OTHER => [287; 376; 8220; 166]
  end%N.

Inductive BudgetStatus : Type :=
| HEALTHY | WARNING | OVER_BUDGET | UNKNOWN.

Definition status_value (s : BudgetStatus) : pystr :=
  match s with
  | HEALTHY => py "HEALTHY"
  | WARNING => py "WARNING"
  | OVER_BUDGET => py "OVER_BUDGET"
  | UNKNOWN => py "UNKNOWN"
  end.

(** [BudgetStatus.from_percentage] *)
Definition from_percentage (percentage : float) : BudgetStatus :=
  if ltb percentage (of_Z 0) then UNKNOWN
  else if ltb percentage (of_Z 80) then HEALTHY
  else if leb percentage (of_Z 100) then WARNING
  else OVER_BUDGET.

Inductive ActionPriority : Type :=
| LOW | MEDIUM | HIGH | URGENT.

End Enums.
Import Enums.

(* ================================================================== *)
(** * domain/models.py

    The [id], [date] and [created_at] fields, which [uuid4] and
    [datetime.now] fill in and no decision reads, are left out. *)

Inductive meta_value : Type :=
| MetaResults (results : list search_hit)
| MetaBool (b : bool).

Module Expense.
Record t : Type := {
  description : pystr;
  amount : float;
  category : ExpenseCategory;
  metadata : dict meta_value
}.
End Expense.

Module Analysis.
Record t : Type := {
  total_expenses : float;
  daily_rate : float;
  monthly_projection : float;
  days_analyzed : Z;
  category_breakdown : dict float;
  budget_status : BudgetStatus;
  income : option float;
  remaining_budget : option float;
  usage_percentage : option float;
  trends : list pystr
}.
End Analysis.

Module ActionItem.
Record t : Type := {
  description : pystr;
  priority : ActionPriority;
  impact : option pystr;
  potential_savings : option float
}.
End ActionItem.

Module Goal.
Record t : Type := {
  description : pystr;
  current_value : float;
  target_value : float;
  timeframe : pystr;
  category : option pystr
}.
End Goal.

Module Recommendation.
Record t : Type := {
  summary : pystr;
  recommendations : list pystr;
  action_items : list ActionItem.t;
  goals : list Goal.t
}.
End Recommendation.

(* ================================================================== *)
(** * Conversions of the interpreter that depend on its tables *)

Module Py.
Section WithBuiltins.
Context {B : Builtins}.

(** The class [\d]. *)
Definition is_digit (c : N) : bool :=
  match unicode_decimal c with Some _ => true | None => false end.

(** The number a run of decimal digits denotes. *)
Definition digits_value (ds : pystr) : N :=
  fold_left
    (fun acc c =>
       (10 * acc + match unicode_decimal c with Some d => d | None => 0 end)%N)
    ds 0%N.

(** The strings [ddd] and [ddd.ddd]: the digits without the point, and the
    number of digits after it. *)
Definition plain_decimal (s : pystr) : option (N * nat) :=
  let (int_part, rest) := span is_digit s in
  match int_part, rest with
  | [], _ => None
  | _ :: _, [] => Some (digits_value int_part, O)
  | _ :: _, c :: frac_part =>
    if (c =? 46)%N && negb (Nat.eqb (List.length frac_part) 0)
       && forallb is_digit frac_part
    then Some (digits_value (int_part ++ frac_part), List.length frac_part)
    else None
  end.

(** [float(s)] for a string; [None] stands for [ValueError]. *)
Definition float_of_str (s : pystr) : option float :=
  match plain_decimal s with
  | Some (n, k) => Some (of_decimal n k)
  | None => float_of_other_str s
  end.

(** [float(v)] for a value that [json.loads] produced. *)
Definition float_of_json (v : json) : Result float :=
  match v with
  | JInt z => of_int z
  | JFloat f => Ok f
  | JBool b => Ok (if b then of_Z 1 else of_Z 0)
  | JStr s =>
    match float_of_str s with
    | Some f => Ok f
    | None => Raise (ValueError "could not convert string to float")
    end
  | JNull | JArr _ | JObj _ => Raise TypeError
  end.

(** [data[key]] for a string key. *)
Definition subscript (data : json) (key : pystr) : Result json :=
  match data with
  | JObj d =>
    match Dict.get key d with
    | Some v => Ok v
    | None => Raise (KeyError key)
    end
  | _ => Raise TypeError
  end.

End WithBuiltins.

(** The characters that cannot stand inside a Rocq string literal. *)
Definition dq : pystr := [34%N].
Definition nl : pystr := [10%N].

(** [sep.join(parts)] *)
Fixpoint join (sep : pystr) (parts : list pystr) : pystr :=
  match parts with
  | [] => []
  | [p] => p
  | p :: parts' => p ++ sep ++ join sep parts'
  end.

End Py.
Import Py.

(* ================================================================== *)
(** * core/prompts.py *)

Module Prompts.

Definition CLASSIFIER_SYSTEM : pystr :=
  join nl
    [ py "You are an expense classification expert.";
      py "Analyze the user's expense text and predict its category.";
      [];
      py "Categories:";
      py "- FOOD: Food, groceries, meals, restaurants";
      py "- TRANSPORT: Transportation, fuel, taxi";
      py "- UTILITIES: Bills (electricity, water, internet)";
      py "- ENTERTAINMENT: Entertainment, cinema";
      py "- HEALTH: Healthcare, medicine";
      py "- EDUCATION: Education, books";
      py "- SHOPPING: Shopping, clothing";
      py "- HOUSING: Rent, housing";
      py "- PERSONAL: Personal care";
      py "- OTHER: Other";
      [];
      py "Return only the category name." ].

(** [CLASSIFIER_PARSE.format(text=text)] *)
Definition CLASSIFIER_PARSE (text : pystr) : pystr :=
  join nl
    [ py "Analyze this expense text: " ++ dq ++ text ++ dq;
      py "Format: [DESCRIPTION] [AMOUNT] [TL/₺]";
      [];
      py "Return in JSON format:";
      py "{" ++ dq ++ py "description" ++ dq ++ py ": " ++ dq ++ py "..."
        ++ dq ++ py ", " ++ dq ++ py "amount" ++ dq ++ py ": 123.45}" ].

(** [CLASSIFIER_CATEGORIZE.format(description=description)] *)
Definition CLASSIFIER_CATEGORIZE (description : pystr) : pystr :=
  join nl
    [ py "Which category does this expense belong to?";
      py "Description: " ++ description;
      py "Provide only the category name (FOOD, TRANSPORT, etc.)" ].

Definition STRATEGIST_SYSTEM : pystr :=
  join nl
    [ py "You are an experienced financial advisor.";
      py "You help users make informed decisions in budget management.";
      [];
      py "Your role:";
      py "1. Evaluate spending analysis";
      py "2. Provide practical recommendations";
      py "3. Create action plans";
      py "4. Be motivational" ].

(** [STRATEGIST_PROMPT.format(...)], the fields already rendered. *)
Definition STRATEGIST_PROMPT
    (total daily monthly days budget_info categories trends : pystr)
    : pystr :=
  join nl
    [ py "Financial Status:";
      [];
      py "📊 Basic Information:";
      py "- Total Spending: " ++ total ++ py " TL";
      py "- Daily Average: " ++ daily ++ py " TL";
      py "- Monthly Projection: " ++ monthly ++ py " TL";
      py "- Analysis Period: " ++ days ++ py " days";
      [];
      budget_info;
      [];
      py "📁 Category Distribution:";
      categories;
      [];
      py "📈 Trends:";
      trends;
      [];
      py "---";
      [];
      py "Provide to the user:";
      py "1. **Status Summary**: 2-3 sentences";
      py "2. **Recommendations**: 3-4 practical suggestions";
      py "3. **Actions**: To-do items (prioritized)";
      py "4. **Goals**: Measurable objectives";
      [];
      py "Write in English with a friendly and motivating tone." ].

End Prompts.

(* ================================================================== *)
(** * agents/classifier.py *)

Module Classifier.
Section WithCollaborators.
Context {B : Builtins} {llm : LLMService}.

(** [[.,]] *)
Definition is_sep (c : N) : bool := ((c =? 46) || (c =? 44))%N.

(** The group [(TL|₺|tl)] under [re.IGNORECASE], at the head of [s]: what
    follows it. *)
Definition match_tag (s : pystr) : option pystr :=
  match s with
  | [] => None
  | c1 :: s1 =>
    if (c1 =? 8378)%N then Some s1
    else if ((c1 =? 84) || (c1 =? 116))%N then
      match s1 with
      | [] => None
      | c2 :: s2 => if ((c2 =? 76) || (c2 =? 108))%N then Some s2 else None
      end
    else None
  end.

(** The group [(\d+(?:[.,]\d+)?)] at the head of [s]: the group and what
    follows it. *)
Definition match_number (s : pystr) : option (pystr * pystr) :=
  let (int_part, r) := span is_digit s in
  match int_part with
  | [] => None
  | _ :: _ =>
    match r with
    | c :: r' =>
      if is_sep c then
        let (frac_part, r'') := span is_digit r' in
        match frac_part with
        | [] => Some (int_part, r)
        | _ :: _ => Some (int_part ++ c :: frac_part, r'')
        end
      else Some (int_part, r)
    | [] => Some (int_part, r)
    end
  end.

(** The end [\s*(TL|₺|tl)\s*$] of the pattern, against all of [s]. *)
Definition match_end (s : pystr) : bool :=
  let (_, r) := span isspace s in
  match match_tag r with
  | None => false
  | Some r' =>
    let (_, r'') := span isspace r' in
    match r'' with
    | [] => true
    | _ :: _ => false
    end
  end.

(** The part [\s+(\d+(?:[.,]\d+)?)\s*(TL|₺|tl)\s*$] of the pattern, matched
    against all of [s]: group 2.  The classes [\s], [\d], [[.,]] and the
    letters of the tag are pairwise disjoint, so a greedy run that is
    followed by a mismatch never matches after giving characters back. *)
Definition match_tail (s : pystr) : option pystr :=
  let (ws, r) := span isspace s in
  match ws with
  | [] => None
  | _ :: _ =>
    match match_number r with
    | None => None
    | Some (number, r') => if match_end r' then Some number else None
    end
  end.

(** The lazy group [(.+?)]: it grows one character at a time, never over a
    line feed, until the rest of the pattern matches what follows it.
    [group1_rev] is the group so far, reversed. *)
Fixpoint match_lazy (group1_rev s : pystr) : option (pystr * pystr) :=
  match match_tail s with
  | Some number => Some (rev group1_rev, number)
  | None =>
    match s with
    | [] => None
    | c :: s' =>
      if (c =? 10)%N then None else match_lazy (c :: group1_rev) s'
    end
  end.

(** [re.match(pattern, s, re.IGNORECASE)] for the pattern of [_parse]:
    groups 1 and 2. *)
Definition re_match (s : pystr) : option (pystr * pystr) :=
  match s with
  | [] => None
  | c :: s' => if (c =? 10)%N then None else match_lazy [c] s'
  end.

(** The fallback of [_parse]: the generation backend, then the sentinel. *)
Definition _parse_llm (text : pystr) : Result (json * float) :=
  let prompt := Prompts.CLASSIFIER_PARSE text in
  response <- generate {| prompt := prompt; system := None;
                          task_type := "classify";
                          temperature := of_decimal 3 1 |} ;;
  let attempt :=
    data <- match json_loads response with
            | Some data => Ok data
            | None => Raise JSONDecodeError
            end ;;
    description <- subscript data (py "description") ;;
    amount_value <- subscript data (py "amount") ;;
    amount <- float_of_json amount_value ;;
    Ok (description, amount) in
  match attempt with
  | Raise JSONDecodeError | Raise (KeyError _) | Raise (ValueError _) =>
    Ok (JStr text, zero)
  | other => other
  end.

(** [ClassifierAgent._parse]; the description is a string on the pattern
    path and whatever the backend's JSON holds on the fallback path. *)
Definition _parse (text : pystr) : Result (json * float) :=
  match re_match (strip text) with
  | Some (group1, group2) =>
    let description := strip group1 in
    let amount_str := replace_char 44 46 group2 in
    match float_of_str amount_str with
    | Some amount => Ok (JStr description, amount)
    | None => _parse_llm text
    end
  | None => _parse_llm text
  end.

(** [ClassifierAgent._categorize]; [description.lower()] exists only for a
    string. *)
Definition _categorize (description : json) : Result ExpenseCategory :=
  match description with
  | JStr description =>
    let category := from_keywords description in
    if negb (category_eqb category OTHER) then Ok category
    else
      let prompt := Prompts.CLASSIFIER_CATEGORIZE description in
      response <- generate {| prompt := prompt;
                              system := Some Prompts.CLASSIFIER_SYSTEM;
                              task_type := "classify";
                              temperature := of_decimal 3 1 |} ;;
      let category_str := strip (str_upper response) in
      match of_value category_str with
      | Raise (ValueError _) => Ok OTHER
      | other => other
      end
  | _ => Raise AttributeError
  end.

(** [ClassifierAgent._classify_single] *)
Definition _classify_single (text : pystr) : Result Expense.t :=
  '(description, amount) <- _parse text ;;
  category <- _categorize description ;;
  match description with
  | JStr description =>
    Ok {| Expense.description := description; Expense.amount := amount;
          Expense.category := category; Expense.metadata := [] |}
  | _ => Raise AttributeError
  end.

(** [ClassifierAgent.execute]: a text whose classification raises is
    logged and skipped. *)
Fixpoint execute (expense_texts : list pystr) : list Expense.t :=
  match expense_texts with
  | [] => []
  | text :: rest =>
    match _classify_single text with
    | Ok expense => expense :: execute rest
    | Raise _ => execute rest
    end
  end.

End WithCollaborators.
End Classifier.

(* ================================================================== *)
(** * agents/searcher.py *)

Module Searcher.

(** The default of the constructor's [threshold]. *)
Definition default_threshold : float := of_Z 100.

Section WithTool.
Context {tool : SearchTool}.

(** The condition of the comprehension that builds [searchable]. *)
Definition is_searchable (threshold : float) (e : Expense.t) : bool :=
  geb (Expense.amount e) threshold || eqb (Expense.amount e) zero.

(** The body of the loop over [searchable], for one expense: the search,
    and the two metadata entries when it found something. *)
Definition search_one (expense : Expense.t) : Expense.t :=
  match search_product_price (Expense.description expense) with
  | Ok results =>
    match results with
    | [] => expense
    | _ :: _ =>
      let metadata :=
        Dict.set (py "searched") (MetaBool true)
          (Dict.set (py "search_results") (MetaResults (firstn 3 results))
             (Expense.metadata expense)) in
      {| Expense.description := Expense.description expense;
         Expense.amount := Expense.amount expense;
         Expense.category := Expense.category expense;
         Expense.metadata := metadata |}
    end
  | Raise _ => expense
  end.

(** [SearcherAgent.execute]: the expenses are updated in place, so the
    list handed back holds every expense at its position. *)
Definition execute (threshold : float) (expenses : list Expense.t)
    : list Expense.t :=
  let searchable := filter (is_searchable threshold) expenses in
  match searchable with
  | [] => expenses
  | _ :: _ =>
    map (fun e => if is_searchable threshold e then search_one e else e)
      expenses
  end.

End WithTool.
End Searcher.

(* ================================================================== *)
(** * tools/code_executor.py *)

Module CodeExecutor.

(** The dict [{"success", "output", "error"}] that [execute] returns. *)
Record execution_result (A : Type) : Type := {
  success : bool;
  output : option A;
  error : option string
}.

Definition str_of_exn (e : exn) : string :=
  match e with
  | ValueError msg | RuntimeError msg => msg
  | KeyError _ => "KeyError"
  | TypeError => "TypeError"
  | AttributeError => "AttributeError"
  | NameError => "NameError"
  | ZeroDivisionError => "division by zero"
  | OverflowError => "OverflowError"
  | JSONDecodeError => "JSONDecodeError"
  | OSError => "OSError"
  | TimeoutError => "Timeout"
  end.

(** [CodeExecutor.execute].  The code is given by what running it binds
    to [result], or the exception it stops with; the run itself may be cut
    short by the restricted interpreter or by the timeout. *)
Definition execute {sandbox : Sandbox} {A : Type} (code : Result A)
    : execution_result A :=
  match interrupted with
  | Some err => {| success := false; output := None; error := Some err |}
  | None =>
    match code with
    | Ok result =>
      {| success := true; output := Some result; error := None |}
    | Raise e =>
      {| success := false; output := None; error := Some (str_of_exn e) |}
    end
  end.

End CodeExecutor.

(* ================================================================== *)
(** * agents/analyst.py *)

Module Analyst.

(** [for x in items: body(x)] for a body that only computes or raises. *)
Fixpoint for_each {A : Type} (body : A -> Result unit) (items : list A)
    : Result unit :=
  match items with
  | [] => Ok tt
  | x :: items' => _ <- body x ;; for_each body items'
  end.

(** The program text that [_calculate_breakdown_with_code] generates, by
    what it computes.  The two literals are the [repr] of the arguments:
    a list of pairs, where [inf] and [nan] are names that the program does
    not define, and a float.  The first loop aggregates; the second one
    computes a percentage and a rounded amount per category into a dict
    that the last line discards. *)
Definition breakdown_program (expense_data : list (pystr * float))
    (total : float) : Result (dict float) :=
  if negb (forallb is_finite (map snd expense_data)) then Raise NameError
  else if negb (is_finite total) then Raise NameError
  else
    let category_totals :=
      fold_left
        (fun (category_totals : dict float) '(category, amount) =>
           if Dict.mem category category_totals
           then Dict.set category
                  (add (Dict.get_default category zero category_totals)
                       amount)
                  category_totals
           else Dict.set category amount category_totals)
        expense_data [] in
    _ <- for_each
           (fun '(cat, amt) =>
              quotient <- div amt total ;;
              let percentage := mul quotient (of_Z 100) in
              Ok tt)
           category_totals ;;
    Ok category_totals.

(** The loop of the fallback branch, which is also the loop [execute] runs
    when the executor is disabled. *)
Definition direct_breakdown (expenses : list Expense.t) : dict float :=
  fold_left
    (fun (category_totals : dict float) e =>
       let cat := value (Expense.category e) in
       Dict.set cat
         (add (Dict.get_default cat zero category_totals) (Expense.amount e))
         category_totals)
    expenses [].

Section WithCollaborators.
Context {B : Builtins} {sandbox : Sandbox}.

(** [AnalystAgent._calculate_breakdown_with_code] *)
Definition _calculate_breakdown_with_code (expenses : list Expense.t)
    (total : float) : dict float :=
  let expense_data :=
    map (fun e => (value (Expense.category e), Expense.amount e)) expenses in
  let execution_result :=
    CodeExecutor.execute (breakdown_program expense_data total) in
  match CodeExecutor.success execution_result,
        CodeExecutor.output execution_result with
  | true, Some output => output
  | _, _ => direct_breakdown expenses
  end.

(** [sum(e.amount for e in expenses)], which starts from the int [0]. *)
Definition sum (amounts : list float) : float :=
  fold_left add amounts zero.

(** The trend line of one category of the breakdown, if any. *)
Definition trend_of (total : float) (entry : pystr * float)
    : Result (list pystr) :=
  let (cat, amount) := entry in
  quotient <- div amount total ;;
  let pct := mul quotient (of_Z 100) in
  if geb pct (of_Z 30) then
    match of_value cat with
    | Ok cat_enum =>
      Ok [ get_emoji cat_enum ++ py " " ++ cat ++ py " spending is high ("
           ++ format_0f amount ++ py " TL, " ++ format_1f pct ++ py "%)" ]
    | Raise (ValueError _) => Ok []
    | Raise e => Raise e
    end
  else Ok [].

Fixpoint collect_trends (total : float) (entries : dict float)
    : Result (list pystr) :=
  match entries with
  | [] => Ok []
  | entry :: entries' =>
    here <- trend_of total entry ;;
    later <- collect_trends total entries' ;;
    Ok (here ++ later)
  end.

(** [AnalystAgent.execute] *)
Definition execute (enable_code_executor : bool)
    (expenses : list Expense.t) (days_analyzed : Z) (income : option float)
    : Result Analysis.t :=
  match expenses with
  | [] => Raise (ValueError "Cannot analyze empty expenses")
  | _ :: _ =>
    let total := sum (map Expense.amount expenses) in
    days <- of_int days_analyzed ;;
    daily_rate <- div total days ;;
    let monthly_projection := mul daily_rate (of_Z 30) in
    let category_breakdown :=
      if enable_code_executor
      then _calculate_breakdown_with_code expenses total
      else direct_breakdown expenses in
    '(usage_pct, status, remaining) <-
      match income with
      | Some income_value =>
        if truthy income_value then
          quotient <- div monthly_projection income_value ;;
          let usage_pct := mul quotient (of_Z 100) in
          let status := from_percentage usage_pct in
          let remaining :=
            if gtb income_value monthly_projection
            then sub income_value monthly_projection
            else zero in
          Ok (Some usage_pct, status, Some remaining)
        else Ok (None, UNKNOWN, None)
      | None => Ok (None, UNKNOWN, None)
      end ;;
    trends <- collect_trends total category_breakdown ;;
    Ok {| Analysis.total_expenses := total;
          Analysis.daily_rate := daily_rate;
          Analysis.monthly_projection := monthly_projection;
          Analysis.days_analyzed := days_analyzed;
          Analysis.category_breakdown := category_breakdown;
          Analysis.budget_status := status;
          Analysis.income := income;
          Analysis.remaining_budget := remaining;
          Analysis.usage_percentage := usage_pct;
          Analysis.trends := trends |}
  end.

End WithCollaborators.
End Analyst.

(* ================================================================== *)
(** * The formatting helpers of core/prompts.py *)

Module Format.

(** [sorted(items, key=lambda x: x[1], reverse=True)]: a stable sort by
    value, largest first.  The sort only asks whether one value is less
    than another; values that compare equal keep their order. *)
Fixpoint insert_desc (x : pystr * float) (l : list (pystr * float))
    : list (pystr * float) :=
  match l with
  | [] => [x]
  | y :: l' => if ltb (snd x) (snd y) then y :: insert_desc x l' else x :: l
  end.

Definition sorted_desc (items : list (pystr * float))
    : list (pystr * float) :=
  fold_right insert_desc [] items.

Section WithBuiltins.
Context {B : Builtins}.

Definition format_budget_info (status : pystr) (income : option float)
    (remaining usage : option float) : pystr :=
  match income with
  | None => py "💰 Income: Not provided"
  | Some income =>
    let emoji :=
      if Str.eqb status (py "HEALTHY") then py "✅"
      else if Str.eqb status (py "WARNING") then py "⚠️"
      else if Str.eqb status (py "OVER_BUDGET") then py "🔴"
      else py "❓" in
    let lines :=
      [ emoji ++ py " Status: " ++ status;
        py "💰 Income: " ++ format_0f income ++ py " TL" ]
      ++ match remaining with
         | Some remaining =>
           [ py "💵 Remaining: " ++ format_0f remaining ++ py " TL" ]
         | None => []
         end
      ++ match usage with
         | Some usage => [ py "📊 Usage: " ++ format_1f usage ++ py "%" ]
         | None => []
         end in
    join nl lines
  end.

Definition format_categories (breakdown : dict float) : pystr :=
  match breakdown with
  | [] => py "  (No data)"
  | _ :: _ =>
    join nl
      (map (fun '(cat, pct) =>
              py "  - " ++ cat ++ py ": " ++ format_1f pct ++ py "%")
         (sorted_desc breakdown))
  end.

Definition format_trends (trends : list pystr) : pystr :=
  match trends with
  | [] => py "  (Not enough data yet)"
  | _ :: _ => join nl (map (fun t => py "  - " ++ t) trends)
  end.

End WithBuiltins.
End Format.

(* ================================================================== *)
(** * agents/strategist.py *)

Module Strategist.
Import Format.

Section WithCollaborators.
Context {B : Builtins} {llm : LLMService}.

(** [StrategistAgent._generate_llm_recommendations] *)
Definition _generate_llm_recommendations (analysis : Analysis.t)
    : Result pystr :=
  let prompt :=
    Prompts.STRATEGIST_PROMPT
      (float_str (Analysis.total_expenses analysis))
      (float_str (Analysis.daily_rate analysis))
      (float_str (Analysis.monthly_projection analysis))
      (int_str (Analysis.days_analyzed analysis))
      (format_budget_info
         (status_value (Analysis.budget_status analysis))
         (Analysis.income analysis)
         (Analysis.remaining_budget analysis)
         (Analysis.usage_percentage analysis))
      (format_categories (Analysis.category_breakdown analysis))
      (format_trends (Analysis.trends analysis)) in
  generate {| prompt := prompt; system := Some Prompts.STRATEGIST_SYSTEM;
              task_type := "recommend"; temperature := of_decimal 8 1 |}.

(** [text.split('\n')] *)
Fixpoint split_lines (cur_rev : pystr) (text : pystr) : list pystr :=
  match text with
  | [] => [rev cur_rev]
  | c :: text' =>
    if (c =? 10)%N then rev cur_rev :: split_lines [] text'
    else split_lines (c :: cur_rev) text'
  end.

(** What is left of [line] after a leading [\d+\.], if it has one. *)
Definition after_numeral (line : pystr) : option pystr :=
  let (digits, rest) := span is_digit line in
  match digits, rest with
  | _ :: _, c :: rest' => if (c =? 46)%N then Some rest' else None
  | _, _ => None
  end.

(** [re.match(r'^\d+\.|\-|\*', line)] *)
Definition is_item (line : pystr) : bool :=
  match after_numeral line with
  | Some _ => true
  | None =>
    match line with
    | c :: _ => ((c =? 45) || (c =? 42))%N
    | [] => false
    end
  end.

(** [re.sub(r'^\d+\.\s*|^[-*]\s*', '', line)] *)
Definition strip_marker (line : pystr) : pystr :=
  match after_numeral line with
  | Some rest => lstrip rest
  | None =>
    match line with
    | c :: rest => if ((c =? 45) || (c =? 42))%N then lstrip rest else line
    | [] => line
    end
  end.

Definition is_header (line : pystr) : bool :=
  starts_with (py "#") line
  || contains (py "status") (str_lower line)
  || contains (py "recommendation") (str_lower line).

Fixpoint scan_lines (lines : list pystr) (summary : pystr)
    (recommendations : list pystr) : pystr * list pystr :=
  match lines with
  | [] => (summary, recommendations)
  | line :: lines' =>
    if is_header line then scan_lines lines' summary recommendations
    else if is_item line then
      let cleaned := strip_marker line in
      match cleaned with
      | [] => scan_lines lines' summary recommendations
      | _ :: _ => scan_lines lines' summary (recommendations ++ [cleaned])
      end
    else
      match summary with
      | [] =>
        if (20 <? List.length line)%nat
        then scan_lines lines' line recommendations
        else scan_lines lines' summary recommendations
      | _ :: _ => scan_lines lines' summary recommendations
      end
  end.

(** [StrategistAgent._parse_response] *)
Definition _parse_response (text : pystr) : pystr * list pystr :=
  let lines :=
    filter (fun l => negb (Nat.eqb (List.length l) 0))
      (map strip (split_lines [] text)) in
  let (summary, recommendations) := scan_lines lines [] [] in
  let summary :=
    match summary with
    | [] => py "Budget analysis completed."
    | _ :: _ => summary
    end in
  let recommendations :=
    match recommendations with
    | [] => [ py "Track your expenses regularly.";
              py "Create a budget plan." ]
    | _ :: _ => recommendations
    end in
  (summary, recommendations).

(** [amount * rate * 30 / analysis.days_analyzed] *)
Definition monthly_savings (amount rate : float) (days_analyzed : Z)
    : Result float :=
  days <- of_int days_analyzed ;;
  div (mul (mul amount rate) (of_Z 30)) days.

(** [monthly_projection * 0.1 if monthly_projection else 0] *)
Definition monthly_reduction_of (analysis : Analysis.t) : float :=
  if truthy (Analysis.monthly_projection analysis)
  then mul (Analysis.monthly_projection analysis) (of_decimal 1 1)
  else zero.

(** [sorted_cats[:2]], empty for an empty breakdown. *)
Definition top_categories_of (analysis : Analysis.t)
    : list (pystr * float) :=
  firstn 2 (sorted_desc (Analysis.category_breakdown analysis)).

(** The items of the branch for [HEALTHY]. *)
Definition healthy_actions (monthly_reduction : float)
    : list ActionItem.t :=
  [ {| ActionItem.description := py "Track your weekly expenses";
       ActionItem.priority := LOW;
       ActionItem.impact := Some (py "Budget control");
       ActionItem.potential_savings := Some zero |};
    {| ActionItem.description := py "Set a savings goal";
       ActionItem.priority := LOW;
       ActionItem.impact := Some (py "Long-term planning");
       ActionItem.potential_savings :=
         Some (mul monthly_reduction (of_Z 2)) |} ].

(** The items of the branch for [WARNING]. *)
Definition warning_actions (analysis : Analysis.t)
    (top_categories : list (pystr * float)) (monthly_reduction : float)
    : Result (list ActionItem.t) :=
  targeted <-
    match top_categories with
    | top_cat :: _ =>
      savings <- monthly_savings (snd top_cat) (of_decimal 15 2)
                   (Analysis.days_analyzed analysis) ;;
      Ok [ {| ActionItem.description :=
                py "Reduce " ++ fst top_cat ++ py " spending by 15%";
              ActionItem.priority := MEDIUM;
              ActionItem.impact :=
                Some (py "Highest spending category ("
                      ++ format_0f (snd top_cat) ++ py " TL)");
              ActionItem.potential_savings := Some savings |} ]
    | [] => Ok []
    end ;;
  Ok (targeted ++
      [ {| ActionItem.description := py "Cancel unnecessary subscriptions";
           ActionItem.priority := MEDIUM;
           ActionItem.impact := Some (py "Reduce recurring costs");
           ActionItem.potential_savings := Some monthly_reduction |} ]).

(** The items of the last branch, which the source comments as
    [OVER_BUDGET]. *)
Definition over_budget_actions (analysis : Analysis.t)
    (top_categories : list (pystr * float)) (monthly_reduction : float)
    : Result (list ActionItem.t) :=
  targeted <-
    match top_categories with
    | top_cat :: others =>
      quotient <- div (snd top_cat) (Analysis.total_expenses analysis) ;;
      let share := mul quotient (of_Z 100) in
      savings <- monthly_savings (snd top_cat) (of_decimal 30 2)
                   (Analysis.days_analyzed analysis) ;;
      let first :=
        {| ActionItem.description :=
             py "URGENT: Cut " ++ fst top_cat ++ py " spending by 30%";
           ActionItem.priority := HIGH;
           ActionItem.impact :=
             Some (py "Highest category (" ++ format_0f (snd top_cat)
                   ++ py " TL, " ++ format_0f share ++ py "% of budget)");
           ActionItem.potential_savings := Some savings |} in
      second <-
        match others with
        | second_cat :: _ =>
          savings2 <- monthly_savings (snd second_cat) (of_decimal 20 2)
                        (Analysis.days_analyzed analysis) ;;
          Ok [ {| ActionItem.description :=
                    py "Reduce " ++ fst second_cat ++ py " spending by 20%";
                  ActionItem.priority := HIGH;
                  ActionItem.impact :=
                    Some (py "Second highest category ("
                          ++ format_0f (snd second_cat) ++ py " TL)");
                  ActionItem.potential_savings := Some savings2 |} ]
        | [] => Ok []
        end ;;
      Ok (first :: second)
    | [] => Ok []
    end ;;
  Ok (targeted ++
      [ {| ActionItem.description :=
             py "Stop all non-essential spending immediately";
           ActionItem.priority := URGENT;
           ActionItem.impact := Some (py "Budget at critical level");
           ActionItem.potential_savings :=
             Some (mul monthly_reduction (of_Z 2)) |} ]).

(** [(amount / total * 100) if total > 0 else 0] *)
Definition share_pct (amount total : float) : Result float :=
  if gtb total zero then
    quotient <- div amount total ;;
    Ok (mul quotient (of_Z 100))
  else Ok zero.

(** [any(cat in a.description for a in actions)] *)
Definition referenced (cat : pystr) (actions : list ActionItem.t) : bool :=
  existsb (fun a => contains cat (ActionItem.description a)) actions.

(** The last loop of [_generate_actions], which stops at the first
    category it adds an item for. *)
Fixpoint extra_action (analysis : Analysis.t) (actions : list ActionItem.t)
    (entries : dict float) : Result (list ActionItem.t) :=
  match entries with
  | [] => Ok actions
  | (cat, amount) :: entries' =>
    pct <- share_pct amount (Analysis.total_expenses analysis) ;;
    if gtb pct (of_Z 40) && negb (referenced cat actions) then
      category_savings <- monthly_savings amount (of_decimal 15 2)
                            (Analysis.days_analyzed analysis) ;;
      Ok (actions ++
          [ {| ActionItem.description :=
                 py "Create savings plan for " ++ cat ++ py " category";
               ActionItem.priority := MEDIUM;
               ActionItem.impact :=
                 Some (py "Excessively high percentage ("
                       ++ format_1f pct ++ py "%)");
               ActionItem.potential_savings := Some category_savings |} ])
    else extra_action analysis actions entries'
  end.

(** The items of the branch that the status selects. *)
Definition status_actions (analysis : Analysis.t)
    : Result (list ActionItem.t) :=
  let monthly_reduction := monthly_reduction_of analysis in
  let top_categories := top_categories_of analysis in
  match Analysis.budget_status analysis with
  | HEALTHY => Ok (healthy_actions monthly_reduction)
  | WARNING => warning_actions analysis top_categories monthly_reduction
  | _ => over_budget_actions analysis top_categories monthly_reduction
  end.

(** [StrategistAgent._generate_actions] *)
Definition _generate_actions (analysis : Analysis.t)
    : Result (list ActionItem.t) :=
  actions <- status_actions analysis ;;
  extra_action analysis actions (Analysis.category_breakdown analysis).

(** [StrategistAgent._generate_goals] *)
Definition _generate_goals (analysis : Analysis.t) : list Goal.t :=
  [ {| Goal.description := py "Daily spending target";
       Goal.current_value := Analysis.daily_rate analysis;
       Goal.target_value :=
         mul (Analysis.daily_rate analysis) (of_decimal 9 1);
       Goal.timeframe := py "This month";
       Goal.category := None |};
    {| Goal.description := py "Monthly spending target";
       Goal.current_value := Analysis.monthly_projection analysis;
       Goal.target_value :=
         mul (Analysis.monthly_projection analysis) (of_decimal 85 2);
       Goal.timeframe := py "This month";
       Goal.category := None |} ].

(** [StrategistAgent.execute] *)
Definition execute (analysis : Analysis.t) : Result Recommendation.t :=
  llm_text <- _generate_llm_recommendations analysis ;;
  let (summary, recommendations) := _parse_response llm_text in
  actions <- _generate_actions analysis ;;
  let goals := _generate_goals analysis in
  Ok {| Recommendation.summary := summary;
        Recommendation.recommendations := recommendations;
        Recommendation.action_items := actions;
        Recommendation.goals := goals |}.

End WithCollaborators.
End Strategist.

(* ================================================================== *)
(** * services/storage.py *)

Module Storage.

(** What the service keeps on disk: the expenses file, which every save
    overwrites, and one file per saved analysis. *)
Record store : Type := {
  expenses_file : option (list Expense.t);
  analyses_dir : list Analysis.t
}.

(** Whether a write to the disk fails. *)
Class Disk : Type := {
  write_fails : store -> bool
}.

Section WithDisk.
Context {disk : Disk}.

(** [StorageService.save_expenses] *)
Definition save_expenses (expenses : list Expense.t) (st : store)
    : Result unit * store :=
  if write_fails st then (Raise OSError, st)
  else (Ok tt, {| expenses_file := Some expenses;
                  analyses_dir := analyses_dir st |}).

(** [StorageService.save_analysis] *)
Definition save_analysis (analysis : Analysis.t) (st : store)
    : Result unit * store :=
  if write_fails st then (Raise OSError, st)
  else (Ok tt, {| expenses_file := expenses_file st;
                  analyses_dir := analysis :: analyses_dir st |}).

End WithDisk.
End Storage.

(* ================================================================== *)
(** * services/orchestrator.py *)

Module Orchestrator.

(** The wall clock: the milliseconds a run took. *)
Class Clock : Type := {
  elapsed_ms : float
}.

(** The orchestrator as its constructor leaves it: the threshold of the
    searcher when there is one, and the executor switch of the analyst. *)
Record t : Type := {
  searcher : option float;
  enable_code_executor : bool
}.

(** The dict that [analyze_expenses] returns. *)
Record workflow_result : Type := {
  expenses : list Expense.t;
  analysis : Analysis.t;
  recommendation : Recommendation.t;
  processing_time_ms : float
}.

Section WithCollaborators.
Context {B : Builtins} {llm : LLMService} {tool : SearchTool}
        {sandbox : Sandbox} {disk : Storage.Disk} {clock : Clock}.

(** [Orchestrator.analyze_expenses], with the state of the storage before
    and after. *)
Definition analyze_expenses (self : t) (expense_texts : list pystr)
    (income : option float) (days_analyzed : Z) (enable_search : bool)
    (st : Storage.store) : Result workflow_result * Storage.store :=
  let expenses := Classifier.execute expense_texts in
  match expenses with
  | [] => (Raise (ValueError "No expenses were successfully classified"), st)
  | _ :: _ =>
    let expenses :=
      match enable_search, searcher self with
      | true, Some threshold => Searcher.execute threshold expenses
      | _, _ => expenses
      end in
    match Analyst.execute (enable_code_executor self) expenses
            days_analyzed income with
    | Raise e => (Raise e, st)
    | Ok analysis =>
      match Strategist.execute analysis with
      | Raise e => (Raise e, st)
      | Ok recommendation =>
        match Storage.save_expenses expenses st with
        | (Raise e, st1) => (Raise e, st1)
        | (Ok _, st1) =>
          match Storage.save_analysis analysis st1 with
          | (Raise e, st2) => (Raise e, st2)
          | (Ok _, st2) =>
            (Ok {| expenses := expenses; analysis := analysis;
                   recommendation := recommendation;
                   processing_time_ms := elapsed_ms |}, st2)
          end
        end
      end
    end
  end.

End WithCollaborators.
End Orchestrator.

(* ================================================================== *)
(** * A reference environment

    One concrete choice of the interpreter tables and of the
    collaborators, on which the definitions above run: the ASCII part of
    the Unicode tables, a backend that answers every request with one
    fixed text, a search tool with a fixed answer, a sandbox and a disk
    that work. *)

Module Reference.

Definition ascii_decimal (c : N) : option N :=
  if ((48 <=? c) && (c <=? 57))%N then Some (c - 48)%N else None.

Definition ascii_lower (c : N) : N :=
  if ((65 <=? c) && (c <=? 90))%N then (c + 32)%N else c.

Definition ascii_upper (c : N) : N :=
  if ((97 <=? c) && (c <=? 122))%N then (c - 32)%N else c.

(** A [json.loads] that knows the empty array and nothing else. *)
Definition loads_empty_array (s : pystr) : option json :=
  if Str.eqb s (py "[]") then Some (JArr []) else None.

Definition builtins : Builtins := {|
  str_lower := map ascii_lower;
  str_upper := map ascii_upper;
  unicode_decimal := ascii_decimal;
  float_of_other_str := fun _ => None;
  json_loads := loads_empty_array;
  format_0f := fun _ => py "0";
  format_1f := fun _ => py "0.0";
  float_str := fun _ => py "0.0";
  int_str := fun _ => py "0"
|}.

Definition answering (response : pystr) : LLMService :=
  {| post := fun _ => Answer response |}.

Definition finding (results : list search_hit) : SearchTool :=
  {| search_product_price := fun _ => Ok results |}.

Definition sandbox_running : Sandbox := {| interrupted := None |}.
Definition sandbox_refusing : Sandbox :=
  {| interrupted := Some "restricted" |}.


Definition clock : Orchestrator.Clock :=
  {| Orchestrator.elapsed_ms := of_Z 1 |}.

Definition expense (description : string) (amount : float)
    (category : ExpenseCategory) : Expense.t :=
  {| Expense.description := py description; Expense.amount := amount;
     Expense.category := category; Expense.metadata := [] |}.

(** An expense above the default threshold. *)
Definition laptop : Expense.t := expense "laptop" (of_Z 8000) SHOPPING.

(** The expenses of the fixture [sample_expenses] of the test suite. *)
Definition sample_expenses : list Expense.t :=
  [ expense "kahve 50 TL" (of_Z 50) FOOD;
    expense "uber 120 TL" (of_Z 120) TRANSPORT;
    expense "laptop 8000 TL" (of_Z 8000) SHOPPING;
    expense "market 300 TL" (of_Z 300) FOOD ].

(** The fixture [sample_analysis] of the test suite, under each status. *)
Definition sample_analysis (s : BudgetStatus) : Analysis.t :=
  {| Analysis.total_expenses := of_Z 8470;
     Analysis.daily_rate := of_Z 1210;
     Analysis.monthly_projection := of_Z 36300;
     Analysis.days_analyzed := 7;
     Analysis.category_breakdown :=
       [ (py "FOOD", of_Z 350); (py "TRANSPORT", of_Z 120);
         (py "SHOPPING", of_Z 8000) ];
     Analysis.budget_status := s;
     Analysis.income := Some (of_Z 15000);
     Analysis.remaining_budget := Some zero;
     Analysis.usage_percentage := Some (of_Z 242);
     Analysis.trends := [] |}.

End Reference.

(* ================================================================== *)
(** * services/llm_service.py: the choice of the model and the payload *)

Module Ollama.

(** What the constructor reads from the configuration. *)
Record config : Type := {
  fast_model : string;
  accurate_model : string;
  strategy : string
}.

(** [LLMService.select_model] *)
Definition select_model (self : config) (task_type : string) : string :=
  if String.eqb (strategy self) "fast" then fast_model self
  else if String.eqb (strategy self) "accurate" then accurate_model self
  else if existsb (String.eqb task_type) ["classify"; "search"; "analyze"]
  then fast_model self
  else if String.eqb task_type "recommend" then accurate_model self
  else fast_model self.

(** The JSON body of the request to [/api/generate]; a key that the code
    does not set is [None]. *)
Record payload : Type := {
  model : string;
  payload_prompt : pystr;
  stream : bool;
  payload_system : option pystr;
  options_temperature : float;
  options_num_predict : option Z
}.

(** The payload that [generate] builds.  [if system:] and [if max_tokens:]
    leave out a value that is [None], empty or zero. *)
Definition payload_of (self : config) (request : llm_request)
    (max_tokens : option Z) : payload :=
  {| model := select_model self (task_type request);
     payload_prompt := prompt request;
     stream := false;
     payload_system :=
       match system request with
       | Some (c :: s) => Some (c :: s)
       | _ => None
       end;
     options_temperature := temperature request;
     options_num_predict :=
       match max_tokens with
       | Some n => if n =? 0 then None else Some n
       | None => None
       end |}.

(** The server behind the HTTP client: for a payload, the value of
    [data.get("response", "")], or a failure of the exchange. *)
Class Server : Type := {
  exchange : payload -> llm_answer
}.

(** The service that the agents call, for a configuration and a server:
    the response is stripped; no agent passes [max_tokens]. *)
Definition service (self : config) (server : Server) : LLMService :=
  {| post := fun request =>
       match exchange (payload_of self request None) with
       | Answer text => Answer (strip text)
       | Failure reason => Failure reason
       end |}.

End Ollama.

(* ================================================================== *)
(** * tools/search_tool.py *)

Module Search.

(** The DuckDuckGo client: [ddgs.text(query, max_results=limit)], each
    result a dict of strings, or an exception. *)
Class DDGS : Type := {
  text : pystr -> Z -> Result (list (dict pystr))
}.

(** The default of the constructor's [max_results]. *)
Definition default_max_results : Z := 5.

Section WithDDGS.
Context {ddgs : DDGS}.

(** [SearchTool.search], for a tool built with [self_max_results]. *)
Definition search (self_max_results : Z) (query : pystr)
    (max_results : option Z) : list search_hit :=
  let limit :=
    match max_results with
    | Some m => if m =? 0 then self_max_results else m
    | None => self_max_results
    end in
  match text query limit with
  | Ok search_results =>
    map (fun result =>
           {| title := Dict.get_default (py "title") [] result;
              link := Dict.get_default (py "href") [] result;
              snippet := Dict.get_default (py "body") [] result |})
      search_results
  | Raise _ => []
  end.

(** [SearchTool.search_product_price] *)
Definition search_product_price (self_max_results : Z) (product : pystr)
    : list search_hit :=
  let query := product ++ py " fiyat" in
  search self_max_results query None.

End WithDDGS.

(** The tool as the searcher agent holds it. *)
Definition tool (ddgs : DDGS) (self_max_results : Z) : SearchTool :=
  Build_SearchTool
    (fun product => Ok (search_product_price self_max_results product)).

End Search.

(* ================================================================== *)
(** * domain/models.py: the dict forms of [ActionItem] and [Goal] *)

Module Models.

(** [priority.value] *)
Definition priority_value (p : ActionPriority) : pystr :=
  match p with
  | LOW => py "LOW"
  | MEDIUM => py "MEDIUM"
  | HIGH => py "HIGH"
  | URGENT => py "URGENT"
  end.

(** [ActionPriority(v)]: the member whose value is [v], else
    [ValueError]. *)
Definition priority_of_value (v : json) : Result ActionPriority :=
  match v with
  | JStr s =>
    match find (fun p => Str.eqb s (priority_value p))
            [LOW; MEDIUM; HIGH; URGENT] with
    | Some p => Ok p
    | None => Raise (ValueError "not a valid ActionPriority")
    end
  | _ => Raise (ValueError "not a valid ActionPriority")
  end.

(** An optional string and an optional float, as values of a dict. *)
Definition of_optional_str (s : option pystr) : json :=
  match s with Some s => JStr s | None => JNull end.

Definition of_optional_float (f : option float) : json :=
  match f with Some f => JFloat f | None => JNull end.

(** [data[key]] for a dict. *)
Definition item (data : dict json) (key : pystr) : Result json :=
  match Dict.get key data with
  | Some v => Ok v
  | None => Raise (KeyError key)
  end.

(** [data.get(key)] *)
Definition get_or_none (data : dict json) (key : pystr) : json :=
  Dict.get_default key JNull data.

(** The fields of an [ActionItem] that [from_dict] builds: the priority is
    a member of the enum, the other fields hold whatever the dict held. *)
Record action_item_fields : Type := {
  item_description : json;
  item_priority : ActionPriority;
  item_impact : json;
  item_potential_savings : json
}.

(** [ActionItem.to_dict] *)
Definition action_item_to_dict (self : ActionItem.t) : dict json :=
  [ (py "description", JStr (ActionItem.description self));
    (py "priority", JStr (priority_value (ActionItem.priority self)));
    (py "impact", of_optional_str (ActionItem.impact self));
    (py "potential_savings",
     of_optional_float (ActionItem.potential_savings self)) ].

(** [ActionItem.from_dict] *)
Definition action_item_from_dict (data : dict json)
    : Result action_item_fields :=
  description <- item data (py "description") ;;
  priority_v <- item data (py "priority") ;;
  priority <- priority_of_value priority_v ;;
  Ok {| item_description := description;
        item_priority := priority;
        item_impact := get_or_none data (py "impact");
        item_potential_savings := get_or_none data (py "potential_savings") |}.

(** The fields of a [Goal] that [from_dict] builds. *)
Record goal_fields : Type := {
  goal_description : json;
  goal_current_value : json;
  goal_target_value : json;
  goal_timeframe : json;
  goal_category : json
}.

(** [Goal.to_dict] *)
Definition goal_to_dict (self : Goal.t) : dict json :=
  [ (py "description", JStr (Goal.description self));
    (py "current_value", JFloat (Goal.current_value self));
    (py "target_value", JFloat (Goal.target_value self));
    (py "timeframe", JStr (Goal.timeframe self));
    (py "category", of_optional_str (Goal.category self)) ].

(** [Goal.from_dict] *)
Definition goal_from_dict (data : dict json) : Result goal_fields :=
  description <- item data (py "description") ;;
  current_value <- item data (py "current_value") ;;
  target_value <- item data (py "target_value") ;;
  timeframe <- item data (py "timeframe") ;;
  Ok {| goal_description := description;
        goal_current_value := current_value;
        goal_target_value := target_value;
        goal_timeframe := timeframe;
        goal_category := get_or_none data (py "category") |}.

End Models.

(* ================================================================== *)
(** * More of the reference environment *)

Module Samples.

(** A [json.loads] given by a table of the texts it can read. *)
Definition loads_table (table : list (pystr * json)) (s : pystr)
    : option json :=
  Dict.get s table.

(** The reference tables, with another [json.loads]. *)
Definition builtins_loading (table : list (pystr * json)) : Builtins := {|
  str_lower := map Reference.ascii_lower;
  str_upper := map Reference.ascii_upper;
  unicode_decimal := Reference.ascii_decimal;
  float_of_other_str := fun _ => None;
  json_loads := loads_table table;
  format_0f := fun _ => py "0";
  format_1f := fun _ => py "0.0";
  float_str := fun _ => py "0.0";
  int_str := fun _ => py "0"
|}.

(** The text of a JSON object whose description is a number, and what
    [json.loads] makes of it. *)
Definition numeric_description_text : pystr :=
  py "{" ++ dq ++ py "description" ++ dq ++ py ": 5, "
  ++ dq ++ py "amount" ++ dq ++ py ": 5}".

Definition numeric_description : json :=
  JObj [ (py "description", JInt 5); (py "amount", JInt 5) ].

(** A server that answers by the model it is asked for. *)
Definition server_by_model (answers : string -> pystr) : Ollama.Server :=
  {| Ollama.exchange := fun p => Answer (answers (Ollama.model p)) |}.

(** Two servers that answer alike for the fast model of [auto] and
    differently for every other model. *)
Definition server_one : Ollama.Server :=
  server_by_model
    (fun m => if String.eqb m "llama3.2:1b" then py "OTHER" else py "one").

Definition server_two : Ollama.Server :=
  server_by_model
    (fun m => if String.eqb m "llama3.2:1b" then py "OTHER" else py "two").

(** A configuration with two different models. *)
Definition auto : Ollama.config :=
  {| Ollama.fast_model := "llama3.2:1b";
     Ollama.accurate_model := "llama3.2:3b";
     Ollama.strategy := "auto" |}.

(** A DuckDuckGo client with one fixed answer. *)
Definition ddgs_answering (r : Result (list (dict pystr))) : Search.DDGS :=
  {| Search.text := fun _ _ => r |}.

(** A disk that fails once the expenses file exists. *)
Definition disk_failing_after_expenses : Storage.Disk :=
  {| Storage.write_fails := fun st =>
       match Storage.expenses_file st with Some _ => true | None => false end |}.

End Samples.

(* ================================================================== *)
(** * Vocabulary of the statements *)

Unset Implicit Arguments.

Module Vocabulary.

(** Two breakdowns with the same categories in the same order and, per
    category, the same number. *)
Definition same_breakdown (d1 d2 : dict float) : Prop :=
  Forall2 (fun a b => fst a = fst b /\ same_number (snd a) (snd b)) d1 d2.

(** The float [-0.0]. *)
Definition is_negative_zero (x : float) : bool :=
  match x with S754_zero true => true | _ => false end.

(** The pairs [(e.category.value, e.amount)] that the analyst writes into
    the program it generates. *)
Definition expense_data_of (expenses : list Expense.t)
    : list (pystr * float) :=
  map (fun e => (value (Expense.category e), Expense.amount e)) expenses.

(** The bodies of the aggregation loop of the generated program and of the
    direct loop of the analyst. *)
Definition program_step (category_totals : dict float)
    (entry : pystr * float) : dict float :=
  let (category, amount) := entry in
  if Dict.mem category category_totals
  then Dict.set category
         (Float.add (Dict.get_default category zero category_totals) amount)
         category_totals
  else Dict.set category amount category_totals.

Definition direct_step (category_totals : dict float) (e : Expense.t)
    : dict float :=
  let cat := value (Expense.category e) in
  Dict.set cat
    (Float.add (Dict.get_default cat zero category_totals) (Expense.amount e))
    category_totals.

(** What every analysis that the analyst returns satisfies: at least one
    category, a total that is not zero, and a number of days that converts
    to a float other than zero. *)
Definition well_formed (a : Analysis.t) : bool :=
  match Analysis.category_breakdown a with [] => false | _ :: _ => true end
  && negb (is_zero (Analysis.total_expenses a))
  && match of_int (Analysis.days_analyzed a) with
     | Ok d => negb (is_zero d)
     | Raise _ => false
     end.

(** The request that [_parse] sends to the backend for a text. *)
Definition parse_request (text : pystr) : llm_request :=
  {| prompt := Prompts.CLASSIFIER_PARSE text; system := None;
     task_type := "classify"; temperature := of_decimal 3 1 |}.

(** [s.split()]: the maximal runs of characters that are not whitespace.
    [cur_rev] is the run being read, reversed. *)
Definition flush (cur_rev : pystr) : list pystr :=
  match cur_rev with [] => [] | _ :: _ => [rev cur_rev] end.

Fixpoint words (cur_rev : pystr) (s : pystr) : list pystr :=
  match s with
  | [] => flush cur_rev
  | c :: s' =>
    if isspace c then flush cur_rev ++ words [] s'
    else words (c :: cur_rev) s'
  end.

Definition all_space (s : pystr) : Prop := forallb isspace s = true.
Definition no_space (s : pystr) : Prop :=
  forallb (fun c => negb (isspace c)) s = true.

(** A description as [_parse] hands it back: not empty, no whitespace at
    either end, and on one line. *)
Definition trimmed_line (s : pystr) : Prop :=
  isspace (hd 32%N s) = false /\ isspace (last s 32%N) = false
  /\ forallb (fun c => negb (c =? 10)%N) s = true.

(** The currency tags: [₺], and [TL] in either case of either letter. *)
Definition is_currency_tag (t : pystr) : bool :=
  match t with
  | [c] => (c =? 8378)%N
  | [c1; c2] => ((c1 =? 84) || (c1 =? 116))%N && ((c2 =? 76) || (c2 =? 108))%N
  | _ => false
  end.

(** A run of decimal digits, not empty. *)
Definition digit_run {B : Builtins} (s : pystr) : Prop :=
  s <> [] /\ forallb is_digit s = true.

(** What the Unicode tables guarantee of a decimal digit: it is not
    whitespace, not a separator, and not the first character of a tag. *)
Definition decimal_table_sound (B : Builtins) : Prop :=
  forall c d, unicode_decimal c = Some d ->
    isspace c = false /\ c <> 46%N /\ c <> 44%N
    /\ c <> 8378%N /\ c <> 84%N /\ c <> 116%N.

(** The ASCII digits are decimal digits, with their values. *)
Definition decimal_table_ascii (B : Builtins) : Prop :=
  forall c, (48 <= c <= 57)%N -> unicode_decimal c = Some (c - 48)%N.

(** A number as the pattern reads it: digits, and optionally a separator
    and more digits. *)
Definition number_of (int_part : pystr) (frac : option (N * pystr))
    : pystr :=
  int_part ++ match frac with
              | Some (sep, frac_part) => sep :: frac_part
              | None => []
              end.

Definition frac_ok {B : Builtins} (frac : option (N * pystr)) : Prop :=
  match frac with
  | Some (sep, frac_part) => Classifier.is_sep sep = true /\ digit_run frac_part
  | None => True
  end.

Definition frac_digits (frac : option (N * pystr)) : pystr :=
  match frac with Some (_, frac_part) => frac_part | None => [] end.

(** An expense whose metadata carries [searched = True]. *)
Definition flagged (e : Expense.t) : bool :=
  match Dict.get (py "searched") (Expense.metadata e) with
  | Some (MetaBool true) => true
  | _ => false
  end.

(** The metadata of an expense after a search that found [results]. *)
Definition enriched_metadata (results : list search_hit) (e : Expense.t)
    : dict meta_value :=
  Dict.set (py "searched") (MetaBool true)
    (Dict.set (py "search_results") (MetaResults (firstn 3 results))
       (Expense.metadata e)).

(** What the claims say of an action item: its description, its priority
    and its savings. *)
Definition brief (item : ActionItem.t)
    : pystr * ActionPriority * option float :=
  (ActionItem.description item, ActionItem.priority item,
   ActionItem.potential_savings item).

(** [amount * rate * 30 / days] for a number of days already converted. *)
Definition monthly (amount rate days : float) : float :=
  ieee_div (mul (mul amount rate) (of_Z 30)) days.

(** The share of the total that an amount makes, in percent, as the last
    loop of [_generate_actions] computes it. *)
Definition share_of (a : Analysis.t) (amount : float) : float :=
  if gtb (Analysis.total_expenses a) zero
  then mul (ieee_div amount (Analysis.total_expenses a)) (of_Z 100)
  else zero.

(** A category above 40% of the total that no action names. *)
Definition qualifies (a : Analysis.t) (actions : list ActionItem.t)
    (entry : pystr * float) : bool :=
  gtb (share_of a (snd entry)) (of_Z 40)
  && negb (Strategist.referenced (fst entry) actions).




(** The targeted and the general items of the last branch of
    [_generate_actions], in brief. *)
Definition over_budget_briefs (first : pystr * float)
    (rest : list (pystr * float)) (baseline days : float)
    : list (pystr * ActionPriority * option float) :=
  (py "URGENT: Cut " ++ fst first ++ py " spending by 30%", HIGH,
   Some (monthly (snd first) (of_decimal 30 2) days))
  :: match rest with
     | second :: _ =>
       [ (py "Reduce " ++ fst second ++ py " spending by 20%", HIGH,
          Some (monthly (snd second) (of_decimal 20 2) days)) ]
     | [] => []
     end
  ++ [ (py "Stop all non-essential spending immediately", URGENT,
        Some (mul baseline (of_Z 2))) ].

(** The usage percentage, the status and the remaining budget of the
    claim, for an income that is given and not zero, given and zero, or
    not given. *)
Definition budget_of (monthly_projection : float) (income : option float)
    : option float * BudgetStatus * option float :=
  match income with
  | Some income_value =>
    if truthy income_value then
      let usage_pct :=
        mul (ieee_div monthly_projection income_value) (of_Z 100) in
      (Some usage_pct, from_percentage usage_pct,
       Some (if gtb income_value monthly_projection
             then sub income_value monthly_projection else zero))
    else (None, UNKNOWN, None)
  | None => (None, UNKNOWN, None)
  end.



End Vocabulary.
Import Vocabulary.

(* ================================================================== *)
(** * Vocabulary of the further properties *)

Module Notions.

(** The order in which a dict comes to hold the keys [l] when they are
    assigned one after the other: every key at its first occurrence. *)
Definition note_key (seen : list pystr) (k : pystr) : list pystr :=
  if existsb (Str.eqb k) seen then seen else seen ++ [k].

Definition first_occurrences (l : list pystr) : list pystr :=
  fold_left note_key l [].

(** The category values of a list of expenses, in order. *)
Definition category_values (expenses : list Expense.t) : list pystr :=
  map (fun e => value (Expense.category e)) expenses.

(** A float below zero: a negative number or minus infinity, but neither
    of the zeros nor NaN. *)
Definition strictly_negative (x : float) : bool :=
  match x with
  | S754_finite true _ _ | S754_infinity true => true
  | _ => false
  end.

(** The statuses by how much of the income is used. *)
Definition severity (s : BudgetStatus) : nat :=
  match s with
  | UNKNOWN => 0
  | HEALTHY => 1
  | WARNING => 2
  | OVER_BUDGET => 3
  end.

(** The keywords of a table that contain a keyword of an earlier
    category, with the category they are listed under. *)
Definition shadowed_by (earlier : list (ExpenseCategory * list pystr))
    (kw : pystr) : bool :=
  existsb (fun entry => existsb (fun k => contains k kw) (snd entry)) earlier.

Fixpoint shadowed (earlier table : list (ExpenseCategory * list pystr))
    : list (ExpenseCategory * pystr) :=
  match table with
  | [] => []
  | (category, keywords) :: table' =>
    map (pair category) (filter (shadowed_by earlier) keywords)
    ++ shadowed (earlier ++ [(category, keywords)]) table'
  end.

(** The request that [_categorize] sends to the backend. *)
Definition categorize_request (description : pystr) : llm_request :=
  {| prompt := Prompts.CLASSIFIER_CATEGORIZE description;
     system := Some Prompts.CLASSIFIER_SYSTEM;
     task_type := "classify"; temperature := of_decimal 3 1 |}.

(** Two servers that answer alike whenever they are asked for model
    [m]. *)
Definition agree_on (m : string) (s1 s2 : Ollama.Server) : Prop :=
  forall p, Ollama.model p = m ->
            @Ollama.exchange s1 p = @Ollama.exchange s2 p.

(** What the classifier and the analyst make of an expense: everything
    but the metadata. *)
Definition core_fields (e : Expense.t) : pystr * float * ExpenseCategory :=
  (Expense.description e, Expense.amount e, Expense.category e).

(** An expense with other metadata. *)
Definition with_metadata (metadata : dict meta_value) (e : Expense.t)
    : Expense.t :=
  {| Expense.description := Expense.description e;
     Expense.amount := Expense.amount e;
     Expense.category := Expense.category e;
     Expense.metadata := metadata |}.

(** Whether DuckDuckGo finds anything for the price query of an
    expense. *)
Definition found {ddgs : Search.DDGS} (max_results : Z) (e : Expense.t)
    : bool :=
  match Search.text (Expense.description e ++ py " fiyat") max_results with
  | Ok (_ :: _) => true
  | _ => false
  end.

(** An [ActionItem] and a [Goal] as [from_dict] sees them. *)
Definition action_item_view (a : ActionItem.t) : Models.action_item_fields :=
  {| Models.item_description := JStr (ActionItem.description a);
     Models.item_priority := ActionItem.priority a;
     Models.item_impact := Models.of_optional_str (ActionItem.impact a);
     Models.item_potential_savings :=
       Models.of_optional_float (ActionItem.potential_savings a) |}.

Definition goal_view (g : Goal.t) : Models.goal_fields :=
  {| Models.goal_description := JStr (Goal.description g);
     Models.goal_current_value := JFloat (Goal.current_value g);
     Models.goal_target_value := JFloat (Goal.target_value g);
     Models.goal_timeframe := JStr (Goal.timeframe g);
     Models.goal_category := Models.of_optional_str (Goal.category g) |}.

Section WithBuiltins.
Context {B : Builtins}.

(** The share of the total that an amount makes, in percent, as the
    trend loop of the analyst computes it, and the line it writes for a
    category. *)
Definition percent_of (total amount : float) : float :=
  mul (ieee_div amount total) (of_Z 100).

Definition trend_line (c : ExpenseCategory) (amount pct : float) : pystr :=
  get_emoji c ++ py " " ++ value c ++ py " spending is high ("
  ++ format_0f amount ++ py " TL, " ++ format_1f pct ++ py "%)".

Definition is_high (total : float) (entry : ExpenseCategory * float)
    : bool :=
  geb (percent_of total (snd entry)) (of_Z 30).

(** The lines that [_parse_response] reads: stripped, the empty ones
    left out. *)
Definition response_lines (text : pystr) : list pystr :=
  filter (fun l => negb (Nat.eqb (List.length l) 0))
    (map strip (Strategist.split_lines [] text)).

(** A line that can serve as the summary. *)
Definition is_summary_line (line : pystr) : bool :=
  negb (Strategist.is_header line) && negb (Strategist.is_item line)
  && (20 <? List.length line)%nat.

(** The text of a line that is a numbered or bulleted item, when there is
    text after the marker. *)
Definition item_text (line : pystr) : list pystr :=
  if negb (Strategist.is_header line) && Strategist.is_item line then
    match Strategist.strip_marker line with
    | [] => []
    | c :: s => [c :: s]
    end
  else [].

End WithBuiltins.

(** The priorities that the items of a status may carry. *)
Definition priority_allowed (s : BudgetStatus) (p : ActionPriority) : bool :=
  match s, p with
  | HEALTHY, (LOW | MEDIUM) => true
  | HEALTHY, _ => false
  | WARNING, MEDIUM => true
  | WARNING, _ => false
  | _, (MEDIUM | HIGH | URGENT) => true
  | _, LOW => false
  end.

(** An item that does not promise negative savings. *)
Definition savings_not_negative (item : ActionItem.t) : Prop :=
  match ActionItem.potential_savings item with
  | Some s => strictly_negative s = false
  | None => True
  end.

Definition is_urgent (a : ActionItem.t) : bool :=
  match ActionItem.priority a with URGENT => true | _ => false end.

End Notions.
Import Notions.

(* ================================================================== *)
(** * Facts about binary64 comparison *)

Module FloatFacts.

Lemma digits2_bounds (m : positive) :
  2 ^ (Zpos (digits2_pos m) - 1) <= Zpos m < 2 ^ Zpos (digits2_pos m).
Proof.
  induction m as [p IH | p IH | ]; cbn [digits2_pos].
  - rewrite Pos2Z.inj_succ.
    replace (Z.succ (Zpos (digits2_pos p)) - 1)
      with (Z.succ (Zpos (digits2_pos p) - 1)) by lia.
    rewrite !Z.pow_succ_r by lia. lia.
  - rewrite Pos2Z.inj_succ.
    replace (Z.succ (Zpos (digits2_pos p)) - 1)
      with (Z.succ (Zpos (digits2_pos p) - 1)) by lia.
    rewrite !Z.pow_succ_r by lia. lia.
  - cbn. lia.
Qed.

(** What validity says about a finite float: the exponent is in range, the
    mantissa has at most 53 bits, and exactly 53 above the least
    exponent. *)
Lemma valid_finite (s : bool) (m : positive) (e : Z) :
  valid (S754_finite s m e) = true ->
  -1074 <= e /\ Zpos m < 2 ^ 53 /\ (-1074 < e -> 2 ^ 52 <= Zpos m).
Proof.
  unfold valid, valid_binary, bounded, canonical_mantissa, fexp, SpecFloat.emin,
    prec, emax.
  intros H. apply andb_true_iff in H. destruct H as [H _].
  apply Z.eqb_eq in H.
  pose proof (digits2_bounds m) as [Hlo Hhi].
  set (d := Zpos (digits2_pos m)) in *.
  assert (Hd : 0 < d) by (unfold d; lia).
  assert (He : -1074 <= e) by lia.
  assert (Hd53 : d <= 53) by lia.
  split; [exact He|]. split.
  - apply Z.lt_le_trans with (2 ^ d); [exact Hhi|].
    apply Z.pow_le_mono_r; lia.
  - intros Hn. assert (d = 53) by lia.
    replace 52 with (d - 1) by lia. exact Hlo.
Qed.

Lemma pow2_pos (k : Z) : 0 <= k -> 0 < 2 ^ k.
Proof. intros. apply Z.pow_pos_nonneg; lia. Qed.

Lemma scale_lt (a b P Q T : Z) :
  0 < P -> 2 <= Q -> 0 < T -> a < T * 2 -> T <= b ->
  a * P < b * (P * Q).
Proof.
  intros HP HQ HT Ha Hb.
  apply Z.lt_le_trans with (T * 2 * P).
  - apply Z.mul_lt_mono_pos_r; assumption.
  - apply Z.le_trans with (b * (P * 2)).
    + replace (T * 2 * P) with (T * (P * 2)) by ring.
      apply Z.mul_le_mono_nonneg_r; lia.
    + apply Z.mul_le_mono_nonneg_l; [lia|].
      apply Z.mul_le_mono_nonneg_l; lia.
Qed.

(** Among valid positive floats, a larger exponent means a larger value. *)
Lemma exponent_decides (m1 m2 : positive) (e1 e2 : Z) :
  -1074 <= e1 -> e1 < e2 -> Zpos m1 < 2 ^ 53 -> 2 ^ 52 <= Zpos m2 ->
  Zpos m1 * 2 ^ (e1 + 1074) < Zpos m2 * 2 ^ (e2 + 1074).
Proof.
  intros He1 Hlt Hm1 Hm2.
  replace (e2 + 1074) with ((e1 + 1074) + (e2 - e1)) by lia.
  rewrite (Z.pow_add_r 2 (e1 + 1074) (e2 - e1)) by lia.
  apply scale_lt with (T := 2 ^ 52).
  - apply pow2_pos. lia.
  - change 2 with (2 ^ 1) at 1. apply Z.pow_le_mono_r; lia.
  - apply pow2_pos. lia.
  - exact Hm1.
  - exact Hm2.
Qed.

Lemma compare_mul_pos (a b P : Z) :
  0 < P -> (a * P ?= b * P) = (a ?= b).
Proof.
  intros HP. destruct (Z.compare_spec a b) as [E | L | G].
  - subst. apply Z.compare_refl.
  - apply Z.compare_lt_iff. apply Z.mul_lt_mono_pos_r; assumption.
  - apply Z.compare_gt_iff. apply Z.mul_lt_mono_pos_r; assumption.
Qed.

(** The comparison of two valid finite floats is the comparison of their
    exact values. *)
Lemma compare_scaled (x y : float) :
  valid x = true -> valid y = true ->
  is_finite x = true -> is_finite y = true ->
  SFcompare x y = Some (scaled x ?= scaled y).
Proof.
  intros Vx Vy Fx Fy.
  destruct x as [sx | sx | | sx mx ex]; try discriminate;
  destruct y as [sy | sy | | sy my ey]; try discriminate; cbn [SFcompare scaled].
  - reflexivity.
  - apply valid_finite in Vy. destruct Vy as (He & _ & _).
    pose proof (pow2_pos (ey + 1074) ltac:(lia)).
    f_equal. symmetry. destruct sy; cbn [cond_Zopp].
    + apply Z.compare_gt_iff. nia.
    + apply Z.compare_lt_iff. nia.
  - apply valid_finite in Vx. destruct Vx as (He & _ & _).
    pose proof (pow2_pos (ex + 1074) ltac:(lia)).
    f_equal. symmetry. destruct sx; cbn [cond_Zopp].
    + apply Z.compare_lt_iff. nia.
    + apply Z.compare_gt_iff. nia.
  - apply valid_finite in Vx. destruct Vx as (Hex & Hmx & Hnx).
    apply valid_finite in Vy. destruct Vy as (Hey & Hmy & Hny).
    pose proof (pow2_pos (ex + 1074) ltac:(lia)) as Px.
    pose proof (pow2_pos (ey + 1074) ltac:(lia)) as Py.
    f_equal. symmetry.
    destruct sx, sy; cbn [cond_Zopp].
    + destruct (Z.compare_spec ex ey) as [E | L | G].
      * subst ey. rewrite compare_mul_pos by exact Px.
        rewrite Z.compare_opp.
        exact (Pos.compare_antisym mx my).
      * apply Z.compare_gt_iff.
        pose proof (exponent_decides mx my ex ey Hex L Hmx (Hny ltac:(lia))).
        lia.
      * apply Z.compare_lt_iff.
        pose proof (exponent_decides my mx ey ex Hey ltac:(lia) Hmy
                      (Hnx ltac:(lia))).
        lia.
    + apply Z.compare_lt_iff. nia.
    + apply Z.compare_gt_iff. nia.
    + destruct (Z.compare_spec ex ey) as [E | L | G].
      * subst ey. rewrite compare_mul_pos by exact Px. reflexivity.
      * apply Z.compare_lt_iff.
        exact (exponent_decides mx my ex ey Hex L Hmx (Hny ltac:(lia))).
      * apply Z.compare_gt_iff.
        pose proof (exponent_decides my mx ey ex Hey ltac:(lia) Hmy
                      (Hnx ltac:(lia))).
        lia.
Qed.

Lemma ltb_scaled (x y : float) :
  valid x = true -> valid y = true ->
  is_finite x = true -> is_finite y = true ->
  ltb x y = Z.ltb (scaled x) (scaled y).
Proof.
  intros. unfold ltb, SFltb. rewrite compare_scaled by assumption.
  unfold Z.ltb. destruct (scaled x ?= scaled y); reflexivity.
Qed.

Lemma leb_scaled (x y : float) :
  valid x = true -> valid y = true ->
  is_finite x = true -> is_finite y = true ->
  leb x y = Z.leb (scaled x) (scaled y).
Proof.
  intros. unfold leb, SFleb. rewrite compare_scaled by assumption.
  unfold Z.leb. destruct (scaled x ?= scaled y); reflexivity.
Qed.

End FloatFacts.

(* ================================================================== *)
(** * Budget status thresholds *)

Module StatusFacts.
Import FloatFacts.

Lemma scaled_of_Z_small (z : Z) :
  z = 0 \/ z = 80 \/ z = 100 ->
  valid (of_Z z) = true /\ is_finite (of_Z z) = true
  /\ scaled (of_Z z) = z * Zpos (2 ^ 1074).
Proof.
  intros [-> | [-> | ->]]; repeat split; vm_compute; reflexivity.
Qed.

(** Comparisons of the exact value with an integer, on the scaled value. *)
Lemma Qlt_scaled (p : float) (z : Z) :
  (to_Q p < inject_Z z)%Q <-> scaled p < z * Zpos (2 ^ 1074).
Proof. unfold Qlt, to_Q, inject_Z. cbn [Qnum Qden]. lia. Qed.

Lemma Qgt_scaled (p : float) (z : Z) :
  (inject_Z z < to_Q p)%Q <-> z * Zpos (2 ^ 1074) < scaled p.
Proof. unfold Qlt, to_Q, inject_Z. cbn [Qnum Qden]. lia. Qed.

Lemma Qle_scaled (p : float) (z : Z) :
  (to_Q p <= inject_Z z)%Q <-> scaled p <= z * Zpos (2 ^ 1074).
Proof. unfold Qle, to_Q, inject_Z. cbn [Qnum Qden]. lia. Qed.

Lemma Qge_scaled (p : float) (z : Z) :
  (inject_Z z <= to_Q p)%Q <-> z * Zpos (2 ^ 1074) <= scaled p.
Proof. unfold Qle, to_Q, inject_Z. cbn [Qnum Qden]. lia. Qed.

(** C2. [BudgetStatus.from_percentage] on a percentage that is a real
    number, that is a finite float [p] of exact value [to_Q p]: [UNKNOWN]
    below 0, [HEALTHY] from 0 up to but not including 80, [WARNING] from
    80 to 100 inclusive, [OVER_BUDGET] above 100; and the six sample
    values, each the float that the decimal of the specification denotes. *)
Theorem from_percentage_thresholds :
  (forall p : float,
      valid p = true -> is_finite p = true ->
      ((to_Q p < 0)%Q -> from_percentage p = UNKNOWN) /\
      ((0 <= to_Q p)%Q -> (to_Q p < 80)%Q -> from_percentage p = HEALTHY) /\
      ((80 <= to_Q p)%Q -> (to_Q p <= 100)%Q ->
       from_percentage p = WARNING) /\
      ((100 < to_Q p)%Q -> from_percentage p = OVER_BUDGET)) /\
  from_percentage (of_Z 0) = HEALTHY /\
  from_percentage (of_decimal 79999 3) = HEALTHY /\
  from_percentage (of_Z 80) = WARNING /\
  from_percentage (of_Z 100) = WARNING /\
  from_percentage (of_decimal 100001 3) = OVER_BUDGET /\
  from_percentage (of_Z (-1)) = UNKNOWN.
Proof.
  split; [|repeat split; vm_compute; reflexivity].
  intros p Vp Fp.
  destruct (scaled_of_Z_small 0 ltac:(auto)) as (V0 & F0 & S0).
  destruct (scaled_of_Z_small 80 ltac:(auto)) as (V80 & F80 & S80).
  destruct (scaled_of_Z_small 100 ltac:(auto)) as (V100 & F100 & S100).
  unfold from_percentage.
  rewrite !ltb_scaled, leb_scaled by assumption.
  rewrite S0, S80, S100.
  change 0%Q with (inject_Z 0). change 80%Q with (inject_Z 80).
  change 100%Q with (inject_Z 100).
  rewrite !Qlt_scaled, !Qgt_scaled, !Qle_scaled, !Qge_scaled.
  generalize (Pos2Z.is_pos (2 ^ 1074)).
  generalize (Zpos (2 ^ 1074)). intros D HD.
  destruct (Z.ltb_spec (scaled p) (0 * D));
    destruct (Z.ltb_spec (scaled p) (80 * D));
    destruct (Z.leb_spec (scaled p) (100 * D));
    repeat split; intros; try reflexivity; exfalso; lia.
Qed.

Lemma from_percentage_thresholds_witness :
  from_percentage (of_Z 50) = HEALTHY.
Proof.
  refine (proj1 (proj2 (proj1 from_percentage_thresholds (of_Z 50) _ _)) _ _).
  - vm_compute; reflexivity.
  - vm_compute; reflexivity.
  - vm_compute; discriminate.
  - vm_compute; reflexivity.
Defined.

End StatusFacts.

(* ================================================================== *)
(** * The category breakdown: sandboxed program against direct loop *)

Module BreakdownFacts.
Import Analyst.

Lemma same_number_refl (x : float) : same_number x x.
Proof. left. reflexivity. Qed.

(** Adding the same amount to two numbers that agree up to the sign of
    zero gives two such numbers. *)
Lemma add_same_number (x y a : float) :
  same_number x y -> same_number (add x a) (add y a).
Proof.
  intros [-> | [Zx Zy]]; [left; reflexivity|].
  destruct x as [sx | | |]; try discriminate.
  destruct y as [sy | | |]; try discriminate.
  destruct a as [sa | sa | | sa ma ea]; unfold add; cbn.
  - destruct sx, sy, sa; cbn; (left; reflexivity) || (right; split; reflexivity).
  - left; reflexivity.
  - left; reflexivity.
  - left; reflexivity.
Qed.

(** [0 + a] is [a], up to the sign of zero. *)
Lemma add_zero_same (a : float) : same_number (add zero a) a.
Proof.
  destruct a as [[|] | | |]; unfold add, zero; cbn;
    (left; reflexivity) || (right; split; reflexivity).
Qed.

Lemma add_zero_exact (a : float) :
  is_negative_zero a = false -> add zero a = a.
Proof.
  destruct a as [[|] | | |]; unfold add, zero; cbn; intros H;
    solve [reflexivity | discriminate H].
Qed.

Lemma same_breakdown_refl (d : dict float) : same_breakdown d d.
Proof.
  induction d as [|[k v] d IH]; constructor; auto.
  split; [reflexivity | apply same_number_refl].
Qed.

Lemma get_same (k : pystr) (d1 d2 : dict float) :
  same_breakdown d1 d2 ->
  match Dict.get k d1, Dict.get k d2 with
  | Some v1, Some v2 => same_number v1 v2
  | None, None => True
  | _, _ => False
  end.
Proof.
  induction 1 as [|[k1 v1] [k2 v2] d1 d2 [Hk Hv] _ IH]; cbn in *; [exact I|].
  subst k2. destruct (Str.eqb k k1); [exact Hv | exact IH].
Qed.

Lemma set_same (k : pystr) (v1 v2 : float) (d1 d2 : dict float) :
  same_breakdown d1 d2 -> same_number v1 v2 ->
  same_breakdown (Dict.set k v1 d1) (Dict.set k v2 d2).
Proof.
  intros H Hv.
  induction H as [|[k1 w1] [k2 w2] d1 d2 [Hk Hw] Hd IH]; cbn in *.
  - constructor; [split; [reflexivity | exact Hv] | constructor].
  - subst k2. destruct (Str.eqb k k1).
    + constructor; [split; [reflexivity | exact Hv] | exact Hd].
    + constructor; [split; [reflexivity | exact Hw] | exact IH].
Qed.

Lemma step_same (d1 d2 : dict float) (e : Expense.t) :
  same_breakdown d1 d2 ->
  same_breakdown
    (program_step d1 (value (Expense.category e), Expense.amount e))
    (direct_step d2 e).
Proof.
  intros H. unfold program_step, direct_step, Dict.mem, Dict.get_default.
  pose proof (get_same (value (Expense.category e)) d1 d2 H) as G.
  destruct (Dict.get (value (Expense.category e)) d1) as [v1|];
    destruct (Dict.get (value (Expense.category e)) d2) as [v2|];
    try contradiction.
  - apply set_same; [exact H | apply add_same_number; exact G].
  - apply set_same; [exact H|].
    destruct (add_zero_same (Expense.amount e)) as [E | [Z1 Z2]].
    + left. symmetry. exact E.
    + right. split; assumption.
Qed.

Lemma step_exact (d : dict float) (e : Expense.t) :
  is_negative_zero (Expense.amount e) = false ->
  program_step d (value (Expense.category e), Expense.amount e)
  = direct_step d e.
Proof.
  intros NZ. unfold program_step, direct_step, Dict.mem, Dict.get_default.
  destruct (Dict.get (value (Expense.category e)) d) as [v|];
    [reflexivity|].
  rewrite add_zero_exact by exact NZ. reflexivity.
Qed.

Lemma loops_same (expenses : list Expense.t) (d1 d2 : dict float) :
  same_breakdown d1 d2 ->
  same_breakdown
    (fold_left program_step (expense_data_of expenses) d1)
    (fold_left direct_step expenses d2).
Proof.
  unfold expense_data_of.
  revert d1 d2. induction expenses as [|e es IH]; intros d1 d2 H;
    cbn [map fold_left].
  - exact H.
  - apply IH. apply step_same. exact H.
Qed.

Lemma loops_exact (expenses : list Expense.t) (d : dict float) :
  forallb (fun e => negb (is_negative_zero (Expense.amount e))) expenses
  = true ->
  fold_left program_step (expense_data_of expenses) d
  = fold_left direct_step expenses d.
Proof.
  unfold expense_data_of.
  revert d. induction expenses as [|e es IH]; intros d H;
    cbn [map fold_left forallb] in *.
  - reflexivity.
  - apply andb_true_iff in H. destruct H as [He Hes].
    rewrite step_exact by (apply negb_true_iff; exact He).
    apply IH. exact Hes.
Qed.

(** What the generated program returns when it returns. *)
Lemma breakdown_program_value (data : list (pystr * float))
    (total : float) (output : dict float) :
  breakdown_program data total = Ok output ->
  output = fold_left program_step data [].
Proof.
  unfold breakdown_program.
  destruct (negb (forallb is_finite (map snd data))); [discriminate|].
  destruct (negb (is_finite total)); [discriminate|].
  fold program_step.
  match goal with
  | |- context [for_each ?f ?l] => destruct (for_each f l)
  end; cbn; intros H; inversion H; reflexivity.
Qed.

(** The value of [_calculate_breakdown_with_code], whichever path ran. *)
Lemma breakdown_paths_helper (sandbox : Sandbox)
    (expenses : list Expense.t) (total : float) :
  same_breakdown (_calculate_breakdown_with_code expenses total)
    (direct_breakdown expenses).
Proof.
  unfold _calculate_breakdown_with_code, CodeExecutor.execute.
  fold (expense_data_of expenses).
  destruct (@interrupted sandbox) as [err|]; cbn.
  - apply same_breakdown_refl.
  - destruct (breakdown_program (expense_data_of expenses) total)
      as [output|e] eqn:E; cbn.
    + apply breakdown_program_value in E. subst output.
      apply loops_same. constructor.
    + apply same_breakdown_refl.
Qed.

(** C1. For every list of expenses and every total: the mapping that the
    sandboxed program computes, whenever the run succeeds, and the mapping
    of the fallback loop have the same categories in the same order with
    the same number for each (the two may differ only in the sign of a
    zero total, which [==] does not see); they are the same dict outright
    when no amount is [-0.0].  [_calculate_breakdown_with_code] hands back
    the sandbox output on success and the fallback mapping on every
    failure, so its value agrees with the fallback loop whichever path
    ran. *)
Theorem breakdown_paths_agree :
  forall (sandbox : Sandbox) (expenses : list Expense.t) (total : float),
    let program := breakdown_program (expense_data_of expenses) total in
    let executed := CodeExecutor.execute program in
    (forall output,
        program = Ok output ->
        same_breakdown output (direct_breakdown expenses) /\
        (forallb (fun e => negb (is_negative_zero (Expense.amount e)))
           expenses = true ->
         output = direct_breakdown expenses)) /\
    (CodeExecutor.success executed = true ->
     CodeExecutor.output executed
     = Some (_calculate_breakdown_with_code expenses total) /\
     program = Ok (_calculate_breakdown_with_code expenses total)) /\
    (CodeExecutor.success executed = false ->
     _calculate_breakdown_with_code expenses total
     = direct_breakdown expenses) /\
    same_breakdown (_calculate_breakdown_with_code expenses total)
      (direct_breakdown expenses).
Proof.
  intros sandbox expenses total program executed.
  assert (Hprog : forall output,
             program = Ok output ->
             same_breakdown output (direct_breakdown expenses) /\
             (forallb (fun e => negb (is_negative_zero (Expense.amount e)))
                expenses = true ->
              output = direct_breakdown expenses)).
  { intros output H. apply breakdown_program_value in H. subst output.
    split.
    - apply loops_same. constructor.
    - intros NZ. apply loops_exact. exact NZ. }
  split; [exact Hprog|].
  unfold _calculate_breakdown_with_code.
  fold (expense_data_of expenses). fold program. fold executed.
  unfold executed, CodeExecutor.execute.
  destruct (@interrupted sandbox) as [err|]; cbn.
  - repeat split; try discriminate. apply same_breakdown_refl.
  - destruct program as [output|e] eqn:E; cbn.
    + repeat split; try discriminate.
      apply (Hprog output eq_refl).
    + repeat split; try discriminate. apply same_breakdown_refl.
Qed.

Lemma breakdown_paths_agree_witness :
  breakdown_program (expense_data_of Reference.sample_expenses) (of_Z 8470)
  = Ok (direct_breakdown Reference.sample_expenses).
Proof.
  pose proof (breakdown_paths_agree Reference.sandbox_running
                Reference.sample_expenses (of_Z 8470)) as H.
  cbv zeta in H. destruct H as [H _].
  destruct (breakdown_program (expense_data_of Reference.sample_expenses)
              (of_Z 8470)) as [output|e] eqn:E.
  - f_equal. apply (H output eq_refl). vm_compute. reflexivity.
  - vm_compute in E. discriminate E.
Defined.

End BreakdownFacts.

(* ================================================================== *)
(** * The analyst *)

Module AnalystFacts.
Import Analyst BreakdownFacts.

Lemma div_ok (x y : float) :
  is_zero y = false -> div x y = Ok (ieee_div x y).
Proof. intros H. unfold div. rewrite H. reflexivity. Qed.

Lemma div_zero (x y : float) :
  is_zero y = true -> div x y = Raise ZeroDivisionError.
Proof. intros H. unfold div. rewrite H. reflexivity. Qed.

Lemma of_value_cases (s : pystr) :
  (exists c, of_value s = Ok c) \/ (exists msg, of_value s = Raise (ValueError msg)).
Proof.
  unfold of_value. destruct (find _ all_categories); eauto.
Qed.

Lemma trend_of_ok {B : Builtins} (total : float) (entry : pystr * float) :
  is_zero total = false -> exists t, trend_of total entry = Ok t.
Proof.
  intros H. destruct entry as [cat amount]. unfold trend_of.
  rewrite div_ok by exact H. cbn [bind].
  destruct (geb _ _); [|eauto].
  destruct (of_value_cases cat) as [[c ->] | [msg ->]]; eauto.
Qed.

Lemma collect_trends_ok {B : Builtins} (total : float) (d : dict float) :
  is_zero total = false -> exists t, collect_trends total d = Ok t.
Proof.
  intros H. induction d as [|entry d [t IH]]; cbn [collect_trends].
  - eauto.
  - destruct (trend_of_ok total entry H) as [t0 ->]. rewrite IH. cbn. eauto.
Qed.

Lemma collect_trends_zero {B : Builtins} (total : float) (d : dict float) :
  is_zero total = true -> d <> [] ->
  collect_trends total d = Raise ZeroDivisionError.
Proof.
  intros H Hd. destruct d as [|[cat amount] d]; [congruence|].
  cbn [collect_trends trend_of]. rewrite div_zero by exact H. reflexivity.
Qed.

Lemma set_nonempty {V : Type} (k : pystr) (v : V) (d : dict V) :
  Dict.set k v d <> [].
Proof. destruct d as [|[k' v'] d]; cbn; [|destruct (Str.eqb k k')]; discriminate. Qed.

Lemma direct_breakdown_nonempty (expenses : list Expense.t) :
  expenses <> [] -> direct_breakdown expenses <> [].
Proof.
  unfold direct_breakdown. fold direct_step.
  assert (G : forall es d, d <> [] -> fold_left direct_step es d <> []).
  { induction es as [|e es IH]; intros d Hd; cbn [fold_left]; [exact Hd|].
    apply IH. apply set_nonempty. }
  destruct expenses as [|e es]; [congruence|]. intros _.
  cbn [fold_left]. apply G. apply set_nonempty.
Qed.

Lemma same_breakdown_nonempty (d1 d2 : dict float) :
  same_breakdown d1 d2 -> d2 <> [] -> d1 <> [].
Proof. intros H Hd. destruct H; [congruence | discriminate]. Qed.

Lemma breakdown_nonempty {B : Builtins} {sandbox : Sandbox}
    (enable : bool) (expenses : list Expense.t) (total : float) :
  expenses <> [] ->
  (if enable then _calculate_breakdown_with_code expenses total
   else direct_breakdown expenses) <> [].
Proof.
  intros H. destruct enable.
  - apply same_breakdown_nonempty with (direct_breakdown expenses).
    + apply (breakdown_paths_helper sandbox expenses total).
    + apply direct_breakdown_nonempty. exact H.
  - apply direct_breakdown_nonempty. exact H.
Qed.

(** What an analysis that [execute] returned holds. *)
Lemma execute_inversion {B : Builtins} {sandbox : Sandbox}
    (enable : bool) (expenses : list Expense.t) (days_analyzed : Z)
    (income : option float) (a : Analysis.t) :
  execute enable expenses days_analyzed income = Ok a ->
  let total := sum (map Expense.amount expenses) in
  expenses <> [] /\
  is_zero total = false /\
  exists days,
    of_int days_analyzed = Ok days /\ is_zero days = false /\
    Analysis.total_expenses a = total /\
    Analysis.daily_rate a = ieee_div total days /\
    Analysis.monthly_projection a = mul (ieee_div total days) (of_Z 30) /\
    Analysis.days_analyzed a = days_analyzed /\
    Analysis.category_breakdown a
    = (if enable then _calculate_breakdown_with_code expenses total
       else direct_breakdown expenses) /\
    Analysis.income a = income /\
    (Analysis.usage_percentage a, Analysis.budget_status a,
     Analysis.remaining_budget a)
    = budget_of (mul (ieee_div total days) (of_Z 30)) income.
Proof.
  intros H total. unfold execute in H. fold total in H.
  destruct expenses as [|e0 es]; [discriminate|].
  split; [discriminate|].
  destruct (of_int days_analyzed) as [days|err] eqn:Ed; [|discriminate].
  cbn [bind] in H.
  destruct (is_zero days) eqn:Zd;
    [rewrite div_zero in H by exact Zd; discriminate|].
  rewrite div_ok in H by exact Zd. cbn [bind] in H.
  set (mp := mul (ieee_div total days) (of_Z 30)) in *.
  set (bd := if enable then _ else _) in *.
  assert (Hbd : bd <> []).
  { apply (breakdown_nonempty enable (e0 :: es) total). discriminate. }
  destruct (is_zero total) eqn:Zt.
  { rewrite collect_trends_zero in H by assumption.
    destruct income as [i|]; [destruct (truthy i) eqn:Ti|].
    - rewrite div_ok in H
        by (unfold truthy in Ti; apply negb_true_iff in Ti; exact Ti).
      discriminate H.
    - discriminate H.
    - discriminate H. }
  split; [reflexivity|].
  destruct (collect_trends total bd) as [t|err];
    [|destruct income as [i|]; [destruct (truthy i) eqn:Ti|];
      [rewrite div_ok in H
         by (unfold truthy in Ti; apply negb_true_iff in Ti; exact Ti)| |];
      discriminate H].
  exists days. unfold budget_of.
  destruct income as [i|]; [destruct (truthy i) eqn:Ti|].
  - rewrite div_ok in H
      by (unfold truthy in Ti; apply negb_true_iff in Ti; exact Ti).
    cbn [bind] in H. inversion H; subst a; clear H. cbn.
    repeat split; try reflexivity; assumption.
  - cbn [bind] in H. inversion H; subst a; clear H. cbn.
    repeat split; try reflexivity; assumption.
  - cbn [bind] in H. inversion H; subst a; clear H. cbn.
    repeat split; try reflexivity; assumption.
Qed.

(** [execute] returns whenever the list is not empty, the amounts do not
    sum to zero and the number of days converts to a float other than
    zero. *)
Lemma execute_returns {B : Builtins} {sandbox : Sandbox}
    (enable : bool) (expenses : list Expense.t) (days_analyzed : Z)
    (income : option float) (days : float) :
  expenses <> [] ->
  is_zero (sum (map Expense.amount expenses)) = false ->
  of_int days_analyzed = Ok days -> is_zero days = false ->
  exists a, execute enable expenses days_analyzed income = Ok a.
Proof.
  intros Hne Zt Ed Zd. unfold execute.
  destruct expenses as [|e0 es]; [congruence|].
  rewrite Ed. cbn [bind]. rewrite div_ok by exact Zd. cbn [bind].
  destruct income as [i|].
  - destruct (truthy i) eqn:Ti.
    + rewrite div_ok
        by (unfold truthy in Ti; apply negb_true_iff in Ti; exact Ti).
      cbn [bind].
      match goal with
      | |- context [collect_trends ?t ?d] =>
        destruct (collect_trends_ok t d Zt) as [tr ->]
      end. cbn. eauto.
    + cbn [bind].
      match goal with
      | |- context [collect_trends ?t ?d] =>
        destruct (collect_trends_ok t d Zt) as [tr ->]
      end. cbn. eauto.
  - cbn [bind].
    match goal with
    | |- context [collect_trends ?t ?d] =>
      destruct (collect_trends_ok t d Zt) as [tr ->]
    end. cbn. eauto.
Qed.



(** The run of the specification's example: the fixture of the test
    suite, 8470 over 7 days against an income of 15000. *)
Lemma execute_sample {B : Builtins} (enable : bool) :
  exists a,
    @execute B Reference.sandbox_running enable Reference.sample_expenses 7
      (Some (of_Z 15000)) = Ok a /\
    Analysis.total_expenses a = of_Z 8470 /\
    Analysis.daily_rate a = of_Z 1210 /\
    Analysis.monthly_projection a = of_Z 36300 /\
    Analysis.usage_percentage a = Some (of_Z 242) /\
    Analysis.budget_status a = OVER_BUDGET /\
    Analysis.remaining_budget a = Some zero.
Proof.
  destruct (@execute_returns B Reference.sandbox_running enable
              Reference.sample_expenses 7 (Some (of_Z 15000)) (of_Z 7))
    as [a Ha]; try (vm_compute; congruence).
  exists a. split; [exact Ha|].
  destruct (execute_inversion _ _ _ _ _ Ha)
    as (_ & _ & days & Ed & _ & Et & Edr & Emp & _ & _ & _ & Eb).
  assert (days = of_Z 7)
    by (vm_compute in Ed; inversion Ed; vm_compute; reflexivity).
  subst days.
  rewrite Et, Edr, Emp.
  assert (Er : budget_of
                 (mul (ieee_div (sum (map Expense.amount
                                        Reference.sample_expenses))
                         (of_Z 7)) (of_Z 30))
                 (Some (of_Z 15000))
               = (Some (of_Z 242), OVER_BUDGET, Some zero))
    by (vm_compute; reflexivity).
  rewrite Er in Eb. inversion Eb as [[Eu Es Erem]].
  repeat split; try assumption; vm_compute; reflexivity.
Qed.

(** C3, at the input where the code leaves the claim.  A batch whose
    amounts sum to zero, here one expense that carries the sentinel amount
    of an unparsed price, makes the trend loop divide by the total:
    [execute] raises [ZeroDivisionError] where the claim has it return an
    analysis with total 0, whatever the income and the executor switch. *)
Theorem execute_zero_total_raises :
  forall (B : Builtins) (sandbox : Sandbox) (enable : bool)
         (income : option float),
    execute enable [Reference.expense "hediye" zero OTHER] 1 income
    = Raise ZeroDivisionError.
Proof.
  intros B sandbox enable income.
  destruct (execute enable [Reference.expense "hediye" zero OTHER] 1 income)
    as [a|err] eqn:E.
  - apply execute_inversion in E. destruct E as (_ & Zt & _).
    vm_compute in Zt. discriminate Zt.
  - unfold execute in E.
    change (of_int 1) with (Ok (of_Z 1)) in E. cbn [bind] in E.
    rewrite div_ok in E by reflexivity. cbn [bind] in E.
    set (bd := if enable then _ else _) in E.
    assert (Hbd : bd <> []).
    { apply (breakdown_nonempty enable
               [Reference.expense "hediye" zero OTHER]). discriminate. }
    rewrite (collect_trends_zero _ bd) in E by (reflexivity || exact Hbd).
    destruct income as [i|]; [destruct (truthy i) eqn:Ti|].
    + rewrite div_ok in E
        by (unfold truthy in Ti; apply negb_true_iff in Ti; exact Ti).
      cbn in E. congruence.
    + cbn in E. congruence.
    + cbn in E. congruence.
Qed.

End AnalystFacts.

(* ================================================================== *)
(** * Categories: keywords first, the backend second *)

Module CategorizeFacts.
Import Classifier.

(** The loop of [from_keywords] returns the first entry of the table that
    has a keyword in the text. *)
Lemma first_hit_found (text_lower : pystr)
    (table : list (ExpenseCategory * list pystr)) (c : ExpenseCategory) :
  first_hit text_lower table = c -> c <> OTHER ->
  exists earlier keywords later,
    table = earlier ++ (c, keywords) :: later /\
    keyword_hit text_lower keywords = true /\
    Forall (fun entry => keyword_hit text_lower (snd entry) = false) earlier.
Proof.
  induction table as [|[c0 kws] table IH]; cbn [first_hit]; intros H Hc.
  - congruence.
  - destruct (keyword_hit text_lower kws) eqn:E.
    + subst c0. exists [], kws, table. repeat split; auto.
    + destruct (IH H Hc) as (earlier & keywords & later & -> & Hk & Hall).
      exists ((c0, kws) :: earlier), keywords, later.
      repeat split; auto.
Qed.

Lemma first_hit_other (text_lower : pystr)
    (table : list (ExpenseCategory * list pystr)) :
  Forall (fun entry => fst entry <> OTHER) table ->
  (first_hit text_lower table = OTHER <->
   Forall (fun entry => keyword_hit text_lower (snd entry) = false) table).
Proof.
  induction 1 as [|[c0 kws] table Hc _ IH]; cbn [first_hit].
  - split; auto.
  - cbn in Hc. destruct (keyword_hit text_lower kws) eqn:E.
    + split; [intros X; contradiction|].
      intros F. inversion F as [|? ? F1 F2]. cbn [snd] in F1. congruence.
    + rewrite IH. split; intros F.
      * constructor; assumption.
      * inversion F; assumption.
Qed.

Lemma keywords_map_no_other :
  Forall (fun entry => fst entry <> OTHER) keywords_map.
Proof. repeat constructor; discriminate. Qed.

(** A keyword hit settles the category without the backend. *)
Lemma categorize_by_keyword {B : Builtins} {llm : LLMService}
    (description : pystr) :
  from_keywords description <> OTHER ->
  _categorize (JStr description) = Ok (from_keywords description).
Proof.
  intros H. unfold _categorize.
  destruct (from_keywords description); try reflexivity. congruence.
Qed.

(** Without a keyword hit the backend is asked, and an answer that is not
    the name of a category gives [OTHER]. *)
Lemma categorize_by_backend {B : Builtins} {llm : LLMService}
    (description response : pystr) :
  from_keywords description = OTHER ->
  generate {| prompt := Prompts.CLASSIFIER_CATEGORIZE description;
              system := Some Prompts.CLASSIFIER_SYSTEM;
              task_type := "classify";
              temperature := of_decimal 3 1 |} = Ok response ->
  _categorize (JStr description)
  = Ok match of_value (strip (str_upper response)) with
       | Ok c => c
       | Raise _ => OTHER
       end.
Proof.
  intros H G. unfold _categorize. rewrite H, G. cbn [category_eqb negb bind].
  destruct (AnalystFacts.of_value_cases (strip (str_upper response)))
    as [[c ->] | [msg ->]]; reflexivity.
Qed.

Lemma categorize_starbucks {B : Builtins} {llm : LLMService} :
  str_lower (py "starbucks latte") = py "starbucks latte" ->
  _categorize (JStr (py "starbucks latte")) = Ok FOOD.
Proof.
  intros H. unfold _categorize, from_keywords. rewrite H.
  vm_compute. reflexivity.
Qed.

(** Every text that holds ["asus"] holds ["su"]. *)
Lemma su_inside_asus (text : pystr) :
  contains (py "asus") text = true -> contains (py "su") text = true.
Proof.
  induction text as [|c text IH]; [discriminate|].
  intros H. cbn [contains] in H. apply orb_true_iff in H.
  destruct H as [H | H].
  - change (py "asus") with [97%N; 115%N; 117%N; 115%N] in H.
    destruct text as [|c2 [|c3 [|c4 text]]]; try discriminate H;
      try (cbn in H; rewrite ?andb_false_r in H; discriminate H).
    cbn [starts_with] in H.
    repeat (apply andb_true_iff in H; destruct H as [? H]).
    repeat match goal with
           | E : (_ =? _)%N = true |- _ => apply N.eqb_eq in E
           end.
    subst. reflexivity.
  - cbn [contains]. rewrite (IH H). apply orb_true_r.
Qed.

(** The keyword ["asus"] of SHOPPING never decides: a text that holds it
    is settled by UTILITIES or by a category declared before it. *)
Lemma asus_never_reaches_shopping {B : Builtins} (text : pystr) :
  contains (py "asus") (str_lower text) = true ->
  from_keywords text = FOOD \/ from_keywords text = TRANSPORT
  \/ from_keywords text = UTILITIES.
Proof.
  intros H. apply su_inside_asus in H.
  unfold from_keywords, keywords_map. cbn [first_hit].
  destruct (keyword_hit (str_lower text) _); [auto|].
  destruct (keyword_hit (str_lower text) _); [auto|].
  assert (U : keyword_hit (str_lower text)
                (map py ["elektrik"; "su"; "gaz"; "internet"; "telefon";
                         "fatura"; "doÄŸalgaz"]) = true).
  { unfold keyword_hit. cbn [map existsb]. rewrite H.
    rewrite orb_true_r. reflexivity. }
  rewrite U. auto.
Qed.

(** C9, at the input where the code leaves the claim.  The description
    ["asus laptop"] holds the keyword ["su"] of UTILITIES inside ["asus"],
    and UTILITIES is declared before SHOPPING: the keyword loop answers
    UTILITIES, and the SHOPPING keywords ["asus"] and ["laptop"] are never
    looked at. *)
Theorem categorize_asus_laptop :
  forall (B : Builtins) (llm : LLMService),
    str_lower (py "asus laptop") = py "asus laptop" ->
    _categorize (JStr (py "asus laptop")) = Ok UTILITIES /\
    keyword_hit (py "asus laptop") (map py ["su"]) = true /\
    from_keywords (py "asus laptop") <> SHOPPING.
Proof.
  intros B llm H. unfold _categorize, from_keywords. rewrite H.
  vm_compute. repeat split; discriminate.
Qed.

Lemma categorize_asus_laptop_witness :
  @_categorize Reference.builtins (Reference.answering (py "SHOPPING"))
    (JStr (py "asus laptop")) = Ok UTILITIES.
Proof.
  apply (categorize_asus_laptop Reference.builtins
           (Reference.answering (py "SHOPPING"))).
  vm_compute. reflexivity.
Defined.

End CategorizeFacts.

(* ================================================================== *)
(** * Parsing: the fallback to the generation backend *)

Module ParseFallbackFacts.
Import Classifier.

(** Every outcome of the fallback, by what the backend answered and what
    [json.loads] made of it. *)
Lemma parse_llm_cases {B : Builtins} {llm : LLMService}
    (text response : pystr) :
  generate (parse_request text) = Ok response ->
  _parse_llm text =
  match json_loads response with
  | None => Ok (JStr text, zero)
  | Some (JObj d) =>
    match Dict.get (py "description") d, Dict.get (py "amount") d with
    | Some description, Some amount_value =>
      match float_of_json amount_value with
      | Ok amount => Ok (description, amount)
      | Raise (ValueError _) => Ok (JStr text, zero)
      | Raise e => Raise e
      end
    | _, _ => Ok (JStr text, zero)
    end
  | Some _ => Raise TypeError
  end.
Proof.
  intros G. unfold _parse_llm. fold (parse_request text). rewrite G.
  cbn [bind]. destruct (json_loads response) as [data|]; [|reflexivity].
  destruct data; try reflexivity. cbn [bind subscript].
  destruct (Dict.get (py "description") d) as [description|];
    [|reflexivity].
  cbn [bind].
  destruct (Dict.get (py "amount") d) as [amount_value|]; [|reflexivity].
  cbn [bind].
  destruct amount_value as [| b | z | f | s | l | o]; cbn [float_of_json bind];
    try reflexivity.
  - unfold of_int. destruct (of_Z z); reflexivity.
  - destruct (float_of_str s); reflexivity.
Qed.

(** A text without spaces never matches the pattern. *)
Lemma re_match_hediye {B : Builtins} :
  re_match (strip (py "hediye")) = None.
Proof. vm_compute. reflexivity. Qed.

(** Where the fallback raises: an answer that is JSON but not an
    object. *)
Lemma parse_not_an_object {B : Builtins} {llm : LLMService}
    (text response : pystr) (data : json) :
  re_match (strip text) = None ->
  generate (parse_request text) = Ok response ->
  json_loads response = Some data ->
  match data with JObj _ => False | _ => True end ->
  _parse text = Raise TypeError.
Proof.
  intros R G J H. unfold _parse. rewrite R.
  rewrite (parse_llm_cases _ _ G), J.
  destruct data; try reflexivity. contradiction.
Qed.

(** C5, at the input where the code leaves the claim.  The text
    ["hediye"] has no amount suffix, so [_parse] asks the backend; the
    answer ["[]"] is well-formed JSON that is not an object, subscripting
    it raises [TypeError], and the [except] clause of [_parse] lists only
    [JSONDecodeError], [KeyError] and [ValueError]: the call raises where
    the claim has it return [("hediye", 0.0)]. *)
Theorem parse_non_object_raises :
  forall (B : Builtins) (llm : LLMService),
    generate (parse_request (py "hediye")) = Ok (py "[]") ->
    json_loads (py "[]") = Some (JArr []) ->
    _parse (py "hediye") = Raise TypeError.
Proof.
  intros B llm G J.
  apply (parse_not_an_object (py "hediye") (py "[]") (JArr [])).
  - apply re_match_hediye.
  - exact G.
  - exact J.
  - exact I.
Qed.

Lemma parse_non_object_raises_witness :
  @_parse Reference.builtins (Reference.answering (py "[]")) (py "hediye")
  = Raise TypeError.
Proof.
  apply (parse_non_object_raises Reference.builtins
           (Reference.answering (py "[]"))).
  - reflexivity.
  - vm_compute. reflexivity.
Defined.

(** The same answer with an amount of [null] raises as well. *)
Lemma parse_null_amount_raises {B : Builtins} {llm : LLMService}
    (text response : pystr) (description : json) :
  re_match (strip text) = None ->
  generate (parse_request text) = Ok response ->
  json_loads response
  = Some (JObj [(py "description", description); (py "amount", JNull)]) ->
  _parse text = Raise TypeError.
Proof.
  intros R G J. unfold _parse. rewrite R.
  rewrite (parse_llm_cases _ _ G), J. vm_compute. reflexivity.
Qed.

(** Where the fallback does degrade to the sentinel: malformed JSON, a
    missing key, a string amount that is not a number. *)
Lemma parse_degrades {B : Builtins} {llm : LLMService}
    (text response : pystr) :
  re_match (strip text) = None ->
  generate (parse_request text) = Ok response ->
  match json_loads response with
  | None => True
  | Some (JObj d) =>
    Dict.get (py "description") d = None
    \/ Dict.get (py "amount") d = None
    \/ exists s, Dict.get (py "amount") d = Some (JStr s)
                 /\ float_of_str s = None
  | Some _ => False
  end ->
  _parse text = Ok (JStr text, zero).
Proof.
  intros R G H. unfold _parse. rewrite R. rewrite (parse_llm_cases _ _ G).
  destruct (json_loads response) as [data|]; [|reflexivity].
  destruct data; try contradiction.
  destruct H as [H | [H | (s & H & F)]].
  - rewrite H. reflexivity.
  - rewrite H. destruct (Dict.get (py "description") d); reflexivity.
  - rewrite H. destruct (Dict.get (py "description") d); [|reflexivity].
    cbn [float_of_json]. rewrite F. reflexivity.
Qed.

(** The classifier drops the text that [_parse] raised on. *)
Lemma execute_drops_hediye {B : Builtins} {llm : LLMService} :
  generate (parse_request (py "hediye")) = Ok (py "[]") ->
  json_loads (py "[]") = Some (JArr []) ->
  execute [py "hediye"] = [].
Proof.
  intros G J. cbn [execute]. unfold _classify_single.
  rewrite (parse_not_an_object (py "hediye") (py "[]") (JArr [])
             re_match_hediye G J I).
  reflexivity.
Qed.

End ParseFallbackFacts.

(* ================================================================== *)
(** * Facts about spans, stripping and words *)

Module StringFacts.

Lemma span_spec (p : N -> bool) (s a b : pystr) :
  span p s = (a, b) ->
  s = a ++ b /\ forallb p a = true /\
  match b with [] => True | c :: _ => p c = false end.
Proof.
  revert a b. induction s as [|c s IH]; cbn [span]; intros a b H.
  - inversion H. auto.
  - destruct (p c) eqn:E.
    + destruct (span p s) as [a' b'] eqn:E'. inversion H; subst.
      destruct (IH a' b eq_refl) as (Hs & Ha & Hb).
      split; [rewrite Hs; reflexivity|].
      split; [cbn [forallb]; rewrite E, Ha; reflexivity | exact Hb].
    + inversion H; subst. cbn. auto.
Qed.

(** A run of [p] followed by something that does not start with [p]. *)
Lemma span_app (p : N -> bool) (a b : pystr) :
  forallb p a = true ->
  match b with [] => True | c :: _ => p c = false end ->
  span p (a ++ b) = (a, b).
Proof.
  intros Ha Hb. induction a as [|c a IH]; cbn [app span].
  - destruct b as [|c b]; [reflexivity|]. cbn [span]. rewrite Hb.
    reflexivity.
  - cbn in Ha. apply andb_true_iff in Ha. destruct Ha as [Hc Ha].
    rewrite Hc, (IH Ha). reflexivity.
Qed.

Lemma lstrip_app (a b : pystr) :
  all_space a ->
  match b with [] => True | c :: _ => isspace c = false end ->
  lstrip (a ++ b) = b.
Proof. intros. unfold lstrip. rewrite span_app by assumption. reflexivity. Qed.

Lemma hd_rev_last (s : pystr) (d : N) : hd d (rev s) = last s d.
Proof.
  induction s as [|c s IH]; [reflexivity|].
  cbn [rev]. destruct s as [|c' s]; [reflexivity|].
  change (last (c :: c' :: s) d) with (last (c' :: s) d).
  rewrite <- IH. cbn [rev]. destruct (rev s); reflexivity.
Qed.

Lemma rstrip_app (a b : pystr) :
  all_space b -> isspace (last a 32%N) = false ->
  rstrip (a ++ b) = a.
Proof.
  intros Hb Ha. unfold rstrip. rewrite rev_app_distr.
  rewrite lstrip_app.
  - apply rev_involutive.
  - unfold all_space in *. rewrite forallb_forall in *.
    intros x Hx. apply Hb. apply in_rev. exact Hx.
  - rewrite <- (hd_rev_last a 32%N) in Ha.
    destruct (rev a); [discriminate Ha | exact Ha].
Qed.

Lemma last_app_nonempty (a b : pystr) (d : N) :
  b <> [] -> last (a ++ b) d = last b d.
Proof.
  intros Hb. induction a as [|c a IH]; [reflexivity|].
  cbn [app]. destruct (a ++ b) eqn:E.
  - destruct a; [cbn in E; congruence | discriminate].
  - exact IH.
Qed.

(** Stripping a text whose core has no whitespace at its ends. *)
Lemma strip_core (lead core trail : pystr) :
  all_space lead -> all_space trail ->
  isspace (hd 32%N core) = false -> isspace (last core 32%N) = false ->
  strip (lead ++ core ++ trail) = core.
Proof.
  intros Hl Ht Hh Hlast. unfold strip.
  assert (core <> []) by (destruct core; [discriminate Hh | discriminate]).
  rewrite lstrip_app.
  - apply rstrip_app; assumption.
  - exact Hl.
  - destruct core as [|c core]; [congruence | exact Hh].
Qed.

Lemma strip_trimmed (s : pystr) :
  isspace (hd 32%N s) = false -> isspace (last s 32%N) = false ->
  strip s = s.
Proof.
  intros. rewrite <- (strip_core [] s []) at 2 by (assumption || reflexivity).
  rewrite app_nil_r. reflexivity.
Qed.

(** ** Words *)

Lemma words_space (cur : pystr) (c : N) (s : pystr) :
  isspace c = true -> words cur (c :: s) = flush cur ++ words [] s.
Proof. intros H. cbn [words]. rewrite H. reflexivity. Qed.

Lemma words_all_space (sp s : pystr) :
  all_space sp -> words [] (sp ++ s) = words [] s.
Proof.
  unfold all_space. induction sp as [|c sp IH]; cbn [forallb app]; intros H.
  - reflexivity.
  - apply andb_true_iff in H. destruct H as [Hc H].
    rewrite words_space by exact Hc. cbn [flush app]. exact (IH H).
Qed.

Lemma words_no_space (cur w s : pystr) :
  no_space w -> words cur (w ++ s) = words (rev w ++ cur) s.
Proof.
  unfold no_space. revert cur.
  induction w as [|c w IH]; intros cur; cbn [forallb app rev]; intros H.
  - reflexivity.
  - apply andb_true_iff in H. destruct H as [Hc H].
    apply negb_true_iff in Hc. cbn [words]. rewrite Hc.
    rewrite (IH (c :: cur) H). rewrite <- app_assoc. reflexivity.
Qed.

Lemma words_split (cur a : pystr) (c : N) (b : pystr) :
  isspace c = true ->
  words cur (a ++ c :: b) = words cur a ++ words [] b.
Proof.
  intros Hc. revert cur. induction a as [|x a IH]; intros cur; cbn [app].
  - rewrite words_space by exact Hc. reflexivity.
  - cbn [words]. destruct (isspace x).
    + rewrite IH. rewrite app_assoc. reflexivity.
    + apply IH.
Qed.

Lemma words_nonempty (cur s : pystr) :
  isspace (last s 32%N) = false -> words cur s <> [].
Proof.
  revert cur. induction s as [|c s IH]; intros cur H.
  - discriminate H.
  - destruct s as [|c' s].
    + cbn in H. cbn [words]. rewrite H. cbn. discriminate.
    + change (last (c :: c' :: s) 32%N) with (last (c' :: s) 32%N) in H.
      cbn [words]. destruct (isspace c).
      * intros E. apply app_eq_nil in E. destruct E as [_ E].
        exact (IH [] H E).
      * apply IH. exact H.
Qed.

(** The words of two runs without whitespace, with whitespace around and
    possibly between them. *)
Lemma words_two (sp w1 sp2 w2 sp3 : pystr) :
  all_space sp -> no_space w1 -> w1 <> [] -> all_space sp2 ->
  no_space w2 -> w2 <> [] -> all_space sp3 ->
  words [] (sp ++ w1 ++ sp2 ++ w2 ++ sp3)
  = match sp2 with [] => [w1 ++ w2] | _ :: _ => [w1; w2] end.
Proof.
  intros Hsp Hw1 Nw1 Hsp2 Hw2 Nw2 Hsp3.
  rewrite words_all_space by exact Hsp.
  rewrite words_no_space by exact Hw1. rewrite app_nil_r.
  assert (Tail : forall cur, cur <> [] ->
            words cur sp3 = [rev cur]).
  { intros cur Hcur. destruct sp3 as [|c sp3].
    - cbn. destruct cur; [congruence | reflexivity].
    - unfold all_space in Hsp3. cbn [forallb] in Hsp3.
      apply andb_true_iff in Hsp3. destruct Hsp3 as [Hc H3].
      rewrite words_space by exact Hc.
      rewrite <- (app_nil_r sp3). rewrite words_all_space by exact H3.
      cbn [words flush]. destruct cur; [congruence|].
      rewrite app_nil_r. reflexivity. }
  destruct sp2 as [|c sp2]; cbn [app].
  - rewrite words_no_space by exact Hw2.
    rewrite Tail.
    + rewrite rev_app_distr, !rev_involutive. reflexivity.
    + intros E. apply app_eq_nil in E. destruct E as [E _].
      apply (f_equal (@rev N)) in E. rewrite rev_involutive in E.
      exact (Nw2 E).
  - unfold all_space in Hsp2. cbn [forallb] in Hsp2.
    apply andb_true_iff in Hsp2. destruct Hsp2 as [Hc H2].
    rewrite words_space by exact Hc.
    rewrite words_all_space by exact H2.
    rewrite words_no_space by exact Hw2. rewrite app_nil_r.
    rewrite Tail.
    + rewrite rev_involutive.
      assert (flush (rev w1) = [w1]) as ->.
      { unfold flush. destruct (rev w1) eqn:E.
        - apply (f_equal (@rev N)) in E. rewrite rev_involutive in E.
          contradiction.
        - rewrite <- E. rewrite rev_involutive. reflexivity. }
      reflexivity.
    + intros E. apply (f_equal (@rev N)) in E. rewrite rev_involutive in E.
      exact (Nw2 E).
Qed.

End StringFacts.

(* ================================================================== *)
(** * Parsing: the amount pattern *)

Module PatternFacts.
Import Classifier StringFacts.

Section WithTables.
Context {B : Builtins}.
Hypothesis tables : decimal_table_sound B.

Lemma digit_facts (c : N) :
  is_digit c = true ->
  isspace c = false /\ is_sep c = false /\ match_tag [c] = None
  /\ (forall s, match_tag (c :: s) = None).
Proof.
  unfold is_digit. destruct (unicode_decimal c) as [d|] eqn:E; [|discriminate].
  intros _. destruct (tables c d E) as (Hs & H46 & H44 & H1 & H2 & H3).
  apply N.eqb_neq in H46, H44, H1, H2, H3.
  unfold is_sep, match_tag. rewrite H46, H44, H1, H2, H3. cbn. auto.
Qed.

Lemma digits_no_space (s : pystr) :
  forallb is_digit s = true -> no_space s.
Proof.
  unfold no_space. rewrite !forallb_forall. intros H c Hc.
  destruct (digit_facts c (H c Hc)) as (-> & _). reflexivity.
Qed.

Lemma sep_no_space (c : N) : is_sep c = true -> isspace c = false.
Proof.
  unfold is_sep. intros H. apply orb_true_iff in H.
  destruct H as [H | H]; apply N.eqb_eq in H; subst; reflexivity.
Qed.

Lemma no_space_app (a b : pystr) :
  no_space a -> no_space b -> no_space (a ++ b).
Proof.
  unfold no_space. intros Ha Hb. rewrite forallb_app, Ha, Hb. reflexivity.
Qed.

(** What [match_number] returns: a number that starts with a digit and
    holds no whitespace, and the rest of the input. *)
Lemma match_number_sound (s number r : pystr) :
  match_number s = Some (number, r) ->
  s = number ++ r /\ no_space number /\
  exists c rest, number = c :: rest /\ is_digit c = true.
Proof.
  unfold match_number.
  destruct (span is_digit s) as [ip r1] eqn:E1.
  destruct (span_spec _ _ _ _ E1) as (Hs & Hip & Hr1).
  destruct ip as [|d ip]; [discriminate|].
  assert (Hd : is_digit d = true).
  { cbn in Hip. apply andb_true_iff in Hip. tauto. }
  assert (Base : s = (d :: ip) ++ r1 /\ no_space (d :: ip) /\
                 exists c rest, d :: ip = c :: rest /\ is_digit c = true).
  { split; [exact Hs|]. split; [apply digits_no_space; exact Hip|]. eauto. }
  destruct r1 as [|c r1'].
  - intros H. inversion H; subst. exact Base.
  - destruct (is_sep c) eqn:Ec.
    + destruct (span is_digit r1') as [fp r2] eqn:E2.
      destruct (span_spec _ _ _ _ E2) as (Hs2 & Hfp & Hr2).
      destruct fp as [|f fp].
      * intros H. inversion H; subst. exact Base.
      * intros H. inversion H; subst. split.
        { cbn [app]. f_equal. rewrite <- app_assoc. reflexivity. }
        split.
        { apply (no_space_app (d :: ip) (c :: f :: fp));
            [apply digits_no_space; exact Hip|].
          pose proof (digits_no_space (f :: fp) Hfp) as Hns.
          unfold no_space in *. cbn [forallb] in *.
          rewrite (sep_no_space c Ec). cbn [negb andb]. exact Hns. }
        cbn [app]. eauto.
    + intros H. inversion H; subst. exact Base.
Qed.

Lemma tag_shape (s r : pystr) :
  match_tag s = Some r ->
  exists tg, s = tg ++ r /\ is_currency_tag tg = true /\ no_space tg
             /\ exists c rest, tg = c :: rest /\ is_digit c = false.
Proof.
  assert (ND : forall c, (c =? 8378)%N = true \/ ((c =? 84) || (c =? 116))%N = true
                         -> is_digit c = false).
  { intros c Hc. destruct (is_digit c) eqn:E; [|reflexivity].
    destruct (digit_facts c E) as (_ & _ & _ & Hn).
    specialize (Hn [76%N]). unfold match_tag in Hn.
    destruct Hc as [Hc | Hc]; rewrite Hc in Hn; [discriminate|].
    destruct (c =? 8378)%N; discriminate. }
  unfold match_tag. destruct s as [|c1 s1]; [discriminate|].
  destruct (c1 =? 8378)%N eqn:E1.
  - intros H. inversion H; subst. exists [c1]. repeat split.
    + cbn. exact E1.
    + apply N.eqb_eq in E1. subst. reflexivity.
    + exists c1, []. split; [reflexivity|]. apply ND. auto.
  - destruct ((c1 =? 84) || (c1 =? 116))%N eqn:E2; [|discriminate].
    destruct s1 as [|c2 s2]; [discriminate|].
    destruct ((c2 =? 76) || (c2 =? 108))%N eqn:E3; [|discriminate].
    intros H. inversion H; subst. exists [c1; c2]. repeat split.
    + cbn. rewrite E2, E3. reflexivity.
    + unfold no_space. cbn [forallb].
      apply orb_true_iff in E2. apply orb_true_iff in E3.
      destruct E2 as [E2 | E2]; apply N.eqb_eq in E2; subst;
        destruct E3 as [E3 | E3]; apply N.eqb_eq in E3; subst; reflexivity.
    + exists c1, [c2]. split; [reflexivity|]. apply ND. auto.
Qed.

Lemma match_end_sound (s : pystr) :
  match_end s = true ->
  exists ws2 tg ws3,
    s = ws2 ++ tg ++ ws3 /\ all_space ws2 /\ all_space ws3 /\
    is_currency_tag tg = true /\ no_space tg /\
    exists c rest, tg = c :: rest /\ is_digit c = false.
Proof.
  unfold match_end.
  destruct (span isspace s) as [ws2 r] eqn:E1.
  destruct (span_spec _ _ _ _ E1) as (Hs & Hws2 & _).
  destruct (match_tag r) as [r'|] eqn:Et; [|discriminate].
  destruct (tag_shape _ _ Et) as (tg & Hr & Htg & Hn & Hc).
  destruct (span isspace r') as [ws3 r''] eqn:E2.
  destruct (span_spec _ _ _ _ E2) as (Hr' & Hws3 & _).
  destruct r''; [|discriminate]. intros _.
  exists ws2, tg, ws3. rewrite app_nil_r in Hr'. subst.
  repeat split; assumption.
Qed.

(** What a match of the tail looks like. *)
Lemma match_tail_sound (s number : pystr) :
  match_tail s = Some number ->
  exists ws ws2 tg ws3,
    s = ws ++ number ++ ws2 ++ tg ++ ws3 /\
    all_space ws /\ no_space number /\ number <> [] /\
    all_space ws2 /\ all_space ws3 /\ no_space tg /\
    exists c rest, tg = c :: rest /\ is_digit c = false.
Proof.
  unfold match_tail.
  destruct (span isspace s) as [ws r] eqn:E1.
  destruct (span_spec _ _ _ _ E1) as (Hs & Hws & _).
  destruct ws as [|w ws]; [discriminate|].
  destruct (match_number r) as [[num r']|] eqn:En; [|discriminate].
  destruct (match_number_sound _ _ _ En) as (Hr & Hnum & c & rest & Hc & _).
  destruct (match_end r') eqn:Ee; [|discriminate].
  destruct (match_end_sound _ Ee) as (ws2 & tg & ws3 & Hr' & H2 & H3 & _ & Hn & Hd).
  intros H. inversion H; subst number.
  exists (w :: ws), ws2, tg, ws3. subst r' r s.
  repeat split; try assumption. rewrite Hc. discriminate.
Qed.

Lemma head_not_digit_after (gap2 tag : pystr) :
  all_space gap2 -> is_currency_tag tag = true ->
  match gap2 ++ tag with
  | [] => True
  | c :: _ => is_digit c = false /\ is_sep c = false
  end.
Proof.
  intros Hg Ht.
  assert (ND : forall c, isspace c = true -> is_digit c = false).
  { intros c Hc. destruct (is_digit c) eqn:E; [|reflexivity].
    destruct (digit_facts c E) as (Hs & _). congruence. }
  assert (NS : forall c, isspace c = true -> is_sep c = false).
  { intros c Hc. destruct (is_sep c) eqn:E; [|reflexivity].
    rewrite (sep_no_space c E) in Hc. discriminate. }
  destruct gap2 as [|g gap2]; cbn [app].
  - destruct tag as [|c1 [|c2 [|]]]; try discriminate.
    + cbn in Ht. apply N.eqb_eq in Ht. subst. split; [|reflexivity].
      destruct (is_digit 8378%N) eqn:E; [|reflexivity].
      destruct (tables 8378%N) with (d := match unicode_decimal 8378%N with Some d => d | None => 0%N end)
        as (_ & _ & _ & X & _).
      { unfold is_digit in E. destruct (unicode_decimal 8378%N); [reflexivity | discriminate]. }
      congruence.
    + cbn in Ht. apply andb_true_iff in Ht. destruct Ht as [Ht _].
      split.
      * destruct (is_digit c1) eqn:E; [|reflexivity].
        destruct (digit_facts c1 E) as (_ & _ & _ & Hn).
        specialize (Hn [76%N]). unfold match_tag in Hn. rewrite Ht in Hn.
        destruct (c1 =? 8378)%N; discriminate.
      * apply orb_true_iff in Ht.
        destruct Ht as [Ht | Ht]; apply N.eqb_eq in Ht; subst; reflexivity.
  - unfold all_space in Hg. cbn in Hg. apply andb_true_iff in Hg.
    destruct Hg as [Hg _]. auto.
Qed.

Lemma match_number_complete (int_part : pystr) (frac : option (N * pystr))
    (gap2 tag : pystr) :
  digit_run int_part -> frac_ok frac ->
  all_space gap2 -> is_currency_tag tag = true ->
  match_number (number_of int_part frac ++ gap2 ++ tag)
  = Some (number_of int_part frac, gap2 ++ tag).
Proof.
  intros [Ni Hi] Hf Hg Ht.
  pose proof (head_not_digit_after gap2 tag Hg Ht) as Hh.
  unfold match_number, number_of.
  destruct frac as [[sep fp]|].
  - destruct Hf as (Hsep & Nf & Hfp).
    rewrite <- app_assoc. cbn [app].
    rewrite span_app.
    + destruct int_part as [|d ip]; [congruence|].
      rewrite Hsep. rewrite span_app.
      * destruct fp as [|f fp]; [congruence|]. reflexivity.
      * exact Hfp.
      * destruct (gap2 ++ tag); [exact I | tauto].
    + exact Hi.
    + destruct (is_digit sep) eqn:E; [|reflexivity].
      destruct (digit_facts sep E) as (_ & X & _). congruence.
  - rewrite app_nil_r. rewrite span_app.
    + destruct int_part as [|d ip]; [congruence|].
      destruct (gap2 ++ tag) as [|c r] eqn:E; [reflexivity|].
      destruct Hh as [_ Hh]. rewrite Hh. reflexivity.
    + exact Hi.
    + destruct (gap2 ++ tag); [exact I | tauto].
Qed.

Lemma match_tag_complete (tag : pystr) :
  is_currency_tag tag = true -> match_tag tag = Some [].
Proof.
  destruct tag as [|c1 [|c2 [|]]]; try discriminate; cbn; intros H.
  - rewrite H. reflexivity.
  - apply andb_true_iff in H. destruct H as [H1 H2]. rewrite H1, H2.
    destruct (c1 =? 8378)%N eqn:E; [|reflexivity].
    apply N.eqb_eq in E. subst. discriminate H1.
Qed.

Lemma tag_head_no_space (tag : pystr) :
  is_currency_tag tag = true ->
  match tag with [] => False | c :: _ => isspace c = false end
  /\ isspace (last tag 32%N) = false.
Proof.
  destruct tag as [|c1 [|c2 [|]]]; try discriminate; cbn; intros H.
  - apply N.eqb_eq in H. subst. auto.
  - apply andb_true_iff in H. destruct H as [H1 H2].
    apply orb_true_iff in H1. apply orb_true_iff in H2.
    destruct H1 as [H1 | H1]; apply N.eqb_eq in H1; subst;
      destruct H2 as [H2 | H2]; apply N.eqb_eq in H2; subst; auto.
Qed.

Lemma match_end_complete (gap2 tag : pystr) :
  all_space gap2 -> is_currency_tag tag = true ->
  match_end (gap2 ++ tag) = true.
Proof.
  intros Hg Ht. unfold match_end.
  destruct (tag_head_no_space tag Ht) as [Hh _].
  rewrite span_app.
  - rewrite (match_tag_complete tag Ht). reflexivity.
  - exact Hg.
  - destruct tag; [contradiction | exact Hh].
Qed.

(** The pattern tail matches a well-formed tail, with the number as
    group 2. *)
Lemma match_tail_complete (gap int_part : pystr) (frac : option (N * pystr))
    (gap2 tag : pystr) :
  gap <> [] -> all_space gap -> digit_run int_part -> frac_ok frac ->
  all_space gap2 -> is_currency_tag tag = true ->
  match_tail (gap ++ number_of int_part frac ++ gap2 ++ tag)
  = Some (number_of int_part frac).
Proof.
  intros Ng Hg Hi Hf Hg2 Ht. unfold match_tail.
  rewrite span_app.
  - destruct gap as [|g gap]; [congruence|].
    rewrite match_number_complete by assumption.
    rewrite match_end_complete by assumption. reflexivity.
  - exact Hg.
  - destruct Hi as [Ni Hi]. destruct int_part as [|d ip]; [congruence|].
    cbn [number_of app]. cbn in Hi. apply andb_true_iff in Hi.
    destruct (digit_facts d (proj1 Hi)) as (X & _). exact X.
Qed.

(** No earlier split of the text matches: what follows a proper prefix of
    the description still holds the end of the description, a word that
    the tail of the pattern has no place for. *)
Lemma match_tail_fails (suf gap int_part : pystr)
    (frac : option (N * pystr)) (gap2 tag : pystr) :
  isspace (last suf 32%N) = false ->
  gap <> [] -> all_space gap -> digit_run int_part -> frac_ok frac ->
  all_space gap2 -> is_currency_tag tag = true ->
  match_tail (suf ++ gap ++ number_of int_part frac ++ gap2 ++ tag) = None.
Proof.
  intros Hlast Ng Hg Hi Hf Hg2 Ht.
  destruct (match_tail _) as [num|] eqn:E; [exfalso|reflexivity].
  destruct (match_tail_sound _ _ E)
    as (ws & ws2 & tg & ws3 & Hs & Hws & Hnum & Nnum & Hws2 & Hws3 & Htg
        & c & rest & Hc & Hcd).
  assert (Ntg : tg <> []) by (rewrite Hc; discriminate).
  pose proof (words_two ws num ws2 tg ws3 Hws Hnum Nnum Hws2 Htg Ntg Hws3)
    as R.
  rewrite <- Hs in R. clear Hs E.
  (* the words of the text, read from its own shape *)
  set (number := number_of int_part frac) in *.
  assert (Nn : no_space number).
  { unfold number, number_of. destruct Hi as [_ Hi].
    apply no_space_app; [apply digits_no_space; exact Hi|].
    destruct frac as [[sep fp]|]; [|reflexivity].
    destruct Hf as (Hsep & _ & Hfp).
    pose proof (digits_no_space fp Hfp) as Hns.
    unfold no_space in *. cbn [forallb].
    rewrite (sep_no_space sep Hsep). exact Hns. }
  assert (Hd : exists d rest', number = d :: rest' /\ is_digit d = true).
  { unfold number, number_of. destruct Hi as [Ni Hi].
    destruct int_part as [|d ip]; [congruence|].
    cbn in Hi. apply andb_true_iff in Hi. destruct Hi as [Hd0 _].
    cbn [app]. eauto. }
  assert (Nnum' : number <> [])
    by (destruct Hd as (d & r' & -> & _); discriminate).
  destruct (tag_head_no_space tag Ht) as [Hth _].
  assert (Ntag : tag <> []) by (destruct tag; [contradiction | discriminate]).
  assert (Htag : no_space tag).
  { destruct tag as [|c1 [|c2 [|]]]; try discriminate.
    - cbn in Ht. apply N.eqb_eq in Ht. subst. reflexivity.
    - cbn in Ht. apply andb_true_iff in Ht. destruct Ht as [H1 H2].
      apply orb_true_iff in H1. apply orb_true_iff in H2.
      destruct H1 as [H1 | H1]; apply N.eqb_eq in H1; subst;
        destruct H2 as [H2 | H2]; apply N.eqb_eq in H2; subst; reflexivity. }
  destruct gap as [|g gap']; [congruence|].
  unfold all_space in Hg. cbn [forallb] in Hg.
  apply andb_true_iff in Hg. destruct Hg as [Hg0 Hg'].
  cbn [app] in R. rewrite words_split in R by exact Hg0.
  pose proof (words_two gap' number gap2 tag [] Hg' Nn Nnum' Hg2 Htag Ntag
                eq_refl) as L.
  rewrite app_nil_r in L. rewrite L in R. clear L.
  pose proof (words_nonempty [] suf Hlast) as Hw.
  destruct (words [] suf) as [|w wl]; [congruence|].
  destruct ws2 as [|x ws2].
  - destruct gap2; destruct wl; discriminate R.
  - destruct gap2 as [|y gap2].
    + destruct wl as [|w2 wl]; [|destruct wl; discriminate R].
      cbn in R. inversion R as [[Hw1 Htg']].
      destruct Hd as (d & rest' & Hn & Hdig). rewrite Hn in Htg'.
      rewrite Hc in Htg'. cbn in Htg'. inversion Htg'; subst.
      congruence.
    + destruct wl as [|w2 wl]; [|destruct wl]; discriminate R.
Qed.

Lemma match_lazy_eq (group1_rev s : pystr) :
  match_lazy group1_rev s =
  match match_tail s with
  | Some number => Some (rev group1_rev, number)
  | None =>
    match s with
    | [] => None
    | c :: s' =>
      if (c =? 10)%N then None else match_lazy (c :: group1_rev) s'
    end
  end.
Proof. destruct s; reflexivity. Qed.

(** The lazy group stops exactly where the tail first matches. *)
Lemma match_lazy_finds (suf pre_rev tailstr number : pystr) :
  match_tail tailstr = Some number ->
  (forall x y, suf = x ++ y -> y <> [] ->
               match_tail (y ++ tailstr) = None) ->
  forallb (fun c => negb (c =? 10)%N) suf = true ->
  match_lazy pre_rev (suf ++ tailstr)
  = Some (rev pre_rev ++ suf, number).
Proof.
  intros Ht. revert pre_rev.
  induction suf as [|c suf IH]; intros pre_rev Hfail Hline.
  - cbn [app]. rewrite match_lazy_eq, Ht, app_nil_r. reflexivity.
  - rewrite match_lazy_eq.
    rewrite (Hfail [] (c :: suf) eq_refl) by discriminate.
    cbn [app]. cbn [forallb] in Hline. apply andb_true_iff in Hline.
    destruct Hline as [Hc Hline]. apply negb_true_iff in Hc. rewrite Hc.
    rewrite IH.
    + cbn [rev]. rewrite <- app_assoc. reflexivity.
    + intros x y Hxy Hy. apply (Hfail (c :: x) y); [|exact Hy].
      rewrite Hxy. reflexivity.
    + exact Hline.
Qed.

Lemma last_suffix (x y : pystr) (d : N) :
  y <> [] -> last (x ++ y) d = last y d.
Proof. apply last_app_nonempty. Qed.

(** The pattern on a well-formed text: group 1 is the description, group 2
    the number. *)
Lemma re_match_well_formed (desc gap int_part : pystr)
    (frac : option (N * pystr)) (gap2 tag : pystr) :
  trimmed_line desc ->
  gap <> [] -> all_space gap -> digit_run int_part -> frac_ok frac ->
  all_space gap2 -> is_currency_tag tag = true ->
  re_match (desc ++ gap ++ number_of int_part frac ++ gap2 ++ tag)
  = Some (desc, number_of int_part frac).
Proof.
  intros (Hh & Hl & Hline) Ng Hg Hi Hf Hg2 Ht.
  destruct desc as [|c desc]; [discriminate Hh|].
  cbn [app re_match]. cbn [forallb] in Hline.
  apply andb_true_iff in Hline. destruct Hline as [Hc Hline].
  apply negb_true_iff in Hc. rewrite Hc.
  rewrite match_lazy_finds with (number := number_of int_part frac).
  - reflexivity.
  - apply match_tail_complete; assumption.
  - intros x y Hxy Hy. apply match_tail_fails; try assumption.
    rewrite <- (last_suffix (c :: x) y) by exact Hy.
    cbn [app]. rewrite <- Hxy. exact Hl.
  - exact Hline.
Qed.

(** Reading the number: the separator becomes a point, and [float] gives
    the decimal that the digits denote. *)
Lemma float_of_number (int_part : pystr) (frac : option (N * pystr)) :
  digit_run int_part -> frac_ok frac ->
  float_of_str (replace_char 44 46 (number_of int_part frac))
  = Some (of_decimal (digits_value (int_part ++ frac_digits frac))
            (List.length (frac_digits frac))).
Proof.
  intros [Ni Hi] Hf.
  assert (Hrep : forall s, forallb is_digit s = true ->
                           replace_char 44 46 s = s).
  { induction s as [|c s IH]; cbn [forallb replace_char map]; intros H;
      [reflexivity|].
    apply andb_true_iff in H. destruct H as [Hc H].
    destruct (digit_facts c Hc) as (_ & Hsep & _).
    unfold is_sep in Hsep. apply orb_false_iff in Hsep.
    destruct Hsep as [_ H44]. rewrite H44.
    unfold replace_char in IH. rewrite (IH H). reflexivity. }
  assert (N46 : is_digit 46%N = false).
  { destruct (is_digit 46%N) eqn:E; [|reflexivity].
    destruct (digit_facts _ E) as (_ & X & _). discriminate X. }
  unfold float_of_str, plain_decimal, number_of, frac_digits.
  destruct frac as [[sep fp]|].
  - destruct Hf as (Hsep & Nf & Hfp).
    unfold replace_char. rewrite map_app. cbn [map].
    fold (replace_char 44 46 int_part). fold (replace_char 44 46 fp).
    rewrite (Hrep _ Hi), (Hrep _ Hfp).
    assert ((if (sep =? 44)%N then 46%N else sep) = 46%N) as ->.
    { unfold is_sep in Hsep. apply orb_true_iff in Hsep.
      destruct Hsep as [H | H]; apply N.eqb_eq in H; subst; reflexivity. }
    rewrite span_app by (exact Hi || exact N46).
    destruct int_part as [|d ip]; [congruence|].
    rewrite N.eqb_refl, Hfp.
    destruct fp as [|f fp]; [congruence|]. reflexivity.
  - rewrite !app_nil_r. rewrite (Hrep _ Hi).
    rewrite <- (app_nil_r int_part) at 1.
    rewrite span_app by (exact Hi || exact I).
    destruct int_part as [|d ip]; [congruence|]. reflexivity.
Qed.

End WithTables.

(** The tables of the reference environment are sound. *)
Lemma reference_tables_sound : decimal_table_sound Reference.builtins.
Proof.
  intros c d. cbn. unfold Reference.ascii_decimal.
  destruct ((48 <=? c) && (c <=? 57))%N eqn:E; [|discriminate].
  intros _. apply andb_true_iff in E. destruct E as [E1 E2].
  apply N.leb_le in E1, E2.
  assert (H : (c = 48 \/ c = 49 \/ c = 50 \/ c = 51 \/ c = 52 \/ c = 53
               \/ c = 54 \/ c = 55 \/ c = 56 \/ c = 57)%N) by lia.
  repeat (destruct H as [-> | H]); try subst c;
    (split; [reflexivity | repeat split; discriminate]).
Qed.

Lemma reference_tables_ascii : decimal_table_ascii Reference.builtins.
Proof.
  intros c [H1 H2]. cbn. unfold Reference.ascii_decimal.
  apply N.leb_le in H1, H2. rewrite H1, H2. reflexivity.
Qed.

(** C4. For every text of the shape whitespace, description, whitespace,
    number, whitespace, currency tag, whitespace (the outer runs and the
    one before the tag possibly empty; the description on one line and
    without whitespace at its ends; the number a run of digits, or two
    runs around a [.] or a [,]; the tag [₺] or [TL] in any case),
    [_parse] returns the description and the float that the decimal
    denotes, the [,] read as the decimal point, without asking the
    backend; and the two texts of the specification give ("kahve", 50.0)
    and ("market", 300.5). *)
Theorem parse_well_formed :
  forall (B : Builtins) (llm : LLMService),
    decimal_table_sound B ->
    (forall lead desc gap int_part frac gap2 tag trail,
        all_space lead -> trimmed_line desc ->
        gap <> [] -> all_space gap ->
        digit_run int_part -> frac_ok frac ->
        all_space gap2 -> is_currency_tag tag = true -> all_space trail ->
        _parse (lead ++ desc ++ gap ++ number_of int_part frac
                ++ gap2 ++ tag ++ trail)
        = Ok (JStr desc,
              of_decimal (digits_value (int_part ++ frac_digits frac))
                (List.length (frac_digits frac)))) /\
    (decimal_table_ascii B ->
     _parse (py "kahve 50 TL") = Ok (JStr (py "kahve"), of_Z 50) /\
     _parse (py "market 300,50 TL")
     = Ok (JStr (py "market"), of_decimal 3005 1)).
Proof.
  intros B llm tables.
  assert (General : forall lead desc gap int_part frac gap2 tag trail,
        all_space lead -> trimmed_line desc ->
        gap <> [] -> all_space gap ->
        digit_run int_part -> frac_ok frac ->
        all_space gap2 -> is_currency_tag tag = true -> all_space trail ->
        _parse (lead ++ desc ++ gap ++ number_of int_part frac
                ++ gap2 ++ tag ++ trail)
        = Ok (JStr desc,
              of_decimal (digits_value (int_part ++ frac_digits frac))
                (List.length (frac_digits frac)))).
  { intros lead desc gap int_part frac gap2 tag trail
           Hlead Hdesc Ng Hg Hi Hf Hg2 Ht Htrail.
    unfold _parse.
    set (core := desc ++ gap ++ number_of int_part frac ++ gap2 ++ tag).
    assert (Hcore : strip (lead ++ desc ++ gap ++ number_of int_part frac
                           ++ gap2 ++ tag ++ trail) = core).
    { replace (lead ++ desc ++ gap ++ number_of int_part frac
               ++ gap2 ++ tag ++ trail)
        with (lead ++ core ++ trail)
        by (unfold core; rewrite <- !app_assoc; reflexivity).
      destruct Hdesc as (Hh & Hl & _).
      destruct (tag_head_no_space tag Ht) as [Hth Htl].
      apply strip_core; try assumption.
      - unfold core. destruct desc; [discriminate Hh | exact Hh].
      - unfold core. rewrite !app_assoc.
        rewrite last_app_nonempty; [exact Htl|].
        destruct tag; [contradiction | discriminate]. }
    rewrite Hcore. unfold core.
    rewrite (re_match_well_formed tables) by assumption.
    destruct Hdesc as (Hh & Hl & _).
    rewrite (strip_trimmed desc Hh Hl).
    rewrite (float_of_number tables) by assumption. reflexivity. }
  split; [exact General|].
  intros ascii.
  assert (D : forall s, forallb (fun c => (48 <=? c) && (c <=? 57))%N s = true ->
                        forallb is_digit s = true).
  { intros s. rewrite !forallb_forall. intros H c Hc.
    specialize (H c Hc). apply andb_true_iff in H. destruct H as [H1 H2].
    apply N.leb_le in H1, H2. unfold is_digit.
    rewrite (ascii c (conj H1 H2)). reflexivity. }
  split.
  - assert (E : py "kahve 50 TL"
               = [] ++ py "kahve" ++ py " " ++ number_of (py "50") None
                 ++ py " " ++ py "TL" ++ [])
      by (vm_compute; reflexivity).
    rewrite E. rewrite General.
    + change (py "50" ++ frac_digits None) with [53%N; 48%N].
      unfold digits_value. cbn [fold_left].
      rewrite (ascii 53%N), (ascii 48%N) by lia. vm_compute. reflexivity.
    + reflexivity.
    + repeat split; vm_compute; reflexivity.
    + discriminate.
    + reflexivity.
    + split; [discriminate | apply D; vm_compute; reflexivity].
    + exact I.
    + reflexivity.
    + reflexivity.
    + reflexivity.
  - assert (E : py "market 300,50 TL"
               = [] ++ py "market" ++ py " "
                 ++ number_of (py "300") (Some (44%N, py "50"))
                 ++ py " " ++ py "TL" ++ [])
      by (vm_compute; reflexivity).
    rewrite E. rewrite General.
    + change (py "300" ++ frac_digits (Some (44%N, py "50")))
        with [51%N; 48%N; 48%N; 53%N; 48%N].
      unfold digits_value. cbn [fold_left].
      rewrite (ascii 51%N), (ascii 48%N), (ascii 53%N) by lia.
      vm_compute. reflexivity.
    + reflexivity.
    + repeat split; vm_compute; reflexivity.
    + discriminate.
    + reflexivity.
    + split; [discriminate | apply D; vm_compute; reflexivity].
    + split; [reflexivity|].
      split; [discriminate | apply D; vm_compute; reflexivity].
    + reflexivity.
    + reflexivity.
    + reflexivity.
Qed.

Lemma parse_well_formed_witness :
  @_parse Reference.builtins (Reference.answering (py "{}"))
    (py "market 300,50 TL")
  = Ok (JStr (py "market"), of_decimal 3005 1).
Proof.
  apply (parse_well_formed Reference.builtins
           (Reference.answering (py "{}")) reference_tables_sound).
  exact reference_tables_ascii.
Defined.

End PatternFacts.

(* ================================================================== *)
(** * The searcher *)

Module SearcherFacts.
Import Searcher FloatFacts.

Lemma eqb_scaled (x y : float) :
  valid x = true -> valid y = true ->
  is_finite x = true -> is_finite y = true ->
  eqb x y = Z.eqb (scaled x) (scaled y).
Proof.
  intros. unfold eqb, SFeqb. rewrite compare_scaled by assumption.
  unfold Z.eqb. destruct (scaled x) as [|p|p], (scaled y) as [|q|q];
    try reflexivity; cbn [Z.compare].
  - rewrite <- Pos.eqb_compare. reflexivity.
  - destruct (Pos.compare_spec p q) as [E | L | G]; cbn [CompOpp].
    + subst. rewrite Pos.eqb_refl. reflexivity.
    + symmetry. apply Pos.eqb_neq. lia.
    + symmetry. apply Pos.eqb_neq. lia.
Qed.

(** The selection rule, on exact values. *)
Lemma is_searchable_exact (threshold : float) (e : Expense.t) :
  valid threshold = true -> is_finite threshold = true ->
  valid (Expense.amount e) = true -> is_finite (Expense.amount e) = true ->
  (is_searchable threshold e = true <->
   (to_Q threshold <= to_Q (Expense.amount e))%Q
   \/ (to_Q (Expense.amount e) == 0)%Q).
Proof.
  intros Vt Ft Va Fa. unfold is_searchable, geb.
  fold (leb threshold (Expense.amount e)).
  rewrite leb_scaled by assumption.
  rewrite (eqb_scaled (Expense.amount e) zero) by (assumption || reflexivity).
  rewrite orb_true_iff, Z.leb_le, Z.eqb_eq.
  unfold Qle, Qeq, to_Q. cbn [Qnum Qden scaled zero].
  generalize (Pos2Z.is_pos (2 ^ 1074)). generalize (Zpos (2 ^ 1074)).
  intros D HD. split; intros [H | H]; [left | right | left | right]; nia.
Qed.

Lemma execute_pointwise {tool : SearchTool} (threshold : float)
    (expenses : list Expense.t) :
  execute threshold expenses
  = map (fun e => if is_searchable threshold e then search_one e else e)
      expenses.
Proof.
  unfold execute.
  destruct (filter (is_searchable threshold) expenses) eqn:E;
    [|reflexivity].
  induction expenses as [|e es IH]; [reflexivity|].
  cbn [filter map] in *. destruct (is_searchable threshold e).
  - discriminate E.
  - rewrite <- (IH E). reflexivity.
Qed.

Lemma search_one_fields {tool : SearchTool} (e : Expense.t) :
  Expense.description (search_one e) = Expense.description e
  /\ Expense.amount (search_one e) = Expense.amount e
  /\ Expense.category (search_one e) = Expense.category e.
Proof.
  unfold search_one.
  destruct (search_product_price (Expense.description e)) as [[|r rs]|err];
    auto.
Qed.

(** C8, at the input where the code leaves the claim: an expense of 8000
    is selected, the search finds nothing, and the expense comes back
    without the [searched] flag. *)
Lemma enrich_unflagged_counterexample :
  is_searchable default_threshold Reference.laptop = true /\
  @execute (Reference.finding []) default_threshold [Reference.laptop]
  = [Reference.laptop] /\
  forallb flagged
    (@execute (Reference.finding []) default_threshold [Reference.laptop])
  = false.
Proof. vm_compute. repeat split; reflexivity. Qed.

(** C8, as amended.  [execute] hands back the list with every expense at
    its place and with its description, amount and category.  An expense
    is searched exactly when its amount is at least the threshold or
    equal to zero.  A searched expense for which the tool finds at least
    one result gets the first three results (all of them when there are
    fewer) and the flag [searched = True] in its metadata; a searched
    expense for which the tool finds nothing, or raises, stays as it was,
    as does every expense that is not searched.  When no expense is
    selected the list comes back as it was. *)
Theorem enrich_spec :
  forall (tool : SearchTool) (threshold : float)
         (expenses : list Expense.t),
    let result := execute threshold expenses in
    map Expense.description result = map Expense.description expenses /\
    map Expense.amount result = map Expense.amount expenses /\
    map Expense.category result = map Expense.category expenses /\
    Forall2
      (fun e e' =>
         if is_searchable threshold e then
           match search_product_price (Expense.description e) with
           | Ok (r :: rs) =>
             Expense.metadata e' = enriched_metadata (r :: rs) e
             /\ flagged e' = true
             /\ Dict.get (py "search_results") (Expense.metadata e')
                = Some (MetaResults (firstn 3 (r :: rs)))
             /\ (List.length (firstn 3 (r :: rs)) <= 3)%nat
           | Ok [] | Raise _ => e' = e
           end
         else e' = e)
      expenses result /\
    (forall e,
        valid threshold = true -> is_finite threshold = true ->
        valid (Expense.amount e) = true ->
        is_finite (Expense.amount e) = true ->
        (is_searchable threshold e = true <->
         (to_Q threshold <= to_Q (Expense.amount e))%Q
         \/ (to_Q (Expense.amount e) == 0)%Q)) /\
    (forallb (fun e => negb (is_searchable threshold e)) expenses = true ->
     result = expenses).
Proof.
  intros tool threshold expenses result. unfold result.
  rewrite execute_pointwise.
  split; [|split; [|split; [|split; [|split]]]].
  - rewrite map_map. apply map_ext. intros e.
    destruct (is_searchable threshold e); [|reflexivity].
    apply search_one_fields.
  - rewrite map_map. apply map_ext. intros e.
    destruct (is_searchable threshold e); [|reflexivity].
    apply search_one_fields.
  - rewrite map_map. apply map_ext. intros e.
    destruct (is_searchable threshold e); [|reflexivity].
    apply search_one_fields.
  - induction expenses as [|e es IH]; cbn [map]; constructor; [|exact IH].
    destruct (is_searchable threshold e); [|reflexivity].
    unfold search_one.
    destruct (search_product_price (Expense.description e))
      as [[|r rs]|err]; try reflexivity.
    cbn [Expense.metadata]. fold (enriched_metadata (r :: rs) e).
    split; [reflexivity|].
    assert (G : forall (d : dict meta_value) k v, Dict.get k (Dict.set k v d) = Some v).
    { induction d as [|[k' v'] d IHd]; intros k v; cbn [Dict.set Dict.get].
      - unfold Str.eqb. destruct (list_eq_dec N.eq_dec k k); [reflexivity | congruence].
      - destruct (Str.eqb k k') eqn:E; cbn [Dict.get]; rewrite E;
          [reflexivity | apply IHd]. }
    assert (G2 : forall (d : dict meta_value) k k' v,
               Str.eqb k k' = false ->
               Dict.get k (Dict.set k' v d) = Dict.get k d).
    { induction d as [|[k0 v0] d IHd]; intros k k' v E;
        cbn [Dict.set Dict.get].
      - rewrite E. reflexivity.
      - destruct (Str.eqb k' k0) eqn:E0; cbn [Dict.get].
        + unfold Str.eqb in E0.
          destruct (list_eq_dec N.eq_dec k' k0); [subst|discriminate].
          rewrite E. reflexivity.
        + destruct (Str.eqb k k0); [reflexivity | apply IHd; exact E]. }
    split; [|split].
    + unfold flagged, enriched_metadata. cbn [Expense.metadata].
      rewrite G. reflexivity.
    + unfold enriched_metadata. cbn [Expense.metadata].
      rewrite G2 by reflexivity. apply G.
    + apply firstn_le_length.
  - intros e. apply is_searchable_exact.
  - intros H. rewrite <- (map_id expenses) at 2. apply map_ext_in.
    intros e He. rewrite forallb_forall in H. specialize (H e He).
    apply negb_true_iff in H. rewrite H. reflexivity.
Qed.

Lemma enrich_spec_witness :
  is_searchable default_threshold Reference.laptop = true.
Proof.
  pose proof (enrich_spec (Reference.finding []) default_threshold
                [Reference.laptop]) as H.
  cbv zeta in H. destruct H as (_ & _ & _ & _ & H & _).
  apply (H Reference.laptop); try reflexivity.
  left. vm_compute. discriminate.
Defined.

End SearcherFacts.

(* ================================================================== *)
(** * The strategist: action items *)

Module StrategistFacts.
Import Format Strategist FloatFacts AnalystFacts.

(** ** Ranking *)

Lemma insert_desc_perm (x : pystr * float) (l : list (pystr * float)) :
  Permutation (insert_desc x l) (x :: l).
Proof.
  induction l as [|y l IH]; cbn [insert_desc]; [reflexivity|].
  destruct (ltb (snd x) (snd y)); [|reflexivity].
  rewrite IH. apply perm_swap.
Qed.

Lemma sorted_desc_perm (l : list (pystr * float)) :
  Permutation (sorted_desc l) l.
Proof.
  induction l as [|x l IH]; cbn; [reflexivity|].
  rewrite insert_desc_perm. constructor. exact IH.
Qed.





(** ** Savings and shares *)

Lemma well_formed_unfold (a : Analysis.t) :
  well_formed a = true ->
  Analysis.category_breakdown a <> [] /\
  is_zero (Analysis.total_expenses a) = false /\
  exists days,
    of_int (Analysis.days_analyzed a) = Ok days /\ is_zero days = false.
Proof.
  unfold well_formed. intros H.
  apply andb_true_iff in H. destruct H as [H Hd].
  apply andb_true_iff in H. destruct H as [Hb Ht].
  split; [destruct (Analysis.category_breakdown a); [discriminate | discriminate]|].
  split; [apply negb_true_iff; exact Ht|].
  destruct (of_int (Analysis.days_analyzed a)) as [days|]; [|discriminate].
  exists days. split; [reflexivity | apply negb_true_iff; exact Hd].
Qed.

Lemma monthly_savings_ok (amount rate : float) (days_analyzed : Z)
    (days : float) :
  of_int days_analyzed = Ok days -> is_zero days = false ->
  monthly_savings amount rate days_analyzed = Ok (monthly amount rate days).
Proof.
  intros E Z. unfold monthly_savings. rewrite E. cbn [bind].
  apply div_ok. exact Z.
Qed.

Lemma share_pct_ok (a : Analysis.t) (amount : float) :
  share_pct amount (Analysis.total_expenses a) = Ok (share_of a amount).
Proof.
  unfold share_pct, share_of.
  destruct (gtb (Analysis.total_expenses a) zero) eqn:E; [|reflexivity].
  rewrite div_ok; [reflexivity|].
  destruct (Analysis.total_expenses a) as [[|]| | |]; try reflexivity;
    discriminate E.
Qed.


(** ** The branches *)

Lemma warning_branch {B : Builtins} (a : Analysis.t) (days : float)
    (first : pystr * float) (rest : list (pystr * float))
    (baseline : float) :
  of_int (Analysis.days_analyzed a) = Ok days -> is_zero days = false ->
  exists actions,
    warning_actions a (first :: rest) baseline = Ok actions /\
    map brief actions
    = [ (py "Reduce " ++ fst first ++ py " spending by 15%", MEDIUM,
         Some (monthly (snd first) (of_decimal 15 2) days));
        (py "Cancel unnecessary subscriptions", MEDIUM, Some baseline) ].
Proof.
  intros E Z. unfold warning_actions.
  rewrite (monthly_savings_ok _ _ _ _ E Z). cbn [bind].
  eexists. split; reflexivity.
Qed.

Lemma over_budget_branch {B : Builtins} (a : Analysis.t) (days : float)
    (first : pystr * float) (rest : list (pystr * float))
    (baseline : float) :
  is_zero (Analysis.total_expenses a) = false ->
  of_int (Analysis.days_analyzed a) = Ok days -> is_zero days = false ->
  exists actions,
    over_budget_actions a (first :: rest) baseline = Ok actions /\
    map brief actions = over_budget_briefs first rest baseline days.
Proof.
  intros Zt E Z. unfold over_budget_actions, over_budget_briefs.
  rewrite (div_ok _ _ Zt). cbn [bind].
  rewrite (monthly_savings_ok _ _ _ _ E Z). cbn [bind].
  destruct rest as [|second rest'].
  - cbn [bind]. eexists. split; reflexivity.
  - rewrite (monthly_savings_ok _ _ _ _ E Z). cbn [bind].
    eexists. split; reflexivity.
Qed.

(** The last loop adds one item for the first category that qualifies,
    and nothing when there is none. *)
Lemma extra_action_spec {B : Builtins} (a : Analysis.t) (days : float)
    (actions : list ActionItem.t) (entries : dict float) :
  of_int (Analysis.days_analyzed a) = Ok days -> is_zero days = false ->
  exists extra,
    extra_action a actions entries = Ok (actions ++ extra) /\
    match find (qualifies a actions) entries with
    | Some (cat, amount) =>
      map brief extra
      = [ (py "Create savings plan for " ++ cat ++ py " category", MEDIUM,
           Some (monthly amount (of_decimal 15 2) days)) ]
    | None => extra = []
    end.
Proof.
  intros E Z. induction entries as [|[cat amount] entries IH];
    cbn [extra_action find].
  - exists []. rewrite app_nil_r. auto.
  - rewrite share_pct_ok. cbn [bind].
    unfold qualifies at 1. cbn [fst snd].
    destruct (gtb (share_of a amount) (of_Z 40)
              && negb (referenced cat actions)).
    + rewrite (monthly_savings_ok _ _ _ _ E Z). cbn [bind].
      eexists. split; reflexivity.
    + exact IH.
Qed.

Lemma sorted_desc_nonempty (l : list (pystr * float)) :
  l <> [] -> exists first rest, sorted_desc l = first :: rest.
Proof.
  intros H. destruct (sorted_desc l) as [|first rest] eqn:E; [|eauto].
  pose proof (sorted_desc_perm l) as P. rewrite E in P.
  apply Permutation_nil in P. contradiction.
Qed.

Lemma firstn_two (first : pystr * float) (rest : list (pystr * float)) :
  firstn 2 (first :: rest)
  = first :: match rest with second :: _ => [second] | [] => [] end.
Proof. destruct rest; reflexivity. Qed.






End StrategistFacts.

(* ================================================================== *)
(** * The pipeline: validation errors *)

Module OrchestratorFacts.
Import Orchestrator AnalystFacts.














End OrchestratorFacts.

(* ================================================================== *)
(** * The classifier: batches, the shape of a match, the sentinel *)

Module ClassifierFacts.
Import Classifier StringFacts PatternFacts ParseFallbackFacts CategorizeFacts.

(** ** Batches *)

Lemma execute_app {B : Builtins} {llm : LLMService} (a b : list pystr) :
  execute (a ++ b) = execute a ++ execute b.
Proof.
  induction a as [|text a IH]; cbn [app execute]; [reflexivity|].
  destruct (_classify_single text); rewrite IH; reflexivity.
Qed.

Lemma execute_length {B : Builtins} {llm : LLMService} (a : list pystr) :
  (List.length (execute a) <= List.length a)%nat.
Proof.
  induction a as [|text a IH]; cbn [execute List.length]; [lia|].
  destruct (_classify_single text); cbn [List.length]; lia.
Qed.

Lemma execute_in {B : Builtins} {llm : LLMService} (a : list pystr)
    (e : Expense.t) :
  In e (execute a) <->
  exists text, In text a /\ _classify_single text = Ok e.
Proof.
  induction a as [|text a IH]; cbn [execute In].
  - split; [contradiction | intros (t & [] & _)].
  - destruct (_classify_single text) as [e0|x] eqn:E; cbn [In]; rewrite ?IH.
    + split.
      * intros [-> | (t & Ht & Et)]; [exists text; auto | exists t; auto].
      * intros (t & [-> | Ht] & Et).
        { left. congruence. }
        { right. exists t. auto. }
    + split.
      * intros (t & Ht & Et). exists t. auto.
      * intros (t & [-> | Ht] & Et); [congruence | exists t; auto].
Qed.

(** X1. The texts of a batch are classified independently of each
    other: the result for two batches put together is the results put
    together, a batch never gives more expenses than it has texts, and
    the expenses that come back are exactly those of the texts whose
    classification did not raise. *)
Theorem execute_batch_independent :
  forall (B : Builtins) (llm : LLMService) (a b : list pystr),
    execute (a ++ b) = execute a ++ execute b
    /\ (List.length (execute a) <= List.length a)%nat
    /\ (forall e, In e (execute a) <->
                  exists text, In text a /\ _classify_single text = Ok e).
Proof.
  intros B llm a b. split; [apply execute_app|].
  split; [apply execute_length | intros e; apply execute_in].
Qed.

(** ** The shape of a match *)

Section Shape.
Context {B : Builtins}.

Lemma match_number_shape (s number r : pystr) :
  match_number s = Some (number, r) ->
  exists int_part frac,
    number = number_of int_part frac /\ s = number ++ r
    /\ digit_run int_part /\ frac_ok frac.
Proof.
  unfold match_number.
  destruct (span is_digit s) as [ip r1] eqn:E1.
  destruct (span_spec _ _ _ _ E1) as (Hs & Hip & _).
  destruct ip as [|d ip]; [discriminate|].
  assert (Hrun : digit_run (d :: ip)) by (split; [discriminate | exact Hip]).
  assert (Plain : forall r0, s = (d :: ip) ++ r0 ->
            exists int_part frac,
              d :: ip = number_of int_part frac /\ s = (d :: ip) ++ r0
              /\ digit_run int_part /\ frac_ok frac).
  { intros r0 H0. exists (d :: ip), None. unfold number_of.
    rewrite app_nil_r. cbn [frac_ok]. auto. }
  destruct r1 as [|c r1'].
  - intros H. inversion H; subst number r. apply Plain. exact Hs.
  - destruct (is_sep c) eqn:Ec.
    + destruct (span is_digit r1') as [fp r2] eqn:E2.
      destruct (span_spec _ _ _ _ E2) as (Hs2 & Hfp & _).
      destruct fp as [|f fp].
      * intros H. inversion H; subst number r. apply Plain. exact Hs.
      * intros H. inversion H; subst number r.
        exists (d :: ip), (Some (c, f :: fp)). unfold number_of.
        split; [reflexivity|]. split.
        { rewrite Hs, Hs2. cbn [app]. f_equal. rewrite <- app_assoc.
          reflexivity. }
        split; [exact Hrun|]. cbn [frac_ok].
        split; [exact Ec|]. split; [discriminate | exact Hfp].
    + intros H. inversion H; subst number r. apply Plain. exact Hs.
Qed.

Lemma match_tag_shape (s r : pystr) :
  match_tag s = Some r ->
  exists tag, s = tag ++ r /\ is_currency_tag tag = true.
Proof.
  unfold match_tag. destruct s as [|c1 s1]; [discriminate|].
  destruct (c1 =? 8378)%N eqn:E1.
  - intros H. inversion H; subst. exists [c1]. cbn. auto.
  - destruct ((c1 =? 84) || (c1 =? 116))%N eqn:E2; [|discriminate].
    destruct s1 as [|c2 s2]; [discriminate|].
    destruct ((c2 =? 76) || (c2 =? 108))%N eqn:E3; [|discriminate].
    intros H. inversion H; subst. exists [c1; c2]. cbn.
    rewrite E2, E3. auto.
Qed.

Lemma match_end_shape (s : pystr) :
  match_end s = true ->
  exists gap2 tag trail,
    s = gap2 ++ tag ++ trail /\ all_space gap2
    /\ is_currency_tag tag = true /\ all_space trail.
Proof.
  unfold match_end.
  destruct (span isspace s) as [ws2 r] eqn:E1.
  destruct (span_spec _ _ _ _ E1) as (Hs & Hws2 & _).
  destruct (match_tag r) as [r'|] eqn:Et; [|discriminate].
  destruct (match_tag_shape _ _ Et) as (tg & Hr & Htg).
  destruct (span isspace r') as [ws3 r''] eqn:E2.
  destruct (span_spec _ _ _ _ E2) as (Hr' & Hws3 & _).
  destruct r''; [|discriminate]. intros _.
  exists ws2, tg, ws3. rewrite app_nil_r in Hr'. subst.
  repeat split; assumption.
Qed.

Lemma match_tail_shape (s number : pystr) :
  match_tail s = Some number ->
  exists gap int_part frac gap2 tag trail,
    s = gap ++ number ++ gap2 ++ tag ++ trail
    /\ number = number_of int_part frac
    /\ gap <> [] /\ all_space gap /\ digit_run int_part /\ frac_ok frac
    /\ all_space gap2 /\ is_currency_tag tag = true /\ all_space trail.
Proof.
  unfold match_tail.
  destruct (span isspace s) as [ws r] eqn:E1.
  destruct (span_spec _ _ _ _ E1) as (Hs & Hws & _).
  destruct ws as [|w ws]; [discriminate|].
  destruct (match_number r) as [[num r']|] eqn:En; [|discriminate].
  destruct (match_number_shape _ _ _ En) as (ip & frac & Hn & Hr & Hip & Hf).
  destruct (match_end r') eqn:Ee; [|discriminate].
  destruct (match_end_shape _ Ee) as (gap2 & tag & trail & Hr' & H2 & Ht & H3).
  intros H. inversion H; subst number.
  exists (w :: ws), ip, frac, gap2, tag, trail.
  split; [rewrite Hs, Hr, Hr'; reflexivity|].
  split; [exact Hn|]. split; [discriminate|].
  split; [exact Hws|]. split; [exact Hip|]. split; [exact Hf|].
  split; [exact H2|]. split; [exact Ht|]. exact H3.
Qed.

Lemma match_lazy_sound (s group1_rev group1 number : pystr) :
  match_lazy group1_rev s = Some (group1, number) ->
  exists suf tailstr,
    s = suf ++ tailstr /\ group1 = rev group1_rev ++ suf
    /\ match_tail tailstr = Some number
    /\ forallb (fun c => negb (c =? 10)%N) suf = true.
Proof.
  revert group1_rev. induction s as [|c s IH]; intros group1_rev;
    rewrite match_lazy_eq.
  - destruct (match_tail []) as [n|] eqn:Et; [|discriminate].
    intros H. inversion H; subst. exists [], [].
    rewrite !app_nil_r. auto.
  - destruct (match_tail (c :: s)) as [n|] eqn:Et.
    + intros H. inversion H; subst. exists [], (c :: s).
      rewrite !app_nil_r. auto.
    + destruct (c =? 10)%N eqn:Ec; [discriminate|]. intros H.
      destruct (IH _ H) as (suf & tailstr & Hs & Hg & Ht & Hl).
      exists (c :: suf), tailstr. split; [rewrite Hs; reflexivity|].
      split; [rewrite Hg; cbn [rev]; rewrite <- app_assoc; reflexivity|].
      split; [exact Ht|]. cbn [forallb]. rewrite Ec, Hl. reflexivity.
Qed.

End Shape.

(** X2. Whenever the amount pattern matches a text, the text is the
    first group, which is not empty and lies on one line, then at least
    one whitespace character, then the second group, which is a run of
    decimal digits or two runs around a [.] or a [,], then optional
    whitespace, a currency tag ([₺], or [TL] in any case) and optional
    whitespace: the pattern accepts nothing but the shape that the
    specification describes. *)
Theorem re_match_sound :
  forall (B : Builtins) (s group1 group2 : pystr),
    re_match s = Some (group1, group2) ->
    group1 <> []
    /\ forallb (fun c => negb (c =? 10)%N) group1 = true
    /\ exists gap int_part frac gap2 tag trail,
         s = group1 ++ gap ++ group2 ++ gap2 ++ tag ++ trail
         /\ group2 = number_of int_part frac
         /\ gap <> [] /\ all_space gap
         /\ digit_run int_part /\ frac_ok frac
         /\ all_space gap2 /\ is_currency_tag tag = true
         /\ all_space trail.
Proof.
  intros B s group1 group2. unfold re_match.
  destruct s as [|c s]; [discriminate|].
  destruct (c =? 10)%N eqn:Ec; [discriminate|]. intros H.
  destruct (match_lazy_sound _ _ _ _ H) as (suf & tailstr & Hs & Hg & Ht & Hl).
  cbn [rev app] in Hg. subst group1.
  split; [discriminate|].
  split; [cbn [forallb]; rewrite Ec, Hl; reflexivity|].
  destruct (match_tail_shape _ _ Ht)
    as (gap & ip & frac & gap2 & tag & trail & Hts & Rest).
  exists gap, ip, frac, gap2, tag, trail.
  split; [|exact Rest].
  rewrite Hs, Hts. reflexivity.
Qed.

Lemma re_match_sound_witness :
  py "kahve" <> []
  /\ forallb (fun c => negb (c =? 10)%N) (py "kahve") = true
  /\ exists gap int_part frac gap2 tag trail,
       py "kahve 50 TL" = py "kahve" ++ gap ++ py "50" ++ gap2 ++ tag ++ trail
       /\ py "50" = number_of int_part frac
       /\ gap <> [] /\ all_space gap
       /\ @digit_run Reference.builtins int_part
       /\ @frac_ok Reference.builtins frac
       /\ all_space gap2 /\ is_currency_tag tag = true
       /\ all_space trail.
Proof.
  apply (re_match_sound Reference.builtins (py "kahve 50 TL")).
  vm_compute. reflexivity.
Defined.

(** ** A text that needs no backend *)

Lemma category_eqb_other (c : ExpenseCategory) :
  c <> OTHER -> category_eqb c OTHER = false.
Proof. destruct c; intros H; try reflexivity. congruence. Qed.

(** The pattern path of [_parse], in general. *)
Lemma parse_pattern_path {B : Builtins} {llm : LLMService}
    (lead desc gap int_part : pystr) (frac : option (N * pystr))
    (gap2 tag trail : pystr) :
  decimal_table_sound B ->
  all_space lead -> trimmed_line desc ->
  gap <> [] -> all_space gap ->
  digit_run int_part -> frac_ok frac ->
  all_space gap2 -> is_currency_tag tag = true -> all_space trail ->
  _parse (lead ++ desc ++ gap ++ number_of int_part frac
          ++ gap2 ++ tag ++ trail)
  = Ok (JStr desc,
        of_decimal (digits_value (int_part ++ frac_digits frac))
          (List.length (frac_digits frac))).
Proof.
  intros tables Hlead Hdesc Ng Hg Hi Hf Hg2 Ht Htrail.
  unfold _parse.
  set (core := desc ++ gap ++ number_of int_part frac ++ gap2 ++ tag).
  assert (Hcore : strip (lead ++ desc ++ gap ++ number_of int_part frac
                         ++ gap2 ++ tag ++ trail) = core).
  { replace (lead ++ desc ++ gap ++ number_of int_part frac
             ++ gap2 ++ tag ++ trail)
      with (lead ++ core ++ trail)
      by (unfold core; rewrite <- !app_assoc; reflexivity).
    destruct Hdesc as (Hh & Hl & _).
    destruct (tag_head_no_space tag Ht) as [Hth Htl].
    apply strip_core; try assumption.
    - unfold core. destruct desc; [discriminate Hh | exact Hh].
    - unfold core. rewrite !app_assoc.
      rewrite last_app_nonempty; [exact Htl|].
      destruct tag; [contradiction | discriminate]. }
  rewrite Hcore. unfold core.
  rewrite (re_match_well_formed tables) by assumption.
  destruct Hdesc as (Hh & Hl & _).
  rewrite (strip_trimmed desc Hh Hl).
  rewrite (float_of_number tables) by assumption. reflexivity.
Qed.

(** X3. A text of the shape description, whitespace, number, currency
    tag whose description holds a keyword of the table is classified
    without the backend: whatever the backend would answer, the expense
    has the description, the amount that the decimal denotes, the
    category of the first keyword hit, and no metadata. *)
Theorem classify_single_offline :
  forall (B : Builtins) (llm : LLMService)
         (lead desc gap int_part : pystr) (frac : option (N * pystr))
         (gap2 tag trail : pystr),
    decimal_table_sound B ->
    all_space lead -> trimmed_line desc ->
    gap <> [] -> all_space gap ->
    digit_run int_part -> frac_ok frac ->
    all_space gap2 -> is_currency_tag tag = true -> all_space trail ->
    from_keywords desc <> OTHER ->
    _classify_single (lead ++ desc ++ gap ++ number_of int_part frac
                      ++ gap2 ++ tag ++ trail)
    = Ok {| Expense.description := desc;
            Expense.amount :=
              of_decimal (digits_value (int_part ++ frac_digits frac))
                (List.length (frac_digits frac));
            Expense.category := from_keywords desc;
            Expense.metadata := [] |}.
Proof.
  intros B llm lead desc gap int_part frac gap2 tag trail
         tables Hlead Hdesc Ng Hg Hi Hf Hg2 Ht Htrail Hk.
  unfold _classify_single.
  rewrite (parse_pattern_path lead desc gap int_part frac gap2 tag trail)
    by assumption.
  cbn [bind]. rewrite (categorize_by_keyword desc Hk). reflexivity.
Qed.

Lemma classify_single_offline_witness :
  @_classify_single Reference.builtins (Reference.answering [])
    ([] ++ py "kahve" ++ py " " ++ number_of (py "50") None
     ++ py " " ++ py "TL" ++ [])
  = Ok {| Expense.description := py "kahve";
          Expense.amount := of_Z 50;
          Expense.category := FOOD;
          Expense.metadata := [] |}.
Proof.
  apply (classify_single_offline Reference.builtins (Reference.answering [])
           [] (py "kahve") (py " ") (py "50") None (py " ") (py "TL") []
           reference_tables_sound).
  - reflexivity.
  - repeat split; vm_compute; reflexivity.
  - discriminate.
  - reflexivity.
  - split; [discriminate | vm_compute; reflexivity].
  - exact I.
  - reflexivity.
  - reflexivity.
  - reflexivity.
  - vm_compute. discriminate.
Defined.

(** ** The sentinel and the searcher *)

(** X4. Where the fallback of [_parse] degrades (the pattern does not
    match and the backend's answer is not JSON, or is an object without
    a description or without an amount, or with a string amount that is
    not a number), an expense that comes of the text has the whole text
    as its description, the amount 0.0 and no metadata, and the searcher
    selects it whatever its threshold is. *)
Theorem unpriced_expense_is_searched :
  forall (B : Builtins) (llm : LLMService) (text response : pystr)
         (e : Expense.t),
    re_match (strip text) = None ->
    generate (parse_request text) = Ok response ->
    match json_loads response with
    | None => True
    | Some (JObj d) =>
      Dict.get (py "description") d = None
      \/ Dict.get (py "amount") d = None
      \/ exists s, Dict.get (py "amount") d = Some (JStr s)
                   /\ float_of_str s = None
    | Some _ => False
    end ->
    _classify_single text = Ok e ->
    Expense.description e = text /\ Expense.amount e = zero
    /\ Expense.metadata e = []
    /\ forall threshold, Searcher.is_searchable threshold e = true.
Proof.
  intros B llm text response e R G J H.
  unfold _classify_single in H.
  rewrite (parse_degrades text response R G J) in H. cbn [bind] in H.
  destruct (_categorize (JStr text)) as [c|x]; [|discriminate H].
  cbn [bind] in H. inversion H; subst e. cbn.
  repeat split. intros threshold. unfold Searcher.is_searchable. cbn.
  apply orb_true_r.
Qed.

Lemma unpriced_expense_is_searched_witness :
  Searcher.is_searchable Searcher.default_threshold
    {| Expense.description := py "hediye"; Expense.amount := zero;
       Expense.category := OTHER; Expense.metadata := [] |} = true.
Proof.
  apply (unpriced_expense_is_searched Reference.builtins
           (Reference.answering (py "?")) (py "hediye") (py "?")).
  - vm_compute. reflexivity.
  - reflexivity.
  - exact I.
  - vm_compute. reflexivity.
Defined.

(** X5. When the pattern does not match and the backend answers with a
    JSON object whose amount converts to a float but whose description
    is not a string, the classification of the text raises
    [AttributeError], and the batch comes back without it. *)
Theorem non_string_description_dropped :
  forall (B : Builtins) (llm : LLMService) (text response : pystr)
         (d : list (pystr * json)) (description amount_value : json)
         (amount : float),
    re_match (strip text) = None ->
    generate (parse_request text) = Ok response ->
    json_loads response = Some (JObj d) ->
    Dict.get (py "description") d = Some description ->
    (forall s, description <> JStr s) ->
    Dict.get (py "amount") d = Some amount_value ->
    float_of_json amount_value = Ok amount ->
    _classify_single text = Raise AttributeError
    /\ forall before after,
         execute (before ++ text :: after)
         = execute before ++ execute after.
Proof.
  intros B llm text response d description amount_value amount
         R G J Hd Hs Ha Hf.
  assert (E : _classify_single text = Raise AttributeError).
  { unfold _classify_single, _parse. rewrite R.
    rewrite (parse_llm_cases text response G), J, Hd, Ha, Hf.
    cbn [bind]. destruct description; try reflexivity.
    exfalso. exact (Hs s eq_refl). }
  split; [exact E|]. intros before after.
  rewrite execute_app. cbn [execute]. rewrite E. reflexivity.
Qed.

Lemma non_string_description_dropped_witness :
  @_classify_single
    (Samples.builtins_loading
       [(Samples.numeric_description_text, Samples.numeric_description)])
    (Reference.answering Samples.numeric_description_text) (py "hediye")
  = Raise AttributeError.
Proof.
  apply (non_string_description_dropped
           (Samples.builtins_loading
              [(Samples.numeric_description_text,
                Samples.numeric_description)])
           (Reference.answering Samples.numeric_description_text)
           (py "hediye") Samples.numeric_description_text
           [ (py "description", JInt 5); (py "amount", JInt 5) ]
           (JInt 5) (JInt 5) (of_Z 5)).
  - vm_compute. reflexivity.
  - reflexivity.
  - vm_compute. reflexivity.
  - vm_compute. reflexivity.
  - discriminate.
  - vm_compute. reflexivity.
  - vm_compute. reflexivity.
Defined.

(** ** What a classification can end in *)





End ClassifierFacts.

(* ================================================================== *)
(** * Substrings *)

Module ContainsFacts.

Lemma eqb_eq (s t : pystr) : Str.eqb s t = true <-> s = t.
Proof.
  unfold Str.eqb. destruct (list_eq_dec N.eq_dec s t); split; intros H;
    congruence.
Qed.

Lemma eqb_refl (s : pystr) : Str.eqb s s = true.
Proof. apply eqb_eq. reflexivity. Qed.

Lemma eqb_neq (s t : pystr) : Str.eqb s t = false <-> s <> t.
Proof.
  unfold Str.eqb. destruct (list_eq_dec N.eq_dec s t); split; intros H;
    congruence.
Qed.

Lemma starts_with_app (pre b : pystr) : starts_with pre (pre ++ b) = true.
Proof.
  induction pre as [|c pre IH]; [destruct b; reflexivity|].
  cbn [app starts_with]. rewrite N.eqb_refl, IH. reflexivity.
Qed.

Lemma starts_with_split (pre s : pystr) :
  starts_with pre s = true -> exists b, s = pre ++ b.
Proof.
  revert s. induction pre as [|c pre IH]; intros s H.
  - exists s. reflexivity.
  - destruct s as [|c' s]; [discriminate H|]. cbn [starts_with] in H.
    apply andb_true_iff in H. destruct H as [Hc H].
    apply N.eqb_eq in Hc. subst c'. destruct (IH s H) as [b ->].
    exists b. reflexivity.
Qed.

Lemma contains_eq (needle hay : pystr) :
  contains needle hay
  = (starts_with needle hay
     || match hay with [] => false | _ :: hay' => contains needle hay' end).
Proof. destruct hay; reflexivity. Qed.

Lemma contains_split (needle hay : pystr) :
  contains needle hay = true -> exists a b, hay = a ++ needle ++ b.
Proof.
  induction hay as [|c hay IH]; rewrite contains_eq; intros H;
    apply orb_true_iff in H; destruct H as [H | H].
  - destruct (starts_with_split _ _ H) as [b Hb]. exists [], b. exact Hb.
  - discriminate H.
  - destruct (starts_with_split _ _ H) as [b Hb]. exists [], b. exact Hb.
  - destruct (IH H) as (a & b & ->). exists (c :: a), b. reflexivity.
Qed.

Lemma contains_app (needle a b : pystr) :
  contains needle (a ++ needle ++ b) = true.
Proof.
  induction a as [|c a IH]; cbn [app]; rewrite contains_eq.
  - rewrite starts_with_app. reflexivity.
  - rewrite IH. apply orb_true_r.
Qed.

(** A substring of a substring is a substring. *)
Lemma contains_trans (a b t : pystr) :
  contains a b = true -> contains b t = true -> contains a t = true.
Proof.
  intros Hab Hbt.
  destruct (contains_split _ _ Hab) as (x & y & ->).
  destruct (contains_split _ _ Hbt) as (u & v & ->).
  replace (u ++ (x ++ a ++ y) ++ v) with ((u ++ x) ++ a ++ (y ++ v))
    by (rewrite <- !app_assoc; reflexivity).
  apply contains_app.
Qed.

End ContainsFacts.

(* ================================================================== *)
(** * The keyword table: keywords that never decide *)

Module KeywordFacts.
Import ContainsFacts CategorizeFacts.

(** A text that holds a keyword of UTILITIES is settled by UTILITIES or by
    a category declared before it. *)
Lemma utilities_or_before {B : Builtins} (text kw : pystr) :
  In kw (map py ["elektrik"; "su"; "gaz"; "internet"; "telefon";
                 "fatura"; "doÄŸalgaz"]) ->
  contains kw (str_lower text) = true ->
  In (from_keywords text) [FOOD; TRANSPORT; UTILITIES].
Proof.
  intros Hin H.
  unfold from_keywords, keywords_map. cbn [first_hit].
  destruct (keyword_hit (str_lower text) _); [cbn; auto|].
  destruct (keyword_hit (str_lower text) _); [cbn; auto|].
  assert (U : keyword_hit (str_lower text)
                (map py ["elektrik"; "su"; "gaz"; "internet"; "telefon";
                         "fatura"; "doÄŸalgaz"]) = true).
  { unfold keyword_hit. apply existsb_exists. exists kw. auto. }
  rewrite U. cbn. auto.
Qed.

(** X7. Four keywords of the table contain a keyword of a category that
    is declared earlier, all four under SHOPPING: ["telefon"], which
    UTILITIES lists too, and ["samsung"], ["asus"] and ["aksesuar"],
    which hold the UTILITIES keyword ["su"].  None of the four ever
    decides a category: a text that holds one of them is classified as
    FOOD, TRANSPORT or UTILITIES, never as SHOPPING. *)
Theorem shadowed_keywords_never_decide :
  shadowed [] keywords_map
  = [ (SHOPPING, py "telefon"); (SHOPPING, py "samsung");
      (SHOPPING, py "asus"); (SHOPPING, py "aksesuar") ]
  /\ forall (B : Builtins) (text : pystr) (c : ExpenseCategory)
            (kw : pystr),
       In (c, kw) (shadowed [] keywords_map) ->
       contains kw (str_lower text) = true ->
       In (from_keywords text) [FOOD; TRANSPORT; UTILITIES]
       /\ from_keywords text <> c.
Proof.
  assert (E : shadowed [] keywords_map
              = [ (SHOPPING, py "telefon"); (SHOPPING, py "samsung");
                  (SHOPPING, py "asus"); (SHOPPING, py "aksesuar") ])
    by (vm_compute; reflexivity).
  split; [exact E|].
  intros B text c kw Hin H. rewrite E in Hin.
  assert (Hc : c = SHOPPING).
  { cbn [In] in Hin.
    destruct Hin as [X | [X | [X | [X | []]]]]; inversion X; reflexivity. }
  assert (Hu : exists k,
             In k (map py ["elektrik"; "su"; "gaz"; "internet"; "telefon";
                           "fatura"; "doÄŸalgaz"])
             /\ contains k kw = true).
  { cbn [In] in Hin.
    destruct Hin as [X | [X | [X | [X | []]]]]; inversion X; subst.
    - exists (py "telefon"). split; [cbn; auto 10 | vm_compute; reflexivity].
    - exists (py "su"). split; [cbn; auto 10 | vm_compute; reflexivity].
    - exists (py "su"). split; [cbn; auto 10 | vm_compute; reflexivity].
    - exists (py "su"). split; [cbn; auto 10 | vm_compute; reflexivity]. }
  destruct Hu as (k & Hk & Hkw).
  pose proof (utilities_or_before text k Hk (contains_trans _ _ _ Hkw H))
    as Hf.
  split; [exact Hf|]. subst c. cbn [In] in Hf.
  destruct Hf as [<- | [<- | [<- | []]]]; discriminate.
Qed.

Lemma shadowed_keywords_never_decide_witness :
  In (@from_keywords Reference.builtins (py "Samsung TV"))
    [FOOD; TRANSPORT; UTILITIES].
Proof.
  apply (proj2 shadowed_keywords_never_decide Reference.builtins
           (py "Samsung TV") SHOPPING (py "samsung")).
  - vm_compute. auto.
  - vm_compute. reflexivity.
Defined.

(** ** The first hit *)

Lemma keyword_hit_false (text_lower : pystr) (keywords : list pystr) :
  keyword_hit text_lower keywords = false <->
  forall kw, In kw keywords -> contains kw text_lower = false.
Proof.
  unfold keyword_hit. split.
  - intros H kw Hin. destruct (contains kw text_lower) eqn:E;
      [|reflexivity].
    assert (X : existsb (fun kw => contains kw text_lower) keywords = true)
      by (apply existsb_exists; eauto).
    congruence.
  - intros H. destruct (existsb _ keywords) eqn:E; [|reflexivity].
    apply existsb_exists in E. destruct E as (kw & Hin & Hc).
    rewrite (H kw Hin) in Hc. discriminate Hc.
Qed.

(** X8. The keyword loop is a first match over the table: the answer is
    [OTHER] exactly when no keyword of any category occurs in the
    lower-cased text, and otherwise it is the first category, in the
    order of the table, that has a keyword occurring in it; no keyword of
    a category listed before it occurs. *)
Theorem from_keywords_first_hit :
  forall (B : Builtins) (text : pystr),
    (from_keywords text = OTHER <->
     forall category keywords kw,
       In (category, keywords) keywords_map -> In kw keywords ->
       contains kw (str_lower text) = false)
    /\ (forall c,
           from_keywords text = c -> c <> OTHER ->
           exists earlier keywords later kw,
             keywords_map = earlier ++ (c, keywords) :: later
             /\ In kw keywords
             /\ contains kw (str_lower text) = true
             /\ forall category' keywords' kw',
                  In (category', keywords') earlier -> In kw' keywords' ->
                  contains kw' (str_lower text) = false).
Proof.
  intros B text. unfold from_keywords. split.
  - rewrite (first_hit_other _ _ keywords_map_no_other).
    rewrite Forall_forall. split.
    + intros H category keywords kw Hin Hkw.
      specialize (H _ Hin). cbn [snd] in H.
      exact (proj1 (keyword_hit_false _ _) H kw Hkw).
    + intros H [category keywords] Hin. cbn [snd].
      apply keyword_hit_false. intros kw Hkw.
      exact (H category keywords kw Hin Hkw).
  - intros c Hc Hn.
    destruct (first_hit_found _ _ _ Hc Hn)
      as (earlier & keywords & later & Ht & Hk & Hall).
    unfold keyword_hit in Hk. apply existsb_exists in Hk.
    destruct Hk as (kw & Hin & Hkw).
    exists earlier, keywords, later, kw.
    split; [exact Ht|]. split; [exact Hin|]. split; [exact Hkw|].
    intros category' keywords' kw' Hin' Hkw'.
    rewrite Forall_forall in Hall. specialize (Hall _ Hin').
    cbn [snd] in Hall.
    exact (proj1 (keyword_hit_false _ _) Hall kw' Hkw').
Qed.

Lemma from_keywords_first_hit_witness :
  exists earlier keywords later kw,
    keywords_map = earlier ++ (UTILITIES, keywords) :: later
    /\ In kw keywords
    /\ contains kw (@str_lower Reference.builtins (py "Samsung TV")) = true.
Proof.
  destruct (proj2 (from_keywords_first_hit Reference.builtins
                     (py "Samsung TV")) UTILITIES)
    as (earlier & keywords & later & kw & H1 & H2 & H3 & _).
  - vm_compute. reflexivity.
  - discriminate.
  - exists earlier, keywords, later, kw. auto.
Defined.

End KeywordFacts.

(* ================================================================== *)
(** * The searcher: running it again, and the DuckDuckGo tool *)

Module SearchToolFacts.
Import Searcher ContainsFacts SearcherFacts.

(** ** Assignments to a dict *)




(** ** Running the searcher on its own output *)



(** ** The tool that the application builds *)

(** X10. With the DuckDuckGo tool the searcher never sees an exception:
    a failure of the client is an empty result.  An expense is enriched
    exactly when it is selected and the client finds at least one result
    for the query made of its description and the word "fiyat", with the
    limit the tool was built with; its metadata then hold the first
    three results, with the title, the [href] and the [body] of each, and
    every other expense comes back as it was.  A limit of zero passed to
    [search] counts as no limit given. *)
Theorem searcher_with_duckduckgo :
  forall (ddgs : Search.DDGS) (max_results : Z) (threshold : float)
         (expenses : list Expense.t),
    @execute (Search.tool ddgs max_results) threshold expenses
    = map (fun e =>
             if is_searchable threshold e && found max_results e
             then with_metadata
                    (enriched_metadata
                       (Search.search_product_price max_results
                          (Expense.description e)) e) e
             else e)
        expenses
    /\ (forall query,
          Search.search max_results query (Some 0)
          = Search.search max_results query None)
    /\ (forall query limit err,
          Search.text query
            (match limit with
             | Some m => if m =? 0 then max_results else m
             | None => max_results
             end) = Raise err ->
          Search.search max_results query limit = []).
Proof.
  intros ddgs max_results threshold expenses.
  split; [|split].
  - rewrite execute_pointwise. apply map_ext. intros e.
    destruct (is_searchable threshold e); [|reflexivity].
    cbn [andb]. unfold search_one, found, with_metadata, enriched_metadata.
    cbn [search_product_price Search.tool].
    unfold Search.search_product_price, Search.search.
    destruct (Search.text (Expense.description e ++ py " fiyat") max_results)
      as [[|r rs]|err]; reflexivity.
  - intros query. reflexivity.
  - intros query limit err H. unfold Search.search. rewrite H.
    reflexivity.
Qed.

Lemma searcher_with_duckduckgo_witness :
  @Search.search (Samples.ddgs_answering (Raise TimeoutError)) 5
    (py "laptop fiyat") None = [].
Proof.
  apply (proj2 (proj2 (searcher_with_duckduckgo
                         (Samples.ddgs_answering (Raise TimeoutError)) 5
                         zero []))
           (py "laptop fiyat") None TimeoutError).
  reflexivity.
Defined.

End SearchToolFacts.

(* ================================================================== *)
(** * The analyst: outcomes, what it reads, the keys, the status *)

Module AnalystMoreFacts.
Import Analyst ContainsFacts BreakdownFacts AnalystFacts.

(** ** Every outcome of [execute] *)


Lemma budget_ok (monthly_projection : float) (income : option float) :
  match income with
  | Some income_value =>
    if truthy income_value then
      quotient <- div monthly_projection income_value ;;
      let usage_pct := mul quotient (of_Z 100) in
      let status := from_percentage usage_pct in
      let remaining :=
        if gtb income_value monthly_projection
        then sub income_value monthly_projection
        else zero in
      Ok (Some usage_pct, status, Some remaining)
    else Ok (None, UNKNOWN, None)
  | None => Ok (None, UNKNOWN, None)
  end = Ok (budget_of monthly_projection income).
Proof.
  unfold budget_of. destruct income as [i|]; [|reflexivity].
  destruct (truthy i) eqn:Ti; [|reflexivity].
  rewrite div_ok
    by (unfold truthy in Ti; apply negb_true_iff in Ti; exact Ti).
  reflexivity.
Qed.





(** ** What the analyst reads of an expense *)

Lemma fold_left_map_fused {A C D : Type} (f : D -> C -> D) (g : A -> C)
    (l : list A) (d : D) :
  fold_left f (map g l) d = fold_left (fun d x => f d (g x)) l d.
Proof.
  revert d. induction l as [|x l IH]; intros d; cbn [map fold_left];
    [reflexivity | apply IH].
Qed.

Lemma direct_breakdown_of_data (expenses : list Expense.t) :
  direct_breakdown expenses
  = fold_left
      (fun (d : dict float) (entry : pystr * float) =>
         Dict.set (fst entry)
           (add (Dict.get_default (fst entry) zero d) (snd entry)) d)
      (expense_data_of expenses) [].
Proof.
  unfold direct_breakdown, expense_data_of. rewrite fold_left_map_fused.
  reflexivity.
Qed.

Lemma expense_data_eq (es es' : list Expense.t) :
  map Expense.amount es = map Expense.amount es' ->
  map Expense.category es = map Expense.category es' ->
  expense_data_of es = expense_data_of es'.
Proof.
  revert es'. induction es as [|e es IH]; intros [|e' es'] Ha Hc;
    try discriminate; [reflexivity|].
  cbn [map] in Ha, Hc. inversion Ha. inversion Hc.
  unfold expense_data_of. cbn [map]. f_equal.
  - congruence.
  - apply IH; assumption.
Qed.

Lemma direct_breakdown_agree (es es' : list Expense.t) :
  expense_data_of es = expense_data_of es' ->
  direct_breakdown es = direct_breakdown es'.
Proof.
  intros Hd. rewrite !direct_breakdown_of_data, Hd. reflexivity.
Qed.

Lemma breakdown_with_code_agree {B : Builtins} {sandbox : Sandbox}
    (es es' : list Expense.t) (total : float) :
  expense_data_of es = expense_data_of es' ->
  _calculate_breakdown_with_code es total
  = _calculate_breakdown_with_code es' total.
Proof.
  intros Hd. unfold _calculate_breakdown_with_code.
  fold (expense_data_of es). fold (expense_data_of es').
  rewrite Hd, (direct_breakdown_agree es es' Hd). reflexivity.
Qed.

Lemma execute_of_data {B : Builtins} {sandbox : Sandbox} (enable : bool)
    (es es' : list Expense.t) (days_analyzed : Z) (income : option float) :
  map Expense.amount es = map Expense.amount es' ->
  map Expense.category es = map Expense.category es' ->
  execute enable es days_analyzed income
  = execute enable es' days_analyzed income.
Proof.
  intros Ha Hc.
  pose proof (expense_data_eq es es' Ha Hc) as Hd.
  pose proof (direct_breakdown_agree es es' Hd) as Hb.
  destruct es as [|e es], es' as [|e' es']; try discriminate Ha;
    [reflexivity|].
  unfold execute. cbv zeta. rewrite Ha, Hb.
  destruct (of_int days_analyzed) as [days|]; [|reflexivity]. cbn [bind].
  destruct (div _ days) as [rate|]; [|reflexivity]. cbn [bind].
  rewrite (breakdown_with_code_agree _ _ _ Hd). reflexivity.
Qed.

(** X12. The analysis is computed from the amounts and the categories
    alone: two lists of expenses that agree on them, position by
    position, have the same total and the same breakdown on either path,
    and give the same outcome, whatever their descriptions and metadata
    are. *)
Theorem execute_reads_amounts_and_categories :
  forall (B : Builtins) (sandbox : Sandbox) (enable : bool)
         (es es' : list Expense.t) (days_analyzed : Z)
         (income : option float),
    map Expense.amount es = map Expense.amount es' ->
    map Expense.category es = map Expense.category es' ->
    sum (map Expense.amount es) = sum (map Expense.amount es')
    /\ direct_breakdown es = direct_breakdown es'
    /\ (forall total,
          _calculate_breakdown_with_code es total
          = _calculate_breakdown_with_code es' total)
    /\ execute enable es days_analyzed income
       = execute enable es' days_analyzed income.
Proof.
  intros B sandbox enable es es' days_analyzed income Ha Hc.
  pose proof (expense_data_eq es es' Ha Hc) as Hd.
  split; [rewrite Ha; reflexivity|].
  split; [exact (direct_breakdown_agree es es' Hd)|].
  split.
  - intros total. exact (breakdown_with_code_agree es es' total Hd).
  - exact (execute_of_data enable es es' days_analyzed income Ha Hc).
Qed.

Lemma execute_reads_amounts_and_categories_witness :
  @execute Reference.builtins Reference.sandbox_running true
    [Reference.laptop] 7 None
  = @execute Reference.builtins Reference.sandbox_running true
      [with_metadata [(py "searched", MetaBool true)]
         (Reference.expense "asus laptop" (of_Z 8000) SHOPPING)] 7 None.
Proof.
  apply (execute_reads_amounts_and_categories Reference.builtins
           Reference.sandbox_running true
           [Reference.laptop]
           [with_metadata [(py "searched", MetaBool true)]
              (Reference.expense "asus laptop" (of_Z 8000) SHOPPING)]
           7 None); reflexivity.
Defined.

(** ** The keys of the breakdown *)

Lemma keys_set {V : Type} (k : pystr) (v : V) (d : dict V) :
  Dict.keys (Dict.set k v d) = note_key (Dict.keys d) k.
Proof.
  unfold Dict.keys, note_key.
  induction d as [|[k' v'] d IH]; cbn [Dict.set map existsb fst].
  - reflexivity.
  - destruct (Str.eqb k k') eqn:E; cbn [map fst orb].
    + reflexivity.
    + rewrite IH. destruct (existsb (Str.eqb k) (map fst d)); reflexivity.
Qed.

Lemma keys_fold (expenses : list Expense.t) (d : dict float) :
  Dict.keys (fold_left direct_step expenses d)
  = fold_left note_key (category_values expenses) (Dict.keys d).
Proof.
  revert d. induction expenses as [|e es IH]; intros d;
    cbn [fold_left category_values map]; [reflexivity|].
  rewrite IH. unfold direct_step. rewrite keys_set. reflexivity.
Qed.

Lemma existsb_eqb (k : pystr) (l : list pystr) :
  existsb (Str.eqb k) l = true <-> In k l.
Proof.
  rewrite existsb_exists. split.
  - intros (x & Hx & E). apply eqb_eq in E. subst. exact Hx.
  - intros H. exists k. split; [exact H | apply eqb_refl].
Qed.

Lemma note_key_in (seen : list pystr) (k x : pystr) :
  In x (note_key seen k) <-> In x seen \/ x = k.
Proof.
  unfold note_key. destruct (existsb (Str.eqb k) seen) eqn:E.
  - apply existsb_eqb in E. split; [auto|]. intros [H | ->]; assumption.
  - rewrite in_app_iff. cbn [In]. intuition congruence.
Qed.

Lemma note_key_nodup (seen : list pystr) (k : pystr) :
  NoDup seen -> NoDup (note_key seen k).
Proof.
  intros H. unfold note_key. destruct (existsb (Str.eqb k) seen) eqn:E;
    [exact H|].
  apply NoDup_app; [exact H | repeat constructor; intros [] |].
  intros a Ha [Ea | []]. subst a.
  assert (X : existsb (Str.eqb k) seen = true) by (apply existsb_eqb; exact Ha).
  congruence.
Qed.

Lemma fold_note_in (l seen : list pystr) (x : pystr) :
  In x (fold_left note_key l seen) <-> In x seen \/ In x l.
Proof.
  revert seen. induction l as [|k l IH]; intros seen; cbn [fold_left In].
  - tauto.
  - rewrite IH, note_key_in. intuition congruence.
Qed.

Lemma fold_note_nodup (l seen : list pystr) :
  NoDup seen -> NoDup (fold_left note_key l seen).
Proof.
  revert seen. induction l as [|k l IH]; intros seen H; cbn [fold_left];
    [exact H|].
  apply IH. apply note_key_nodup. exact H.
Qed.

Lemma same_breakdown_keys (d1 d2 : dict float) :
  same_breakdown d1 d2 -> Dict.keys d1 = Dict.keys d2.
Proof.
  induction 1 as [|a b d1 d2 [Hk _] _ IH]; [reflexivity|].
  unfold Dict.keys in *. cbn [map]. rewrite Hk, IH. reflexivity.
Qed.

Lemma breakdown_keys_first {B : Builtins} {sandbox : Sandbox}
    (enable : bool) (expenses : list Expense.t) (total : float) :
  Dict.keys (if enable then _calculate_breakdown_with_code expenses total
             else direct_breakdown expenses)
  = first_occurrences (category_values expenses).
Proof.
  assert (D : Dict.keys (direct_breakdown expenses)
              = first_occurrences (category_values expenses)).
  { unfold direct_breakdown. fold direct_step. rewrite keys_fold.
    reflexivity. }
  destruct enable; [|exact D].
  rewrite (same_breakdown_keys _ _
             (breakdown_paths_helper sandbox expenses total)).
  exact D.
Qed.

(** X13. The breakdown, on either path, has one entry for each category
    that occurs among the expenses and no other entry, in the order in
    which the categories first occur; no key occurs twice, and there are
    at most ten entries. *)
Theorem breakdown_keys :
  forall (B : Builtins) (sandbox : Sandbox) (enable : bool)
         (expenses : list Expense.t) (total : float),
    let breakdown :=
      if enable then _calculate_breakdown_with_code expenses total
      else direct_breakdown expenses in
    Dict.keys breakdown = first_occurrences (category_values expenses)
    /\ NoDup (Dict.keys breakdown)
    /\ (forall k, In k (Dict.keys breakdown) <->
                  exists e, In e expenses /\ value (Expense.category e) = k)
    /\ (List.length breakdown <= 10)%nat.
Proof.
  intros B sandbox enable expenses total breakdown.
  assert (K : Dict.keys breakdown
              = first_occurrences (category_values expenses)).
  { apply breakdown_keys_first. }
  assert (ND : NoDup (Dict.keys breakdown)).
  { rewrite K. apply fold_note_nodup. constructor. }
  assert (IN : forall k, In k (Dict.keys breakdown) <->
                exists e, In e expenses /\ value (Expense.category e) = k).
  { intros k. rewrite K. unfold first_occurrences. rewrite fold_note_in.
    unfold category_values. rewrite in_map_iff. cbn [In]. split.
    - intros [[] | (e & He & Hin)]. exists e. auto.
    - intros (e & Hin & He). right. exists e. auto. }
  split; [exact K|]. split; [exact ND|]. split; [exact IN|].
  replace (List.length breakdown) with (List.length (Dict.keys breakdown))
    by (unfold Dict.keys; apply length_map).
  change 10%nat with (List.length (map value all_categories)).
  apply NoDup_incl_length; [exact ND|].
  intros k Hk. apply IN in Hk. destruct Hk as (e & _ & <-).
  apply in_map. destruct (Expense.category e); cbn; auto 12.
Qed.

(** ** The trends *)

Lemma execute_trends {B : Builtins} {sandbox : Sandbox} (enable : bool)
    (expenses : list Expense.t) (days_analyzed : Z)
    (income : option float) (a : Analysis.t) :
  execute enable expenses days_analyzed income = Ok a ->
  collect_trends (Analysis.total_expenses a) (Analysis.category_breakdown a)
  = Ok (Analysis.trends a).
Proof.
  intros H. unfold execute in H.
  destruct expenses as [|e0 es]; [discriminate H|].
  destruct (of_int days_analyzed) as [days|]; [|discriminate H].
  cbn [bind] in H. destruct (div _ days) as [rate|]; [|discriminate H].
  cbn [bind] in H. rewrite budget_ok in H. cbn [bind] in H.
  destruct (budget_of _ income) as [[u s] r].
  destruct (collect_trends _ _) as [t|] eqn:Et; [|discriminate H].
  cbn [bind] in H. inversion H. cbn. exact Et.
Qed.

Lemma of_value_value (c : ExpenseCategory) : of_value (value c) = Ok c.
Proof. destruct c; vm_compute; reflexivity. Qed.

Lemma collect_trends_of_categories {B : Builtins} (total : float)
    (cats : list (ExpenseCategory * float)) :
  is_zero total = false ->
  collect_trends total (map (fun ca => (value (fst ca), snd ca)) cats)
  = Ok (map (fun ca => trend_line (fst ca) (snd ca)
                         (percent_of total (snd ca)))
          (filter (is_high total) cats)).
Proof.
  intros Zt. induction cats as [|[c amount] cats IH];
    cbn [map collect_trends filter fst snd]; [reflexivity|].
  rewrite IH. unfold trend_of. rewrite div_ok by exact Zt. cbn [bind].
  unfold is_high, percent_of. cbn [snd].
  destruct (geb (mul (ieee_div amount total) (of_Z 100)) (of_Z 30)).
  - rewrite of_value_value. reflexivity.
  - reflexivity.
Qed.

Lemma entries_of_categories (d : dict float) :
  (forall k, In k (Dict.keys d) -> exists c, k = value c) ->
  exists cats, d = map (fun ca => (value (fst ca), snd ca)) cats.
Proof.
  induction d as [|[k v] d IH]; intros H.
  - exists []. reflexivity.
  - destruct (H k) as [c ->]; [left; reflexivity|].
    destruct IH as [cats ->].
    + intros k' Hk'. apply H. right. exact Hk'.
    + exists ((c, v) :: cats). reflexivity.
Qed.

(** X14. The trends of an analysis: one line for each category of the
    breakdown whose share of the total is 30% or more, in the order of
    the breakdown, with the emoji and the name of the category, its
    amount and its share; every key of the breakdown is the value of a
    category, so no entry is skipped as unknown. *)
Theorem trends_spec :
  forall (B : Builtins) (sandbox : Sandbox) (enable : bool)
         (expenses : list Expense.t) (days_analyzed : Z)
         (income : option float) (a : Analysis.t),
    execute enable expenses days_analyzed income = Ok a ->
    exists cats : list (ExpenseCategory * float),
      Analysis.category_breakdown a
      = map (fun ca => (value (fst ca), snd ca)) cats
      /\ Analysis.trends a
         = map (fun ca =>
                  trend_line (fst ca) (snd ca)
                    (percent_of (Analysis.total_expenses a) (snd ca)))
             (filter (is_high (Analysis.total_expenses a)) cats)
      /\ (List.length (Analysis.trends a)
          <= List.length (Analysis.category_breakdown a))%nat.
Proof.
  intros B sandbox enable expenses days_analyzed income a H.
  pose proof (execute_trends _ _ _ _ _ H) as Ht.
  destruct (execute_inversion _ _ _ _ _ H)
    as (_ & Zt & _ & _ & _ & Et & _ & _ & _ & Ebd & _).
  destruct (entries_of_categories (Analysis.category_breakdown a))
    as [cats Hc].
  { intros k Hk. rewrite Ebd, breakdown_keys_first in Hk.
    unfold first_occurrences in Hk. apply fold_note_in in Hk.
    destruct Hk as [[] | Hk]. unfold category_values in Hk.
    apply in_map_iff in Hk. destruct Hk as (e & <- & _). eauto. }
  exists cats. split; [exact Hc|].
  rewrite Hc in Ht. rewrite collect_trends_of_categories in Ht
    by (rewrite Et; exact Zt).
  inversion Ht as [Htr]. split; [reflexivity|].
  rewrite Hc, !length_map. apply filter_length_le.
Qed.

Lemma trends_spec_witness :
  exists a cats,
    @execute Reference.builtins Reference.sandbox_running false
      Reference.sample_expenses 7 None = Ok a
    /\ Analysis.category_breakdown a
       = map (fun ca => (value (fst ca), snd ca)) cats
    /\ Analysis.trends a
       = map (fun ca =>
                @trend_line Reference.builtins (fst ca) (snd ca)
                  (percent_of (Analysis.total_expenses a) (snd ca)))
           (filter (is_high (Analysis.total_expenses a)) cats).
Proof.
  assert (E : exists a,
             @execute Reference.builtins Reference.sandbox_running false
               Reference.sample_expenses 7 None = Ok a)
    by (vm_compute; eexists; reflexivity).
  destruct E as [a E].
  destruct (trends_spec Reference.builtins Reference.sandbox_running false
              Reference.sample_expenses 7 None a E)
    as (cats & Hc & Ht & _).
  exists a, cats. auto.
Defined.

(** ** The status when an income is given *)

Lemma round_not_negative (m e : Z) (l : location) :
  strictly_negative (binary_round_aux prec emax false m e l) = false.
Proof.
  unfold binary_round_aux.
  destruct (shr_fexp prec emax m e l) as [mrs' e'].
  destruct (shr_fexp prec emax _ e' loc_Exact) as [mrs'' e''].
  destruct (shr_m mrs''); [reflexivity | | reflexivity].
  destruct (e'' <=? emax - prec); reflexivity.
Qed.

Lemma normalize_not_negative (m : positive) (e : Z) :
  strictly_negative (binary_normalize prec emax (Zpos m) e false) = false.
Proof.
  unfold binary_normalize, binary_round.
  destruct (shl_align m e _) as [mz ez]. apply round_not_negative.
Qed.

Lemma add_not_negative (x y : float) :
  strictly_negative x = false -> strictly_negative y = false ->
  strictly_negative (add x y) = false.
Proof.
  destruct x as [sx|[|]| |[|] mx ex], y as [sy|[|]| |[|] my ey];
    intros Hx Hy; try discriminate Hx; try discriminate Hy;
    try reflexivity.
  - destruct sx, sy; reflexivity.
  - unfold add, SFadd. cbn [cond_Zopp Z.add]. apply normalize_not_negative.
Qed.

Lemma mul_not_negative (x y : float) :
  strictly_negative x = false -> strictly_negative y = false ->
  strictly_negative (mul x y) = false.
Proof.
  destruct x as [sx|[|]| |[|] mx ex], y as [sy|[|]| |[|] my ey];
    intros Hx Hy; try discriminate Hx; try discriminate Hy;
    try reflexivity.
  unfold mul, SFmul. cbn [xorb]. apply round_not_negative.
Qed.

Lemma div_not_negative (x y : float) :
  strictly_negative x = false -> strictly_negative y = false ->
  is_zero y = false ->
  strictly_negative (ieee_div x y) = false.
Proof.
  destruct x as [sx|[|]| |[|] mx ex], y as [sy|[|]| |[|] my ey];
    intros Hx Hy Hz; try discriminate Hx; try discriminate Hy;
    try discriminate Hz; try reflexivity.
  unfold ieee_div, SFdiv. cbn [xorb].
  destruct (SFdiv_core_binary prec emax (Zpos mx) ex (Zpos my) ey)
    as [[mz ez] lz].
  apply round_not_negative.
Qed.

Lemma sum_not_negative (amounts : list float) :
  Forall (fun x => strictly_negative x = false) amounts ->
  strictly_negative (sum amounts) = false.
Proof.
  unfold sum.
  assert (G : forall acc, strictly_negative acc = false ->
                Forall (fun x => strictly_negative x = false) amounts ->
                strictly_negative (fold_left add amounts acc) = false).
  { induction amounts as [|x xs IH]; intros acc Ha F; cbn [fold_left];
      [exact Ha|].
    inversion F; subst. apply IH; [apply add_not_negative|]; assumption. }
  apply G. reflexivity.
Qed.

Lemma from_percentage_known (p : float) :
  strictly_negative p = false -> from_percentage p <> UNKNOWN.
Proof.
  intros H. unfold from_percentage.
  assert (L : ltb p (of_Z 0) = false).
  { change (of_Z 0) with (S754_zero false).
    destruct p as [s|[|]| |[|] m e]; try discriminate H; reflexivity. }
  rewrite L. destruct (ltb p (of_Z 80)); [discriminate|].
  destruct (leb p (of_Z 100)); discriminate.
Qed.

Lemma of_int_not_negative (z : Z) (d : float) :
  0 < z -> of_int z = Ok d -> strictly_negative d = false.
Proof.
  intros Hz Ed. unfold of_int in Ed. destruct z as [|p|p]; try lia.
  unfold of_Z in Ed.
  pose proof (normalize_not_negative p 0) as N.
  destruct (binary_normalize prec emax (Zpos p) 0 false);
    inversion Ed; subst; exact N.
Qed.

(** The values of the breakdown are sums of amounts. *)
Lemma get_default_forall (P : float -> Prop) (k : pystr) (v : float)
    (d : dict float) :
  Forall (fun entry => P (snd entry)) d -> P v ->
  P (Dict.get_default k v d).
Proof.
  intros F Hv. unfold Dict.get_default.
  induction F as [|[k' v'] d Hx _ IH]; cbn [Dict.get]; [exact Hv|].
  destruct (Str.eqb k k'); [exact Hx | exact IH].
Qed.

Lemma set_forall (P : float -> Prop) (k : pystr) (v : float)
    (d : dict float) :
  Forall (fun entry => P (snd entry)) d -> P v ->
  Forall (fun entry => P (snd entry)) (Dict.set k v d).
Proof.
  intros F Hv. induction F as [|[k' v'] d Hx F IH]; cbn [Dict.set].
  - repeat constructor. exact Hv.
  - destruct (Str.eqb k k'); constructor; assumption.
Qed.

Lemma breakdown_not_negative {B : Builtins} {sandbox : Sandbox}
    (enable : bool) (expenses : list Expense.t) (total : float) :
  Forall (fun e => strictly_negative (Expense.amount e) = false) expenses ->
  Forall (fun entry => strictly_negative (snd entry) = false)
    (if enable then _calculate_breakdown_with_code expenses total
     else direct_breakdown expenses).
Proof.
  intros Hamt.
  assert (D : Forall (fun entry => strictly_negative (snd entry) = false)
                (direct_breakdown expenses)).
  { unfold direct_breakdown. fold direct_step.
    assert (G : forall d,
               Forall (fun entry => strictly_negative (snd entry) = false) d ->
               Forall (fun entry => strictly_negative (snd entry) = false)
                 (fold_left direct_step expenses d)).
    { induction Hamt as [|e es He _ IH]; intros d Hd; cbn [fold_left];
        [exact Hd|].
      apply IH. unfold direct_step.
      apply (set_forall (fun x => strictly_negative x = false));
        [exact Hd|].
      apply add_not_negative; [|exact He].
      apply (get_default_forall (fun x => strictly_negative x = false));
        [exact Hd | reflexivity]. }
    apply G. constructor. }
  destruct enable; [|exact D].
  pose proof (breakdown_paths_helper sandbox expenses total) as S.
  unfold same_breakdown in S.
  induction S as [|x y d1 d2 [_ Hxy] _ IH]; [constructor|].
  inversion D as [|? ? Hy D']. subst. constructor; [|exact (IH D')].
  destruct Hxy as [-> | [Zx _]]; [exact Hy|].
  destruct (snd x); try discriminate Zx. reflexivity.
Qed.

(** X15. When no amount is negative and the number of days is positive,
    the status of the analysis is [UNKNOWN] exactly when there is no
    usable income: none given, or an income of zero.  With an income
    above zero the status is one of [HEALTHY], [WARNING] and
    [OVER_BUDGET]. *)
Theorem status_unknown_iff_no_income :
  forall (B : Builtins) (sandbox : Sandbox) (enable : bool)
         (expenses : list Expense.t) (days_analyzed : Z)
         (income : option float) (a : Analysis.t),
    execute enable expenses days_analyzed income = Ok a ->
    Forall (fun e => strictly_negative (Expense.amount e) = false)
      expenses ->
    0 < days_analyzed ->
    match income with
    | Some i => strictly_negative i = false
    | None => True
    end ->
    (Analysis.budget_status a = UNKNOWN <->
     match income with
     | Some i => is_zero i = true
     | None => True
     end).
Proof.
  intros B sandbox enable expenses days_analyzed income a H Hamt Hdays Hinc.
  destruct (execute_inversion _ _ _ _ _ H)
    as (_ & _ & days & Ed & Zd & _ & _ & _ & _ & _ & _ & Eb).
  pose proof (of_int_not_negative _ _ Hdays Ed) as Nd.
  assert (Nt : strictly_negative (sum (map Expense.amount expenses)) = false).
  { apply sum_not_negative. apply Forall_map. exact Hamt. }
  unfold budget_of in Eb. destruct income as [i|].
  - destruct (is_zero i) eqn:Zi.
    + unfold truthy in Eb. rewrite Zi in Eb. cbn in Eb. inversion Eb.
      tauto.
    + unfold truthy in Eb. rewrite Zi in Eb. cbn [negb] in Eb.
      pose proof (f_equal (fun t => snd (fst t)) Eb) as Hs.
      cbn [fst snd] in Hs. rewrite Hs. split; [|discriminate].
      intros U. exfalso. revert U. apply from_percentage_known.
      apply mul_not_negative; [|reflexivity].
      apply div_not_negative; [|exact Hinc | exact Zi].
      apply mul_not_negative; [|reflexivity].
      apply div_not_negative; assumption.
  - inversion Eb. tauto.
Qed.

Lemma status_unknown_iff_no_income_witness :
  exists a,
    @execute Reference.builtins Reference.sandbox_running true
      Reference.sample_expenses 7 (Some (of_Z 15000)) = Ok a
    /\ (Analysis.budget_status a = UNKNOWN <->
        is_zero (of_Z 15000) = true).
Proof.
  assert (E : exists a,
             @execute Reference.builtins Reference.sandbox_running true
               Reference.sample_expenses 7 (Some (of_Z 15000)) = Ok a)
    by (vm_compute; eexists; reflexivity).
  destruct E as [a E]. exists a. split; [exact E|].
  apply (status_unknown_iff_no_income Reference.builtins
           Reference.sandbox_running true Reference.sample_expenses 7
           (Some (of_Z 15000)) a E).
  - repeat constructor.
  - lia.
  - reflexivity.
Defined.

End AnalystMoreFacts.

(* ================================================================== *)
(** * The status grows with the percentage *)

Module StatusMoreFacts.
Import FloatFacts StatusFacts.

Lemma from_percentage_scaled (p : float) :
  valid p = true -> is_finite p = true ->
  from_percentage p
  = if scaled p <? 0 * Zpos (2 ^ 1074) then UNKNOWN
    else if scaled p <? 80 * Zpos (2 ^ 1074) then HEALTHY
    else if scaled p <=? 100 * Zpos (2 ^ 1074) then WARNING
    else OVER_BUDGET.
Proof.
  intros V F. unfold from_percentage.
  destruct (scaled_of_Z_small 0) as (V0 & F0 & S0); [auto|].
  destruct (scaled_of_Z_small 80) as (V80 & F80 & S80); [auto|].
  destruct (scaled_of_Z_small 100) as (V100 & F100 & S100); [auto|].
  rewrite !ltb_scaled, leb_scaled by assumption.
  rewrite S0, S80, S100. reflexivity.
Qed.

(** X16. The status never falls when the percentage rises: for two
    percentages that are real numbers, the status of the larger one is at
    least as severe as the status of the smaller one, in the order
    [UNKNOWN], [HEALTHY], [WARNING], [OVER_BUDGET].  A percentage that is
    not a number, which every comparison rejects, and plus infinity are
    reported as [OVER_BUDGET], and minus infinity as [UNKNOWN]. *)
Theorem from_percentage_monotone :
  (forall p q : float,
      valid p = true -> valid q = true ->
      is_finite p = true -> is_finite q = true ->
      (to_Q p <= to_Q q)%Q ->
      (severity (from_percentage p) <= severity (from_percentage q))%nat)
  /\ from_percentage S754_nan = OVER_BUDGET
  /\ from_percentage (S754_infinity false) = OVER_BUDGET
  /\ from_percentage (S754_infinity true) = UNKNOWN.
Proof.
  split; [|repeat split; vm_compute; reflexivity].
  intros p q Vp Vq Fp Fq Hle.
  rewrite (from_percentage_scaled p Vp Fp), (from_percentage_scaled q Vq Fq).
  assert (H : scaled p <= scaled q).
  { unfold Qle, to_Q in Hle. cbn [Qnum Qden] in Hle.
    apply Z.mul_le_mono_pos_r in Hle; [exact Hle | reflexivity]. }
  generalize (Pos2Z.is_pos (2 ^ 1074)). generalize (Zpos (2 ^ 1074)).
  intros D HD.
  destruct (Z.ltb_spec (scaled p) (0 * D)),
           (Z.ltb_spec (scaled q) (0 * D)),
           (Z.ltb_spec (scaled p) (80 * D)),
           (Z.ltb_spec (scaled q) (80 * D)),
           (Z.leb_spec (scaled p) (100 * D)),
           (Z.leb_spec (scaled q) (100 * D)); cbn [severity]; lia.
Qed.

Lemma from_percentage_monotone_witness :
  (severity (from_percentage (of_Z 80))
   <= severity (from_percentage (of_Z 100)))%nat.
Proof.
  apply (proj1 from_percentage_monotone (of_Z 80) (of_Z 100));
    try (vm_compute; reflexivity).
  vm_compute. discriminate.
Defined.

End StatusMoreFacts.

(* ================================================================== *)
(** * The strategist: the response, the items, the run *)

Module StrategistMoreFacts.
Import Format Strategist ContainsFacts StringFacts AnalystFacts
       StrategistFacts AnalystMoreFacts.

(** ** Reading the response of the backend *)

Lemma lstrip_head (s : pystr) (c : N) (r : pystr) :
  lstrip s = c :: r -> isspace c = false.
Proof.
  unfold lstrip. destruct (span isspace s) as [a b] eqn:E.
  destruct (span_spec _ _ _ _ E) as (_ & _ & H). cbn [snd].
  intros ->. exact H.
Qed.

Section Response.
Context {B : Builtins}.

Lemma item_text_head (line r : pystr) :
  In r (item_text line) -> r <> [] /\ isspace (hd 32%N r) = false.
Proof.
  unfold item_text.
  destruct (negb (is_header line) && is_item line) eqn:E; [|intros []].
  apply andb_true_iff in E. destruct E as [_ Hi].
  destruct (strip_marker line) as [|c s] eqn:Es; [intros []|].
  intros [<- | []]. split; [discriminate|]. cbn [hd].
  unfold strip_marker in Es. unfold is_item in Hi.
  destruct (after_numeral line) as [rest|].
  - exact (lstrip_head _ _ _ Es).
  - destruct line as [|c0 rest]; [discriminate Hi|].
    rewrite Hi in Es. exact (lstrip_head _ _ _ Es).
Qed.

(** The loop of [_parse_response], for any summary and any
    recommendations collected so far. *)
Lemma scan_lines_spec (lines : list pystr) (summary : pystr)
    (recommendations : list pystr) :
  scan_lines lines summary recommendations
  = (match summary with
     | [] => match find is_summary_line lines with
             | Some line => line
             | None => []
             end
     | _ :: _ => summary
     end,
     recommendations ++ flat_map item_text lines).
Proof.
  revert summary recommendations.
  induction lines as [|line lines IH]; intros summary recommendations;
    cbn [scan_lines find flat_map].
  - rewrite app_nil_r. destruct summary; reflexivity.
  - unfold is_summary_line at 1. unfold item_text at 1.
    destruct (is_header line) eqn:Eh; cbn [negb andb].
    + rewrite IH. reflexivity.
    + destruct (is_item line) eqn:Ei; cbn [negb andb].
      * destruct (strip_marker line) as [|c s]; rewrite IH.
        { reflexivity. }
        { rewrite <- app_assoc. reflexivity. }
      * destruct summary as [|c0 s0].
        { destruct (20 <? List.length line)%nat eqn:El; rewrite IH.
          - destruct line as [|c l]; [discriminate El | reflexivity].
          - reflexivity. }
        { rewrite IH. reflexivity. }
Qed.

End Response.

(** X17. What [_parse_response] makes of a response, whose lines are
    taken stripped and without the empty ones: the summary is the first
    line that is neither a header nor an item and has more than twenty
    characters, and the recommendations are the texts of the item lines
    that are not headers and have text after the marker, in their order;
    a fixed summary and two fixed recommendations stand in when there is
    none.  So the summary is never empty, there is always at least one
    recommendation, and no recommendation is empty or starts with
    whitespace. *)
Theorem parse_response_spec :
  forall (B : Builtins) (text : pystr),
    let lines := response_lines text in
    let result := _parse_response text in
    fst result
    = match find is_summary_line lines with
      | Some line => line
      | None => py "Budget analysis completed."
      end
    /\ snd result
       = match flat_map item_text lines with
         | [] => [ py "Track your expenses regularly.";
                   py "Create a budget plan." ]
         | item :: items => item :: items
         end
    /\ fst result <> [] /\ snd result <> []
    /\ Forall (fun r => r <> [] /\ isspace (hd 32%N r) = false) (snd result).
Proof.
  intros B text lines result.
  assert (E : result
              = (match find is_summary_line lines with
                 | Some line => line
                 | None => py "Budget analysis completed."
                 end,
                 match flat_map item_text lines with
                 | [] => [ py "Track your expenses regularly.";
                           py "Create a budget plan." ]
                 | item :: items => item :: items
                 end)).
  { unfold result, _parse_response. fold (response_lines text). fold lines.
    rewrite scan_lines_spec. cbn [app].
    destruct (find is_summary_line lines) as [line|] eqn:Ef.
    - apply find_some in Ef. destruct Ef as [_ Ef].
      unfold is_summary_line in Ef. apply andb_true_iff in Ef.
      destruct Ef as [_ El].
      destruct line as [|c l]; [discriminate El|].
      destruct (flat_map item_text lines); reflexivity.
    - destruct (flat_map item_text lines); reflexivity. }
  rewrite E. cbn [fst snd].
  split; [reflexivity|]. split; [reflexivity|].
  split; [|split].
  - destruct (find is_summary_line lines) as [line|] eqn:Ef;
      [|discriminate].
    apply find_some in Ef. destruct Ef as [_ Ef].
    unfold is_summary_line in Ef. apply andb_true_iff in Ef.
    destruct Ef as [_ El]. destruct line; [discriminate El | discriminate].
  - destruct (flat_map item_text lines); discriminate.
  - destruct (flat_map item_text lines) as [|item items] eqn:Ei.
    + repeat constructor; discriminate.
    + rewrite <- Ei. apply Forall_forall. intros r Hr.
      apply in_flat_map in Hr. destruct Hr as (line & _ & Hr).
      exact (item_text_head line r Hr).
Qed.

(** ** The items: how many, and with which priorities *)

Lemma bind_ok {A C : Type} (c : Result A) (k : A -> Result C) (r : C) :
  bind c k = Ok r -> exists a, c = Ok a /\ k a = Ok r.
Proof. destruct c as [a|e]; cbn; intros H; [eauto | discriminate]. Qed.

Section Items.
Context {B : Builtins}.

(** The last loop adds at most one item, of priority [MEDIUM], and only
    for a category that no earlier description names. *)
Lemma extra_action_shape (a : Analysis.t) (actions : list ActionItem.t)
    (entries : dict float) (r : list ActionItem.t) :
  extra_action a actions entries = Ok r ->
  r = actions
  \/ exists cat item,
       r = actions ++ [item]
       /\ In cat (Dict.keys entries)
       /\ ActionItem.description item
          = py "Create savings plan for " ++ cat ++ py " category"
       /\ ActionItem.priority item = MEDIUM
       /\ referenced cat actions = false.
Proof.
  induction entries as [|[cat amount] entries IH]; cbn [extra_action].
  - intros H. inversion H. auto.
  - intros H. apply bind_ok in H. destruct H as (pct & _ & H).
    destruct (gtb pct (of_Z 40)) eqn:Eg; cbn [andb] in H.
    + destruct (referenced cat actions) eqn:Er; cbn [negb] in H.
      * destruct (IH H) as [-> | (c & item & Hr & Hin & Rest)]; [auto|].
        right. exists c, item. split; [exact Hr|].
        split; [right; exact Hin | exact Rest].
      * apply bind_ok in H. destruct H as (s & _ & H). inversion H.
        right. eexists cat, _. split; [reflexivity|].
        split; [left; reflexivity|]. cbn. auto.
    + destruct (IH H) as [-> | (c & item & Hr & Hin & Rest)]; [auto|].
      right. exists c, item. split; [exact Hr|].
      split; [right; exact Hin | exact Rest].
Qed.

Lemma warning_actions_shape (a : Analysis.t)
    (top_categories : list (pystr * float)) (baseline : float)
    (r : list ActionItem.t) :
  warning_actions a top_categories baseline = Ok r ->
  Forall (fun item => ActionItem.priority item = MEDIUM) r.
Proof.
  unfold warning_actions. intros H. apply bind_ok in H.
  destruct H as (targeted & Ht & H). inversion H; subst r.
  apply Forall_app. split; [|repeat constructor].
  destruct top_categories as [|top_cat others].
  - inversion Ht. constructor.
  - apply bind_ok in Ht. destruct Ht as (s & _ & Ht). inversion Ht.
    repeat constructor.
Qed.

Lemma over_budget_actions_shape (a : Analysis.t)
    (top_categories : list (pystr * float)) (baseline : float)
    (r : list ActionItem.t) :
  over_budget_actions a top_categories baseline = Ok r ->
  exists targeted last,
    r = targeted ++ [last]
    /\ Forall (fun item => ActionItem.priority item = HIGH) targeted
    /\ ActionItem.priority last = URGENT.
Proof.
  unfold over_budget_actions. intros H. apply bind_ok in H.
  destruct H as (targeted & Ht & H). inversion H; subst r.
  eexists targeted, _. split; [reflexivity|]. split; [|reflexivity].
  destruct top_categories as [|top_cat others].
  - inversion Ht. constructor.
  - apply bind_ok in Ht. destruct Ht as (q & _ & Ht).
    apply bind_ok in Ht. destruct Ht as (s & _ & Ht).
    apply bind_ok in Ht. destruct Ht as (second & Hsec & Ht).
    inversion Ht. constructor; [reflexivity|].
    destruct others as [|second_cat others'].
    + inversion Hsec. constructor.
    + apply bind_ok in Hsec. destruct Hsec as (s2 & _ & Hsec).
      inversion Hsec. repeat constructor.
Qed.

Lemma filter_urgent_none (l : list ActionItem.t) (p : ActionPriority) :
  p <> URGENT ->
  Forall (fun item => ActionItem.priority item = p) l ->
  filter is_urgent l = [].
Proof.
  intros Hp. induction 1 as [|x l Hx _ IH]; [reflexivity|].
  cbn [filter]. unfold is_urgent at 1. rewrite Hx, IH.
  destruct p; try reflexivity. congruence.
Qed.

Lemma Forall_allowed (s : BudgetStatus) (p : ActionPriority)
    (l : list ActionItem.t) :
  priority_allowed s p = true ->
  Forall (fun item => ActionItem.priority item = p) l ->
  Forall (fun item => priority_allowed s (ActionItem.priority item) = true) l.
Proof.
  intros Hp. apply Forall_impl. intros item ->. exact Hp.
Qed.

End Items.

(** X18. The priorities of the items follow the status: under [HEALTHY]
    every item is [LOW] or [MEDIUM], under [WARNING] every item is
    [MEDIUM], and otherwise no item is [LOW] and exactly one item is
    [URGENT]; under [HEALTHY] and [WARNING] none is. *)
Theorem action_priorities :
  forall (B : Builtins) (a : Analysis.t) (items : list ActionItem.t),
    _generate_actions a = Ok items ->
    Forall (fun item =>
              priority_allowed (Analysis.budget_status a)
                (ActionItem.priority item) = true) items
    /\ List.length (filter is_urgent items)
       = match Analysis.budget_status a with
         | HEALTHY | WARNING => 0%nat
         | _ => 1%nat
         end.
Proof.
  intros B a items H. unfold _generate_actions in H.
  apply bind_ok in H. destruct H as (actions & Hs & H).
  assert (X : exists extra,
             items = actions ++ extra
             /\ Forall (fun item => ActionItem.priority item = MEDIUM) extra).
  { destruct (extra_action_shape _ _ _ _ H)
      as [-> | (cat & item & -> & _ & _ & Hp & _)].
    - exists []. rewrite app_nil_r. auto.
    - exists [item]. auto. }
  destruct X as (extra & -> & Hextra).
  assert (Uextra : filter is_urgent extra = [])
    by (apply (filter_urgent_none extra MEDIUM); [discriminate | exact Hextra]).
  rewrite filter_app, Uextra, app_nil_r.
  unfold status_actions in Hs.
  destruct (Analysis.budget_status a) eqn:Es.
  - inversion Hs; subst actions. split; [|reflexivity].
    apply Forall_app. split; [repeat constructor|].
    apply (Forall_allowed HEALTHY MEDIUM); [reflexivity | exact Hextra].
  - pose proof (warning_actions_shape _ _ _ _ Hs) as Hw. split.
    + apply Forall_app. split;
        apply (Forall_allowed WARNING MEDIUM); (reflexivity || assumption).
    + rewrite (filter_urgent_none actions MEDIUM);
        [reflexivity | discriminate | exact Hw].
  - destruct (over_budget_actions_shape _ _ _ _ Hs)
      as (targeted & last & -> & Ht & Hl). split.
    + apply Forall_app. split; [apply Forall_app; split|].
      * apply (Forall_allowed OVER_BUDGET HIGH); [reflexivity | exact Ht].
      * repeat constructor. rewrite Hl. reflexivity.
      * apply (Forall_allowed OVER_BUDGET MEDIUM);
          [reflexivity | exact Hextra].
    + rewrite filter_app, (filter_urgent_none targeted HIGH);
        [|discriminate | exact Ht].
      cbn [filter app]. unfold is_urgent. rewrite Hl. reflexivity.
  - destruct (over_budget_actions_shape _ _ _ _ Hs)
      as (targeted & last & -> & Ht & Hl). split.
    + apply Forall_app. split; [apply Forall_app; split|].
      * apply (Forall_allowed UNKNOWN HIGH); [reflexivity | exact Ht].
      * repeat constructor. rewrite Hl. reflexivity.
      * apply (Forall_allowed UNKNOWN MEDIUM);
          [reflexivity | exact Hextra].
    + rewrite filter_app, (filter_urgent_none targeted HIGH);
        [|discriminate | exact Ht].
      cbn [filter app]. unfold is_urgent. rewrite Hl. reflexivity.
Qed.

Lemma action_priorities_witness :
  exists items,
    @_generate_actions Reference.builtins
      (Reference.sample_analysis OVER_BUDGET) = Ok items
    /\ List.length (filter is_urgent items) = 1%nat.
Proof.
  assert (E : exists items,
             @_generate_actions Reference.builtins
               (Reference.sample_analysis OVER_BUDGET) = Ok items)
    by (vm_compute; eexists; reflexivity).
  destruct E as [items E]. exists items. split; [exact E|].
  apply (action_priorities Reference.builtins
           (Reference.sample_analysis OVER_BUDGET) items E).
Defined.

(** ** The items of an analysis as the analyst produces them *)

Section Produced.
Context {B : Builtins}.

Lemma status_actions_ok (a : Analysis.t) (days : float)
    (first : pystr * float) (rest : list (pystr * float)) :
  is_zero (Analysis.total_expenses a) = false ->
  of_int (Analysis.days_analyzed a) = Ok days -> is_zero days = false ->
  sorted_desc (Analysis.category_breakdown a) = first :: rest ->
  exists actions,
    status_actions a = Ok actions
    /\ map ActionItem.description actions
       = match Analysis.budget_status a with
         | HEALTHY => [ py "Track your weekly expenses";
                        py "Set a savings goal" ]
         | WARNING => [ py "Reduce " ++ fst first ++ py " spending by 15%";
                        py "Cancel unnecessary subscriptions" ]
         | _ =>
           (py "URGENT: Cut " ++ fst first ++ py " spending by 30%")
           :: match rest with
              | second :: _ =>
                [ py "Reduce " ++ fst second ++ py " spending by 20%" ]
              | [] => []
              end
           ++ [ py "Stop all non-essential spending immediately" ]
         end.
Proof.
  intros Zt Ed Zd Hs. unfold status_actions, top_categories_of.
  rewrite Hs, firstn_two.
  assert (Desc : forall l, map ActionItem.description l
                           = map (fun b => fst (fst b)) (map brief l)).
  { intros l. rewrite map_map. reflexivity. }
  assert (Over : exists actions,
             over_budget_actions a
               (first :: match rest with second :: _ => [second] | [] => [] end)
               (monthly_reduction_of a) = Ok actions
             /\ map ActionItem.description actions
                = (py "URGENT: Cut " ++ fst first ++ py " spending by 30%")
                  :: match rest with
                     | second :: _ =>
                       [ py "Reduce " ++ fst second ++ py " spending by 20%" ]
                     | [] => []
                     end
                  ++ [ py "Stop all non-essential spending immediately" ]).
  { destruct (over_budget_branch a days first
                (match rest with second :: _ => [second] | [] => [] end)
                (monthly_reduction_of a) Zt Ed Zd) as (actions & Ha & Hb).
    exists actions. split; [exact Ha|]. rewrite Desc, Hb.
    unfold over_budget_briefs. destruct rest; reflexivity. }
  destruct (Analysis.budget_status a).
  - eexists. split; reflexivity.
  - destruct (warning_branch a days first
                (match rest with second :: _ => [second] | [] => [] end)
                (monthly_reduction_of a) Ed Zd) as (actions & Ha & Hb).
    exists actions. split; [exact Ha|]. rewrite Desc, Hb. reflexivity.
  - exact Over.
  - exact Over.
Qed.

End Produced.


(** On an analysis as the analyst produces them the items are generated,
    and there are two, three or four of them. *)
Lemma generate_actions_count {B : Builtins} (a : Analysis.t) :
  well_formed a = true ->
  exists items,
    _generate_actions a = Ok items
    /\ (2 <= List.length items <= 4)%nat.
Proof.
  intros W.
  destruct (well_formed_unfold a W) as (Hbd & Zt & days & Ed & Zd).
  destruct (sorted_desc_nonempty _ Hbd) as (first & rest & Hs).
  destruct (status_actions_ok a days first rest Zt Ed Zd Hs)
    as (actions & Ha & Hdesc).
  destruct (extra_action_spec a days actions (Analysis.category_breakdown a)
              Ed Zd) as (extra & He & Hextra).
  exists (actions ++ extra). split.
  - unfold _generate_actions. rewrite Ha. cbn [bind]. exact He.
  - rewrite length_app.
    assert (L1 : (2 <= List.length actions <= 3)%nat).
    { rewrite <- (length_map ActionItem.description), Hdesc.
      destruct (Analysis.budget_status a); cbn [List.length]; try lia;
        destruct rest; cbn [List.length app]; lia. }
    assert (L2 : (List.length extra <= 1)%nat).
    { destruct (find _ _) as [[cat amount]|].
      - rewrite <- (length_map brief), Hextra. cbn. lia.
      - subst extra. cbn. lia. }
    lia.
Qed.

Lemma llm_recommendations_raises {B : Builtins} {llm : LLMService}
    (a : Analysis.t) (e : exn) :
  _generate_llm_recommendations a = Raise e ->
  exists reason, e = RuntimeError reason.
Proof.
  unfold _generate_llm_recommendations, generate.
  destruct (post _); intros G; inversion G. eauto.
Qed.

(** X19. On an analysis as the analyst produces them, the strategist
    fails only with the backend: when the backend fails, [execute] raises
    its [RuntimeError]; when it answers, [execute] returns a
    recommendation whose summary and recommendations are those read from
    the answer, with the two goals and with two, three or four action
    items. *)
Theorem execute_on_analyst_output :
  forall (B : Builtins) (llm : LLMService) (a : Analysis.t),
    well_formed a = true ->
    match _generate_llm_recommendations a with
    | Raise e =>
      execute a = Raise e /\ exists reason, e = RuntimeError reason
    | Ok text =>
      exists r,
        execute a = Ok r
        /\ (Recommendation.summary r, Recommendation.recommendations r)
           = _parse_response text
        /\ Recommendation.goals r = _generate_goals a
        /\ List.length (Recommendation.goals r) = 2%nat
        /\ (2 <= List.length (Recommendation.action_items r) <= 4)%nat
    end.
Proof.
  intros B llm a W.
  destruct (generate_actions_count a W) as (items & Hi & Hlen).
  unfold execute.
  destruct (_generate_llm_recommendations a) as [text|e] eqn:G; cbn [bind].
  - destruct (_parse_response text) as [summary recs].
    rewrite Hi. cbn [bind]. eexists. split; [reflexivity|].
    cbn. repeat split; exact (proj1 Hlen) || exact (proj2 Hlen).
  - split; [reflexivity | exact (llm_recommendations_raises a e G)].
Qed.

Lemma execute_on_analyst_output_witness :
  exists r,
    @execute Reference.builtins (Reference.answering [])
      (Reference.sample_analysis WARNING) = Ok r
    /\ List.length (Recommendation.goals r) = 2%nat.
Proof.
  pose proof (execute_on_analyst_output Reference.builtins
                (Reference.answering [])
                (Reference.sample_analysis WARNING) eq_refl) as H.
  cbn [_generate_llm_recommendations generate post Reference.answering] in H.
  destruct H as (r & Hr & _ & _ & Hg & _).
  exists r. split; [exact Hr | exact Hg].
Defined.



(** ** The savings *)

Lemma monthly_savings_not_negative (amount rate : float)
    (days_analyzed : Z) (s : float) :
  monthly_savings amount rate days_analyzed = Ok s ->
  strictly_negative amount = false -> strictly_negative rate = false ->
  0 < days_analyzed ->
  strictly_negative s = false.
Proof.
  unfold monthly_savings. intros H Na Nr Hd.
  apply bind_ok in H. destruct H as (days & Ed & H).
  unfold div in H. destruct (is_zero days) eqn:Zd; [discriminate H|].
  inversion H. apply div_not_negative.
  - apply mul_not_negative; [|reflexivity].
    apply mul_not_negative; assumption.
  - exact (of_int_not_negative _ _ Hd Ed).
  - exact Zd.
Qed.

Lemma firstn_forall {A : Type} (P : A -> Prop) (n : nat) (l : list A) :
  Forall P l -> Forall P (firstn n l).
Proof.
  intros H. rewrite <- (firstn_skipn n l) in H.
  apply Forall_app in H. tauto.
Qed.

Section Savings.
Context {B : Builtins}.
Variable a : Analysis.t.
Hypothesis days_positive : 0 < Analysis.days_analyzed a.

Let nn (entry : pystr * float) : Prop := strictly_negative (snd entry) = false.

Lemma warning_savings (top_categories : list (pystr * float))
    (baseline : float) (r : list ActionItem.t) :
  warning_actions a top_categories baseline = Ok r ->
  Forall nn top_categories -> strictly_negative baseline = false ->
  Forall savings_not_negative r.
Proof.
  unfold warning_actions. intros H Ht Hb. apply bind_ok in H.
  destruct H as (targeted & Htg & H). inversion H; subst r.
  apply Forall_app. split; [|repeat constructor; exact Hb].
  destruct top_categories as [|top_cat others].
  - inversion Htg. constructor.
  - apply bind_ok in Htg. destruct Htg as (s & Hs & Htg). inversion Htg.
    repeat constructor. unfold savings_not_negative. cbn.
    inversion Ht; subst.
    apply (monthly_savings_not_negative _ _ _ _ Hs);
      [assumption | reflexivity | exact days_positive].
Qed.

Lemma over_budget_savings (top_categories : list (pystr * float))
    (baseline : float) (r : list ActionItem.t) :
  over_budget_actions a top_categories baseline = Ok r ->
  Forall nn top_categories -> strictly_negative baseline = false ->
  Forall savings_not_negative r.
Proof.
  unfold over_budget_actions. intros H Ht Hb. apply bind_ok in H.
  destruct H as (targeted & Htg & H). inversion H; subst r.
  apply Forall_app. split.
  - destruct top_categories as [|top_cat others].
    + inversion Htg. constructor.
    + inversion Ht as [|? ? Htop Hothers]; subst.
      apply bind_ok in Htg. destruct Htg as (q & _ & Htg).
      apply bind_ok in Htg. destruct Htg as (s & Hs & Htg).
      apply bind_ok in Htg. destruct Htg as (second & Hsec & Htg).
      inversion Htg. constructor.
      * unfold savings_not_negative. cbn.
        apply (monthly_savings_not_negative _ _ _ _ Hs);
          [assumption | reflexivity | exact days_positive].
      * destruct others as [|second_cat others'].
        { inversion Hsec. constructor. }
        { inversion Hothers; subst.
          apply bind_ok in Hsec. destruct Hsec as (s2 & Hs2 & Hsec).
          inversion Hsec. repeat constructor.
          unfold savings_not_negative. cbn.
          apply (monthly_savings_not_negative _ _ _ _ Hs2);
            [assumption | reflexivity | exact days_positive]. }
  - repeat constructor. unfold savings_not_negative. cbn.
    apply mul_not_negative; [exact Hb | reflexivity].
Qed.

Lemma extra_savings (actions : list ActionItem.t) (entries : dict float)
    (r : list ActionItem.t) :
  extra_action a actions entries = Ok r ->
  Forall nn entries -> Forall savings_not_negative actions ->
  Forall savings_not_negative r.
Proof.
  induction entries as [|[cat amount] entries IH]; cbn [extra_action];
    intros H He Ha.
  - inversion H; subst. exact Ha.
  - inversion He as [|? ? Hamt He']; subst.
    apply bind_ok in H. destruct H as (pct & _ & H).
    destruct (gtb pct (of_Z 40) && negb (referenced cat actions)).
    + apply bind_ok in H. destruct H as (s & Hs & H). inversion H.
      apply Forall_app. split; [exact Ha|]. repeat constructor.
      unfold savings_not_negative. cbn.
      apply (monthly_savings_not_negative _ _ _ _ Hs);
        [exact Hamt | reflexivity | exact days_positive].
    + exact (IH H He' Ha).
Qed.

Lemma generate_actions_savings (items : list ActionItem.t) :
  Forall nn (Analysis.category_breakdown a) ->
  strictly_negative (Analysis.monthly_projection a) = false ->
  _generate_actions a = Ok items ->
  Forall savings_not_negative items.
Proof.
  intros Hbd Hmp H. unfold _generate_actions in H.
  apply bind_ok in H. destruct H as (actions & Hs & H).
  apply (extra_savings _ _ _ H Hbd).
  assert (Hb : strictly_negative (monthly_reduction_of a) = false).
  { unfold monthly_reduction_of. destruct (truthy _); [|reflexivity].
    apply mul_not_negative; [exact Hmp | reflexivity]. }
  assert (Ht : Forall nn (top_categories_of a)).
  { unfold top_categories_of. apply firstn_forall.
    apply (Permutation_Forall (Permutation_sym (sorted_desc_perm _))).
    exact Hbd. }
  unfold status_actions in Hs.
  destruct (Analysis.budget_status a).
  - inversion Hs. repeat constructor. unfold savings_not_negative. cbn.
    apply mul_not_negative; [exact Hb | reflexivity].
  - exact (warning_savings _ _ _ Hs Ht Hb).
  - exact (over_budget_savings _ _ _ Hs Ht Hb).
  - exact (over_budget_savings _ _ _ Hs Ht Hb).
Qed.

End Savings.

(** X21. No action item promises negative savings: when no amount of the
    expenses is negative and the number of days is positive, the savings
    of every item that the strategist generates for the analysis are
    zero, positive or not a number, never below zero. *)
Theorem savings_never_negative :
  forall (B : Builtins) (sandbox : Sandbox) (enable : bool)
         (expenses : list Expense.t) (days_analyzed : Z)
         (income : option float) (a : Analysis.t)
         (items : list ActionItem.t),
    Analyst.execute enable expenses days_analyzed income = Ok a ->
    Forall (fun e => strictly_negative (Expense.amount e) = false)
      expenses ->
    0 < days_analyzed ->
    _generate_actions a = Ok items ->
    Forall savings_not_negative items.
Proof.
  intros B sandbox enable expenses days_analyzed income a items
         H Hamt Hdays Hi.
  destruct (execute_inversion _ _ _ _ _ H)
    as (_ & _ & days & Ed & Zd & _ & _ & Emp & Edays & Ebd & _).
  apply (generate_actions_savings a).
  - rewrite Edays. exact Hdays.
  - rewrite Ebd. apply breakdown_not_negative. exact Hamt.
  - rewrite Emp. apply mul_not_negative; [|reflexivity].
    apply div_not_negative; [| |exact Zd].
    + apply sum_not_negative. apply Forall_map. exact Hamt.
    + exact (of_int_not_negative _ _ Hdays Ed).
  - exact Hi.
Qed.

Lemma savings_never_negative_witness :
  exists a items,
    @Analyst.execute Reference.builtins Reference.sandbox_running true
      Reference.sample_expenses 7 (Some (of_Z 15000)) = Ok a
    /\ @_generate_actions Reference.builtins a = Ok items
    /\ Forall savings_not_negative items.
Proof.
  evar (a : Analysis.t).
  assert (Ea : @Analyst.execute Reference.builtins
                 Reference.sandbox_running true Reference.sample_expenses 7
                 (Some (of_Z 15000)) = Ok a)
    by (unfold a; vm_compute; reflexivity).
  evar (items : list ActionItem.t).
  assert (Ei : @_generate_actions Reference.builtins a = Ok items)
    by (unfold items, a; vm_compute; reflexivity).
  exists a, items. split; [exact Ea|]. split; [exact Ei|].
  apply (savings_never_negative Reference.builtins
           Reference.sandbox_running true Reference.sample_expenses 7
           (Some (of_Z 15000)) a items Ea).
  - repeat constructor.
  - lia.
  - exact Ei.
Defined.

End StrategistMoreFacts.

(* ================================================================== *)
(** * The pipeline: what is stored, and what the search changes *)

Module PipelineFacts.
Import Orchestrator SearcherFacts AnalystFacts AnalystMoreFacts
       StrategistMoreFacts.

Lemma searcher_core_fields {tool : SearchTool} (threshold : float)
    (expenses : list Expense.t) :
  map core_fields (Searcher.execute threshold expenses)
  = map core_fields expenses.
Proof.
  rewrite execute_pointwise, map_map. apply map_ext. intros e.
  destruct (Searcher.is_searchable threshold e); [|reflexivity].
  unfold core_fields.
  destruct (search_one_fields e) as (-> & -> & ->). reflexivity.
Qed.


(** The expenses that go on to the analyst. *)
Lemma searched_core_fields {tool : SearchTool} (self : Orchestrator.t)
    (enable_search : bool) (expenses : list Expense.t) :
  map core_fields
    (match enable_search, searcher self with
     | true, Some threshold => Searcher.execute threshold expenses
     | _, _ => expenses
     end)
  = map core_fields expenses.
Proof.
  destruct enable_search; [|reflexivity].
  destruct (searcher self); [|reflexivity].
  apply searcher_core_fields.
Qed.

(** X22. What a run leaves in the storage, a write that fails leaving
    what it wrote to as it was.  A run that returns has overwritten the
    expenses file with the expenses it returns and added the analysis it
    returns to the saved analyses; these expenses are those of the
    classifier up to their metadata.  A run that raises never adds an
    analysis; unless the error is the [OSError] of a write it leaves the
    storage as it was; and when it did change the storage, the write of
    the analysis failed after the expenses file had been overwritten. *)
Theorem analyze_expenses_storage :
  forall (B : Builtins) (llm : LLMService) (tool : SearchTool)
         (sandbox : Sandbox) (disk : Storage.Disk) (clock : Clock)
         (self : Orchestrator.t) (expense_texts : list pystr)
         (income : option float) (days_analyzed : Z)
         (enable_search : bool) (st : Storage.store),
    let run :=
      analyze_expenses self expense_texts income days_analyzed
        enable_search st in
    match fst run with
    | Ok r =>
      snd run
      = {| Storage.expenses_file := Some (expenses r);
           Storage.analyses_dir := analysis r :: Storage.analyses_dir st |}
      /\ map core_fields (expenses r)
         = map core_fields (Classifier.execute expense_texts)
      /\ Storage.write_fails st = false
    | Raise e =>
      Storage.analyses_dir (snd run) = Storage.analyses_dir st
      /\ (e <> OSError -> snd run = st)
      /\ (snd run <> st ->
          e = OSError
          /\ Storage.write_fails st = false
          /\ exists saved,
               map core_fields saved
               = map core_fields (Classifier.execute expense_texts)
               /\ snd run
                  = {| Storage.expenses_file := Some saved;
                       Storage.analyses_dir := Storage.analyses_dir st |})
    end.
Proof.
  intros B llm tool sandbox disk clock self expense_texts income
         days_analyzed enable_search st run.
  unfold run, analyze_expenses.
  destruct (Classifier.execute expense_texts) as [|e0 es] eqn:Ec;
    [cbn; intuition congruence|].
  pose proof (searched_core_fields self enable_search (e0 :: es)) as Hcore.
  set (searched := match enable_search, searcher self with
                   | true, Some threshold =>
                     Searcher.execute threshold (e0 :: es)
                   | _, _ => e0 :: es
                   end) in *.
  destruct (Analyst.execute (enable_code_executor self) searched
              days_analyzed income) as [a|e]; [|cbn; intuition congruence].
  destruct (Strategist.execute a) as [r|e]; [|cbn; intuition congruence].
  unfold Storage.save_expenses.
  destruct (Storage.write_fails st) eqn:W1; [cbn; intuition congruence|].
  cbv iota beta. unfold Storage.save_analysis.
  destruct (Storage.write_fails
              {| Storage.expenses_file := Some searched;
                 Storage.analyses_dir := Storage.analyses_dir st |}) eqn:W2;
    cbn [fst snd].
  - split; [reflexivity|]. split; [congruence|]. intros _.
    split; [reflexivity|]. split; [reflexivity|]. exists searched. auto.
  - auto.
Qed.

Lemma analyze_expenses_storage_witness :
  let run :=
    @analyze_expenses Reference.builtins (Reference.answering [])
      (Reference.finding []) Reference.sandbox_running
      Samples.disk_failing_after_expenses Reference.clock
      {| searcher := None; enable_code_executor := false |}
      [py "kahve 50 TL"] None 7 false
      {| Storage.expenses_file := None; Storage.analyses_dir := [] |} in
  fst run = Raise OSError
  /\ Storage.analyses_dir (snd run) = []
  /\ exists saved,
       snd run = {| Storage.expenses_file := Some saved;
                    Storage.analyses_dir := [] |}.
Proof.
  intros run.
  pose proof (analyze_expenses_storage Reference.builtins
                (Reference.answering []) (Reference.finding [])
                Reference.sandbox_running
                Samples.disk_failing_after_expenses Reference.clock
                {| searcher := None; enable_code_executor := false |}
                [py "kahve 50 TL"] None 7 false
                {| Storage.expenses_file := None;
                   Storage.analyses_dir := [] |}) as H.
  cbv zeta in H. fold run in H.
  assert (E : fst run = Raise OSError) by (vm_compute; reflexivity).
  rewrite E in H. destruct H as (Hdir & _ & Hchanged).
  destruct Hchanged as (_ & _ & saved & _ & Hst).
  - vm_compute. discriminate.
  - split; [exact E|]. split; [exact Hdir|]. exists saved. exact Hst.
Defined.



(** ** Failures of a request that the API admits *)




End PipelineFacts.

(* ================================================================== *)
(** * The generation service: which model serves which agent *)

Module ServiceFacts.
Import Ollama.

Lemma select_model_eq (self : config) (task_type : string) :
  select_model self task_type
  = if String.eqb (strategy self) "accurate"
       || negb (String.eqb (strategy self) "fast")
          && String.eqb task_type "recommend"
    then accurate_model self
    else fast_model self.
Proof.
  unfold select_model.
  destruct (String.eqb (strategy self) "fast") eqn:Ef.
  - apply String.eqb_eq in Ef. rewrite Ef. reflexivity.
  - destruct (String.eqb (strategy self) "accurate"); [reflexivity|].
    cbn [orb negb andb].
    destruct (String.eqb task_type "recommend") eqn:Er.
    + apply String.eqb_eq in Er. subst task_type. reflexivity.
    + destruct (existsb _ _); reflexivity.
Qed.

(** X25. [select_model] answers the accurate model in two cases only:
    when the strategy is "accurate", and when the strategy is anything
    but "fast" and "accurate" and the task is "recommend".  In every
    other case, among them every task type the code does not know, it
    answers the fast model; and when the two models are configured alike,
    as they are by default, the choice makes no difference. *)
Theorem select_model_cases :
  forall (self : config) (task_type : string),
    select_model self task_type
    = (if String.eqb (strategy self) "accurate"
          || negb (String.eqb (strategy self) "fast")
             && String.eqb task_type "recommend"
       then accurate_model self
       else fast_model self)
    /\ (fast_model self = accurate_model self ->
        select_model self task_type = fast_model self).
Proof.
  intros self task_type. split; [apply select_model_eq|].
  intros E. rewrite select_model_eq, E. destruct (_ || _); reflexivity.
Qed.

Lemma select_model_cases_witness :
  select_model
    {| fast_model := "llama3.2:3b"; accurate_model := "llama3.2:3b";
       strategy := "auto" |} "recommend"
  = "llama3.2:3b".
Proof.
  apply (proj2 (select_model_cases
                  {| fast_model := "llama3.2:3b";
                     accurate_model := "llama3.2:3b";
                     strategy := "auto" |} "recommend")).
  reflexivity.
Defined.

(** ** The requests of the agents *)

Section TwoServers.
Context {B : Builtins}.
Variable self : config.
Variables s1 s2 : Server.

Lemma generate_classify (request : llm_request) :
  strategy self <> "accurate" ->
  agree_on (fast_model self) s1 s2 ->
  task_type request = "classify" ->
  @generate (service self s1) request = @generate (service self s2) request.
Proof.
  intros Hs Ha Ht. unfold generate, service, post.
  rewrite (Ha (payload_of self request None)); [reflexivity|].
  cbn [model payload_of]. rewrite select_model_eq, Ht.
  apply String.eqb_neq in Hs. rewrite Hs. cbn [orb].
  rewrite andb_false_r. reflexivity.
Qed.

Lemma generate_recommend (request : llm_request) :
  strategy self <> "fast" ->
  agree_on (accurate_model self) s1 s2 ->
  task_type request = "recommend" ->
  @generate (service self s1) request = @generate (service self s2) request.
Proof.
  intros Hs Ha Ht. unfold generate, service, post.
  rewrite (Ha (payload_of self request None)); [reflexivity|].
  cbn [model payload_of]. rewrite select_model_eq, Ht.
  apply String.eqb_neq in Hs. rewrite Hs. cbn [negb andb].
  rewrite orb_true_r. reflexivity.
Qed.

Lemma classify_single_agree (text : pystr) :
  strategy self <> "accurate" ->
  agree_on (fast_model self) s1 s2 ->
  @Classifier._classify_single B (service self s1) text
  = @Classifier._classify_single B (service self s2) text.
Proof.
  intros Hs Ha.
  assert (P : @Classifier._parse_llm B (service self s1) text
              = @Classifier._parse_llm B (service self s2) text).
  { unfold Classifier._parse_llm.
    match goal with
    | |- context [@generate (service self s1) ?r] =>
      rewrite (generate_classify r Hs Ha eq_refl)
    end. reflexivity. }
  assert (C : forall d, @Classifier._categorize B (service self s1) d
                        = @Classifier._categorize B (service self s2) d).
  { intros d. unfold Classifier._categorize. destruct d; try reflexivity.
    match goal with
    | |- context [@generate (service self s1) ?r] =>
      rewrite (generate_classify r Hs Ha eq_refl)
    end. reflexivity. }
  unfold Classifier._classify_single, Classifier._parse. rewrite P.
  destruct (match Classifier.re_match (strip text) with
            | Some (group1, group2) => _
            | None => _
            end) as [[d amount]|e]; [|reflexivity].
  cbn [bind]. rewrite C. reflexivity.
Qed.

End TwoServers.

(** X26. Each agent depends on the server only through the model that
    its task selects.  Unless the strategy is "accurate", two servers
    that answer alike for the fast model give the same classification of
    every batch; unless the strategy is "fast", two servers that answer
    alike for the accurate model give the same outcome of the strategist
    on every analysis. *)
Theorem agents_use_the_selected_model :
  forall (B : Builtins) (self : config) (s1 s2 : Server),
    (strategy self <> "accurate" ->
     agree_on (fast_model self) s1 s2 ->
     forall texts,
       @Classifier.execute B (service self s1) texts
       = @Classifier.execute B (service self s2) texts)
    /\ (strategy self <> "fast" ->
        agree_on (accurate_model self) s1 s2 ->
        forall a,
          @Strategist.execute B (service self s1) a
          = @Strategist.execute B (service self s2) a).
Proof.
  intros B self s1 s2. split.
  - intros Hs Ha texts. induction texts as [|text texts IH];
      [reflexivity|].
    cbn [Classifier.execute].
    rewrite (classify_single_agree self s1 s2 text Hs Ha), IH.
    reflexivity.
  - intros Hs Ha a. unfold Strategist.execute.
    unfold Strategist._generate_llm_recommendations.
    match goal with
    | |- context [@generate (service self s1) ?r] =>
      rewrite (generate_recommend self s1 s2 r Hs Ha eq_refl)
    end. reflexivity.
Qed.

Lemma agents_use_the_selected_model_witness :
  @Classifier.execute Reference.builtins
    (service Samples.auto Samples.server_one) [py "hediye"]
  = @Classifier.execute Reference.builtins
      (service Samples.auto Samples.server_two) [py "hediye"].
Proof.
  apply (proj1 (agents_use_the_selected_model Reference.builtins
                  Samples.auto Samples.server_one Samples.server_two)).
  - discriminate.
  - intros p Hp. cbn. rewrite Hp. reflexivity.
Defined.

End ServiceFacts.

(* ================================================================== *)
(** * The dict forms of the models *)

Module ModelFacts.
Import Models.

Lemma priority_value_inj (p q : ActionPriority) :
  priority_value p = priority_value q -> p = q.
Proof. destruct p, q; intros H; try reflexivity; discriminate H. Qed.

Lemma of_optional_str_inj (s t : option pystr) :
  of_optional_str s = of_optional_str t -> s = t.
Proof.
  destruct s, t; intros H; try reflexivity; try discriminate H.
  inversion H. reflexivity.
Qed.

Lemma of_optional_float_inj (s t : option float) :
  of_optional_float s = of_optional_float t -> s = t.
Proof.
  destruct s, t; intros H; try reflexivity; try discriminate H.
  inversion H. reflexivity.
Qed.

(** X27. [ActionItem.from_dict] reads back what [ActionItem.to_dict]
    wrote: the same description, priority, impact and savings; two items
    with the same dict are the same item.  A dict without a description
    raises [KeyError], and one whose priority is not the value of a
    member of the enum raises [ValueError]. *)
Theorem action_item_round_trip :
  (forall a : ActionItem.t,
      action_item_from_dict (action_item_to_dict a)
      = Ok (action_item_view a))
  /\ (forall a a' : ActionItem.t,
         action_item_to_dict a = action_item_to_dict a' -> a = a')
  /\ (forall data,
         Dict.get (py "description") data = None ->
         action_item_from_dict data = Raise (KeyError (py "description")))
  /\ (forall data d v,
         Dict.get (py "description") data = Some d ->
         Dict.get (py "priority") data = Some v ->
         (forall p, v <> JStr (priority_value p)) ->
         action_item_from_dict data
         = Raise (ValueError "not a valid ActionPriority")).
Proof.
  split; [|split; [|split]].
  - intros [d p i s]. destruct p, i, s; vm_compute; reflexivity.
  - intros [d p i s] [d' p' i' s']. unfold action_item_to_dict.
    cbn [ActionItem.description ActionItem.priority ActionItem.impact
         ActionItem.potential_savings].
    intros H. inversion H as [[Hd Hp Hi Hs]].
    apply priority_value_inj in Hp. apply of_optional_str_inj in Hi.
    apply of_optional_float_inj in Hs. subst. reflexivity.
  - intros data H. unfold action_item_from_dict, item. rewrite H.
    reflexivity.
  - intros data d v Hd Hv Hp. unfold action_item_from_dict, item.
    rewrite Hd, Hv. cbn [bind]. unfold priority_of_value.
    destruct v; try reflexivity.
    destruct (find _ _) as [p|] eqn:Ef; [|reflexivity].
    apply find_some in Ef. destruct Ef as [_ Ef].
    apply ContainsFacts.eqb_eq in Ef. subst s.
    exfalso. exact (Hp p eq_refl).
Qed.

Lemma action_item_round_trip_witness :
  action_item_from_dict
    [ (py "description", JStr (py "Set a savings goal"));
      (py "priority", JStr (py "low")) ]
  = Raise (ValueError "not a valid ActionPriority").
Proof.
  apply (proj2 (proj2 (proj2 action_item_round_trip))
           [ (py "description", JStr (py "Set a savings goal"));
             (py "priority", JStr (py "low")) ]
           (JStr (py "Set a savings goal")) (JStr (py "low"))).
  - vm_compute. reflexivity.
  - vm_compute. reflexivity.
  - intros p. destruct p; vm_compute; discriminate.
Defined.

(** X28. [Goal.from_dict] reads back what [Goal.to_dict] wrote, two goals
    with the same dict are the same goal, and a dict that lacks one of
    the four required keys raises [KeyError] for the first one that is
    missing. *)
Theorem goal_round_trip :
  (forall g : Goal.t, goal_from_dict (goal_to_dict g) = Ok (goal_view g))
  /\ (forall g g' : Goal.t, goal_to_dict g = goal_to_dict g' -> g = g')
  /\ (forall data key,
         In key [ py "description"; py "current_value";
                  py "target_value"; py "timeframe" ] ->
         Dict.get key data = None ->
         exists missing,
           goal_from_dict data = Raise (KeyError missing)
           /\ Dict.get missing data = None).
Proof.
  split; [|split].
  - intros [d c t f cat]. destruct cat; vm_compute; reflexivity.
  - intros [d c t f cat] [d' c' t' f' cat']. unfold goal_to_dict.
    cbn [Goal.description Goal.current_value Goal.target_value
         Goal.timeframe Goal.category].
    intros H. inversion H as [[Hd Hc Ht Hf Hcat]].
    apply of_optional_str_inj in Hcat. subst. reflexivity.
  - intros data key Hin Hk. unfold goal_from_dict, item.
    destruct (Dict.get (py "description") data) eqn:E1;
      [|cbn [bind]; eauto].
    destruct (Dict.get (py "current_value") data) eqn:E2;
      [|cbn [bind]; eauto].
    destruct (Dict.get (py "target_value") data) eqn:E3;
      [|cbn [bind]; eauto].
    destruct (Dict.get (py "timeframe") data) eqn:E4;
      [|cbn [bind]; eauto].
    exfalso. cbn [In] in Hin.
    destruct Hin as [<- | [<- | [<- | [<- | []]]]]; congruence.
Qed.

Lemma goal_round_trip_witness :
  exists missing,
    goal_from_dict [ (py "description", JStr (py "Daily spending target")) ]
    = Raise (KeyError missing).
Proof.
  destruct (proj2 (proj2 goal_round_trip)
              [ (py "description", JStr (py "Daily spending target")) ]
              (py "timeframe")) as (missing & H & _).
  - cbn. auto.
  - vm_compute. reflexivity.
  - exists missing. exact H.
Defined.

End ModelFacts.
